(** * PyKNyX: group-communication stack, datapoint types and datapoints

A shallow embedding of the parts of PyKNyX that the specification's
testable properties talk about:

- [pknyx/core/dpt/dpt.py]                     ([DPT.__init__]),
- [pknyx/stack/layer4/t_groupDataService.py]  ([T_GroupDataService]),
- [pyknyx/stack/layer3/n_groupDataService.py] ([N_GroupDataService]),
- [pknyx/stack/stack.py]                      ([Stack.start]),
- [pyknyx/core/datapoint.py]                  ([Datapoint]),

Python objects are an inductive type, exceptions are values of [exn],
a method is a function in a small state/exception/trace monad, and a
[bytearray] that is shared between caller and callee lives in a store
indexed by object identity.  Definitions come first, theorems second. *)

From Stdlib Require Import ZArith Lia List String Ascii Bool.
From stdpp Require Import base gmap strings list.
Import ListNotations.
Open Scope Z_scope.

(* ===================================================================== *)
(** * Part I: definitions                                                *)
(* ===================================================================== *)

(** ** Python exceptions and objects *)

(** The exceptions the modelled code raises or lets through.  [Dangling] is
    not a Python exception: it is what a store access answers for a
    reference that names no object, which no Python program can hold. *)
Inductive exn : Type :=
| TypeError
| IndexError
| ValueError
| AttributeError
| DPTIDValueError
| DPTValueError
| DPTXlatorValueError
| FlagsValueError
| PriorityValueError
| DatapointValueError
| N_GDSValueError
| Dangling.

Global Instance exn_eq_dec : EqDecision exn.
Proof. solve_decision. Defined.

(** The Python objects that reach the modelled code as values and as
    [limits]: [None], integers, strings, tuples and lists.  Floats are left
    out (no arithmetic on them is modelled); like integers they are not
    iterable. *)
#[warnings="-register-all"]
Inductive pyobj : Type :=
| PNone
| PInt (z : Z)
| PStr (s : string)
| PTuple (items : list pyobj)
| PList (items : list pyobj).

(** Python's [==] on these objects is structural. *)
Fixpoint pyobj_eqb (a b : pyobj) {struct a} : bool :=
  let fix items_eqb (l k : list pyobj) {struct l} : bool :=
    match l, k with
    | [], [] => true
    | x :: l', y :: k' => pyobj_eqb x y && items_eqb l' k'
    | _, _ => false
    end in
  match a, b with
  | PNone, PNone => true
  | PInt x, PInt y => Z.eqb x y
  | PStr s, PStr t => String.eqb s t
  | PTuple l, PTuple k => items_eqb l k
  | PList l, PList k => items_eqb l k
  | _, _ => false
  end.

(** [iter(o)] followed by exhausting the iterator: the items of a tuple or
    list, the one-character strings of a string; [TypeError] for an object
    that is not iterable. *)
Definition py_iter (o : pyobj) : exn + list pyobj :=
  match o with
  | PTuple l => inr l
  | PList l => inr l
  | PStr s => inr (map (fun c => PStr (String c EmptyString)) (list_ascii_of_string s))
  | PNone => inl TypeError
  | PInt _ => inl TypeError
  end.

(** Whether the object supports iteration at all. *)
Definition iterable (o : pyobj) : bool :=
  match o with
  | PTuple _ | PList _ | PStr _ => true
  | PNone | PInt _ => false
  end.

(** [tuple(o)]; the result is kept as the list of the tuple's items. *)
Definition py_tuple (o : pyobj) : exn + list pyobj := py_iter o.

(** [t.index(v)]: position of the first item equal to [v]. *)
Fixpoint py_index (t : list pyobj) (v : pyobj) : exn + Z :=
  match t with
  | [] => inl ValueError
  | x :: t' =>
      if pyobj_eqb x v then inr 0
      else match py_index t' v with
           | inr i => inr (i + 1)
           | inl e => inl e
           end
  end.

(** [v in t]. *)
Definition py_in (v : pyobj) (t : list pyobj) : bool :=
  existsb (fun x => pyobj_eqb x v) t.

(** [t[i]] on a tuple, with Python's negative indices. *)
Definition py_getitem {A} (t : list A) (i : Z) : exn + A :=
  let n := Z.of_nat (length t) in
  let j := if i <? 0 then i + n else i in
  if (0 <=? j) && (j <? n)
  then match nth_error t (Z.to_nat j) with
       | Some x => inr x
       | None => inl IndexError
       end
  else inl IndexError.

(** ** The effect monad

A method runs on a state [S], may raise, and leaves a trace of the calls
it makes on its collaborators (events of type [E]).  State changes and
events that precede an exception are kept, as in Python. *)
Module Eff.
Section Eff.
Context {S E : Type}.

Definition M (A : Type) : Type := S -> (exn + A) * S * list E.

Definition ret {A} (a : A) : M A := fun s => (inr a, s, []).

Definition bind {A B} (m : M A) (k : A -> M B) : M B :=
  fun s =>
    match m s with
    | (inl e, s1, l1) => (inl e, s1, l1)
    | (inr a, s1, l1) =>
        match k a s1 with
        | (r, s2, l2) => (r, s2, l1 ++ l2)
        end
    end.

Definition raise {A} (e : exn) : M A := fun s => (inl e, s, []).

Definition emit (ev : E) : M unit := fun s => (inr tt, s, [ev]).

Definition get : M S := fun s => (inr s, s, []).

Definition put (s : S) : M unit := fun _ => (inr tt, s, []).

Definition lift {A} (r : exn + A) : M A := fun s => (r, s, []).

(** [try: m  except e: h] for the single exception class [e]. *)
Definition try_except {A} (m : M A) (e : exn) (h : M A) : M A :=
  fun s =>
    match m s with
    | (inl e', s1, l1) =>
        if decide (e' = e)
        then match h s1 with
             | (r, s2, l2) => (r, s2, l1 ++ l2)
             end
        else (inl e', s1, l1)
    | (inr a, s1, l1) => (inr a, s1, l1)
    end.

Definition result {A} (x : (exn + A) * S * list E) : exn + A := x.1.1.
Definition final {A} (x : (exn + A) * S * list E) : S := x.1.2.
Definition trace {A} (x : (exn + A) * S * list E) : list E := x.2.
End Eff.
Arguments M : clear implicits.
End Eff.

Notation "x <- m ;; k" := (Eff.bind m (fun x => k))
  (at level 100, m at next level, right associativity).
Notation "m ;;; k" := (Eff.bind m (fun _ => k))
  (at level 100, right associativity).

(** ** Datapoint types: [pknyx/core/dpt/dpt.py] *)
Module DPTm.
Section DPT.
  (** The class [DPTID] ([pknyx/core/dpt/dptId.py]) is not part of the
      sources: its instances and its constructor from a string
      (which raises on a malformed identifier) are parameters. *)
Variable DPTID : Type.
Variable DPTID_init : string -> exn + DPTID.

Record DPT : Type := mkDPT {
  _id : DPTID;
  _desc : string;
  _limits : list pyobj;
  _unit : option string
}.

(** [DPT.__init__(self, dptId, desc, limits, unit=None)].  [dptId] is a
    [DPTID] instance or a string to build one from. *)
Definition DPT_init (dptId : DPTID + string) (desc : string)
    (limits : pyobj) (unit : option string) : exn + DPT :=
  match (match dptId with
         | inl i => inr i
         | inr s => DPTID_init s
         end) with
  | inl e => inl e
  | inr i =>
      match py_tuple limits with
      | inr t => inr (mkDPT i desc t unit)
      | inl TypeError => inl DPTValueError
      | inl e => inl e
      end
  end.

(** The [limits] property. *)
Definition limits (d : DPT) : list pyobj := _limits d.
End DPT.
End DPTm.

(** ** Byte buffers *)

(** A [bytearray]'s content: its items are integers in [range(256)]. *)
Definition is_byte (v : Z) : bool := (0 <=? v) && (v <? 256).

(** [len(b)]. *)
Definition len {A} (b : list A) : Z := Z.of_nat (length b).

(** [bytearray(n)]: [n] zero bytes. *)
Definition ba_zeros (n : Z) : list Z := repeat 0 (Z.to_nat n).

(** [b[i] = v] on a bytearray: the index is checked first, then the value. *)
Definition ba_setitem (b : list Z) (i : Z) (v : Z) : exn + list Z :=
  let n := len b in
  let j := if i <? 0 then i + n else i in
  if (0 <=? j) && (j <? n)
  then if is_byte v then inr (<[Z.to_nat j := v]> b) else inl ValueError
  else inl IndexError.

(** [b[i:] = src]: everything from position [i] on is replaced by [src]
    (for [0 <= i]). *)
Definition ba_setslice_from (b : list Z) (i : Z) (src : list Z) : list Z :=
  firstn (Z.to_nat i) b ++ src.

(** [b[i:]] (for [0 <= i]): a new buffer. *)
Definition ba_slice_from (b : list Z) (i : Z) : list Z := skipn (Z.to_nat i) b.

(** ** Value types of the stack

[GroupAddress], [IndividualAddress], [Priority] and [Flags] are classes
of [pknyx.stack] whose modules are not part of the sources. *)

(** Modelled from the spec: [pknyx/stack/groupAddress.py] is missing.  A
    group address is "normalized to a 16-bit value; isNull iff value 0". *)
Record GroupAddress : Type := GAD { gad_raw : Z }.

Definition isNull (gad : GroupAddress) : bool := gad_raw gad =? 0.

Global Instance GroupAddress_eq_dec : EqDecision GroupAddress.
Proof. solve_decision. Defined.

Global Instance GroupAddress_countable : Countable GroupAddress :=
  inj_countable' gad_raw GAD (fun g => match g with GAD _ => eq_refl end).

(** Modelled from the spec: [pknyx/stack/individualAddress.py] is missing.
    An individual address is an "area.line.device triplet", "ordered by
    integer value". *)
Record IndividualAddress : Type := IA { ia_raw : Z }.

(** The two kinds of address a frame's destination can be
    ([isinstance(dest, GroupAddress)] tells them apart). *)
Inductive Address : Type :=
| AddrGroup (gad : GroupAddress)
| AddrIndividual (ia : IndividualAddress).

(** Modelled from the spec: [pknyx/stack/priority.py] is missing.  A
    priority is "one of {system, urgent, normal, low}". *)
Inductive Priority : Type := system | urgent | normal | low.

(** Modelled from the spec: [pknyx/stack/flags.py] is missing.  Flags are "a
    set drawn from exactly the letters C R W T U I S" with "one boolean
    accessor per letter"; [raw] is the string of letters. *)
Record Flags : Type := mkFlags { raw : string }.

Definition has_letter (c : ascii) (f : Flags) : bool :=
  existsb (Ascii.eqb c) (list_ascii_of_string (raw f)).

(** The [init] property: letter I. *)
Definition Flags_init (f : Flags) : bool := has_letter "I"%char f.

(** ** Layer 4: [pknyx/stack/layer4/t_groupDataService.py] *)
Module L4.

Definition UNNUMBERED_DATA : Z := 0x00.
Definition NUMBERED_DATA : Z := 0x40.

(** Identity of a Python object in the store. *)
Definition ref : Type := positive.

(** The object behind the listener interface ([T_GroupDataListener]). *)
Definition listener : Type := string.

(** [self]: the fields [setListener] and the methods use. *)
Record T_GroupDataService : Type := mkTGDS {
  _tgdl : option listener
}.

(** The state a call runs on: [self] and the store of bytearray objects,
    where caller and callee see the same object under the same
    reference. *)
Record world : Type := mkWorld {
  self : T_GroupDataService;
  heap : gmap ref (list Z)
}.

(** Calls made on collaborators; a buffer argument is the reference that
    is handed over, not its content. *)
Inductive event : Type :=
| TGDL_groupDataInd (tgdl : listener) (src : IndividualAddress)
    (gad : GroupAddress) (priority : Priority) (tSDU : ref)
| NGDS_groupDataReq (gad : GroupAddress) (priority : Priority) (tPDU : ref).

Abbreviation M := (Eff.M world event).

(** [b[i]] where [b] is a reference to a bytearray. *)
Definition load_item (b : ref) (i : Z) : M Z :=
  w <- Eff.get ;;
  match heap w !! b with
  | None => Eff.raise Dangling
  | Some bytes => Eff.lift (py_getitem bytes i)
  end.

(** [b[i] = v] where [b] is a reference to a bytearray: the object is
    updated in the store. *)
Definition store_item (b : ref) (i : Z) (v : Z) : M unit :=
  w <- Eff.get ;;
  match heap w !! b with
  | None => Eff.raise Dangling
  | Some bytes =>
      bytes' <- Eff.lift (ba_setitem bytes i v) ;;
      Eff.put (mkWorld (self w) (<[b := bytes']> (heap w)))
  end.

(** [T_GroupDataService.setListener]. *)
Definition setListener (tgdl : listener) : M unit :=
  w <- Eff.get ;;
  Eff.put (mkWorld (mkTGDS (Some tgdl)) (heap w)).

(** [T_GroupDataService.groupDataInd]. *)
Definition groupDataInd (src : IndividualAddress) (gad : GroupAddress)
    (priority : Priority) (tPDU : ref) : M unit :=
  w <- Eff.get ;;
  match _tgdl (self w) with
  | None => Eff.ret tt
  | Some tgdl =>
      b0 <- load_item tPDU 0 ;;
      let tPCI := Z.land b0 0xc0 in
      if tPCI =? UNNUMBERED_DATA then
        let tSDU := tPDU in
        x <- load_item tSDU 0 ;;
        store_item tSDU 0 (Z.land x 0x3f) ;;;
        Eff.emit (TGDL_groupDataInd tgdl src gad priority tSDU)
      else Eff.ret tt
  end.

(** [T_GroupDataService.groupDataReq]. *)
Definition groupDataReq (gad : GroupAddress) (priority : Priority)
    (tSDU : ref) : M unit :=
  let tPDU := tSDU in
  x <- load_item tPDU 0 ;;
  store_item tPDU 0 (Z.lor x UNNUMBERED_DATA) ;;;
  Eff.emit (NGDS_groupDataReq gad priority tPDU).

(** What the listener sees when it reads the buffer it was handed. *)
Definition delivered (w : world) (ev : event) : option (list Z) :=
  match ev with
  | TGDL_groupDataInd _ _ _ _ tSDU => heap w !! tSDU
  | NGDS_groupDataReq _ _ _ => None
  end.

End L4.

(** ** Layer 3: [pyknyx/stack/layer3/n_groupDataService.py] *)
Module L3.

(** Modelled from the spec: the message codes of
    [pyknyx/stack/cemi/cemiLData.py], which is missing: the "request
    code" and the "frame-indication code". *)
Inductive MessageCode : Type := MC_LDATA_REQ | MC_LDATA_IND.

(** Modelled from the spec: the class [CEMILData] is missing.  A frame has
    "message code, priority, hop count, source/destination address, a
    length-prefixed payload"; the attributes are plain fields. *)
Record CEMILData : Type := mkCEMI {
  messageCode : MessageCode;
  sourceAddress : IndividualAddress;
  destinationAddress : Address;
  priority : Priority;
  hopCount : Z;
  npdu : list Z
}.

(** Modelled from the spec: the assignment [cEMI.messageCode = ...]. *)
Definition set_messageCode (c : CEMILData) (mc : MessageCode) : CEMILData :=
  mkCEMI mc (sourceAddress c) (destinationAddress c) (priority c) (hopCount c) (npdu c).

(** Modelled from the spec: the assignment [cEMI.destinationAddress = ...]. *)
Definition set_destinationAddress (c : CEMILData) (a : Address) : CEMILData :=
  mkCEMI (messageCode c) (sourceAddress c) a (priority c) (hopCount c) (npdu c).

(** Modelled from the spec: the assignment [cEMI.priority = ...]. *)
Definition set_priority (c : CEMILData) (p : Priority) : CEMILData :=
  mkCEMI (messageCode c) (sourceAddress c) (destinationAddress c) p (hopCount c) (npdu c).

(** Modelled from the spec: the assignment [cEMI.hopCount = ...]. *)
Definition set_hopCount (c : CEMILData) (h : Z) : CEMILData :=
  mkCEMI (messageCode c) (sourceAddress c) (destinationAddress c) (priority c) h (npdu c).

(** Modelled from the spec: the assignment [cEMI.npdu = ...]. *)
Definition set_npdu (c : CEMILData) (b : list Z) : CEMILData :=
  mkCEMI (messageCode c) (sourceAddress c) (destinationAddress c) (priority c) (hopCount c) b.

(** The object behind the listener interface ([N_GroupDataListener]). *)
Definition listener : Type := string.

(** [self]. *)
Record N_GroupDataService : Type := mkNGDS {
  _ngdl : option listener;
  _hopCount : Z
}.

(** Calls made on collaborators: the link layer below, the listener
    above.  Buffers are given by content: the network layer only reads
    the ones it receives and allocates the ones it hands over. *)
Inductive event : Type :=
| LDS_setListener
| LDS_dataReq (cEMI : CEMILData)
| NGDL_groupDataInd (ngdl : listener) (src : IndividualAddress)
    (gad : GroupAddress) (priority : Priority) (nSDU : list Z).

Abbreviation M := (Eff.M N_GroupDataService event).

Section N_GroupDataService.
  (** What the constructor [CEMILData()] returns: the class is missing, so
      the fresh frame is a parameter. *)
Variable CEMILData_new : CEMILData.

(** [N_GroupDataService.__init__(self, lds, hopCount=6)]: the result is the
    new object and the calls made. *)
Definition init (hopCount : Z) : (exn + N_GroupDataService) * list event :=
  if negb ((0 <? hopCount) && (hopCount <? 7))
  then (inl N_GDSValueError, [])
  else (inr (mkNGDS None hopCount), [LDS_setListener]).

(** [N_GroupDataService.setListener]. *)
Definition setListener (ngdl : listener) : M unit :=
  s <- Eff.get ;;
  Eff.put (mkNGDS (Some ngdl) (_hopCount s)).

(** [N_GroupDataService.dataInd]. *)
Definition dataInd (cEMI : CEMILData) : M unit :=
  s <- Eff.get ;;
  match _ngdl s with
  | None => Eff.ret tt
  | Some ngdl =>
      let hopCount := hopCount cEMI in
      let mc := messageCode cEMI in
      let src := sourceAddress cEMI in
      let dest := destinationAddress cEMI in
      let priority := priority cEMI in
      let hopCount := L3.hopCount cEMI in
      let nSDU := ba_slice_from (npdu cEMI) 1 in
      match dest with
      | AddrGroup gad =>
          if negb (isNull gad)
          then Eff.emit (NGDL_groupDataInd ngdl src gad priority nSDU)
          else Eff.ret tt
      | AddrIndividual _ => Eff.ret tt
      end
  end.

(** [N_GroupDataService.groupDataReq]. *)
Definition groupDataReq (gad : GroupAddress) (priority : Priority)
    (nSDU : list Z) : M unit :=
  s <- Eff.get ;;
  if isNull gad then Eff.raise N_GDSValueError
  else
    let cEMI := CEMILData_new in
    let cEMI := set_messageCode cEMI MC_LDATA_IND in
    let cEMI := set_destinationAddress cEMI (AddrGroup gad) in
    let cEMI := set_priority cEMI priority in
    let cEMI := set_hopCount cEMI (_hopCount s) in
    let nPDU := ba_zeros (len nSDU + 1) in
    nPDU <- Eff.lift (ba_setitem nPDU 0 (len nSDU - 1)) ;;
    let nPDU := ba_setslice_from nPDU 1 nSDU in
    let cEMI := set_npdu cEMI nPDU in
    Eff.emit (LDS_dataReq cEMI).

(** The frames handed to the link layer in a trace. *)
Definition frames_sent (t : list event) : list CEMILData :=
  omap (fun ev => match ev with LDS_dataReq c => Some c | _ => None end) t.

(** The indications handed to the listener in a trace. *)
Definition indications (t : list event) : list (list Z) :=
  omap (fun ev => match ev with
                  | NGDL_groupDataInd _ _ _ _ nSDU => Some nSDU
                  | _ => None
                  end) t.
End N_GroupDataService.
End L3.

(** ** The stack: [pknyx/stack/stack.py] *)
Module StackM.

(** A listener subscribed to a group.  [l_flags] is what
    [listener.flags] evaluates to; [None] stands for an object on which
    [listener.flags.init] raises [AttributeError] ("listener does not seem
    to be a GroupObject"). *)
Record Listener : Type := mkListener {
  l_name : string;
  l_flags : option Flags
}.

(** Modelled from the spec: the class [Group] of layer 7 is missing; it is
    "the set of listeners subscribed to one GroupAddress", in subscription
    order. *)
Record Group : Type := mkGroup { listeners : list Listener }.

(** Modelled from the spec: [A_GroupDataService] is missing; it "maintains
    a mapping from GroupAddress to Group".  [groups] is that dict, given by
    its items in the order the dict iterates over them, which is the order
    of [groups.values()]; the keys of a dict are distinct. *)
Record A_GroupDataService : Type := mkAGDS {
  groups : list (GroupAddress * Group)
}.

(** [self]: the layer objects [start] and [stop] reach. *)
Record Stack : Type := mkStack { _agds : A_GroupDataService }.

(** A logger object, by the names of the methods it has.  Calling one of
    them hands the message over and returns; getting any other name raises
    [AttributeError]. *)
Record PyLogger : Type := mkPyLogger { methods : list string }.

(** What the module binds to its global [logger]:
    [logging.getLogger(__name__)], where [logging] is the name imported from
    [pknyx/services/logger.py], which is there the standard module
    ([import logging]).  The object is an instance of the standard class
    [logging.Logger]; these are the methods of that class that log a
    message (its two deprecated aliases apart).  There is no [trace] among
    them: [trace] is a method of the class [Logger] of
    [pknyx/services/logger.py], not of the objects [getLogger] returns. *)
Definition logging_getLogger : PyLogger :=
  mkPyLogger ["debug"; "info"; "warning"; "error"; "exception"; "critical"; "log"]%string.

(** An instance of the class [Logger] of [pknyx/services/logger.py], by the
    methods that class defines. *)
Definition Logger_new : PyLogger :=
  mkPyLogger ["addStreamHandler"; "setLevel"; "trace"; "debug"; "info"; "warning";
              "error"; "critical"; "exception"; "log"]%string.

(** Calls made on collaborators.  [Group_read gad p] is the call
    [group.read(priority=p)] on the group registered under [gad];
    [Sleep ms] is [time.sleep] with the delay in milliseconds;
    [Log method message] is the call [logger.method(message)]. *)
Inductive event : Type :=
| LDS_start
| TC_start
| LDS_stop
| TC_stop
| LDS_join
| TC_join
| Sleep (ms : Z)
| Group_read (gad : GroupAddress) (priority : Priority)
| Log (method message : string).

Abbreviation M := (Eff.M Stack event).

Section Stack.
(** The object bound to the module's global [logger] when a method runs. *)
Variable logger : PyLogger.

(** [Priority()]: the class is missing, so what its constructor returns or
    raises when called without argument is a parameter. *)
Variable Priority_new : exn + Priority.

(** [group.read]: the class [Group] is missing, so what a read does is a
    parameter.  [Group_read_outcome gad i] is the exception raised by the
    read that [start] makes on the group under [gad] for the listener at
    position [i] of the group (from 0), [None] when that read returns. *)
Variable Group_read_outcome : GroupAddress -> nat -> option exn.

(** [logger.method(message)]. *)
Definition logger_call (method message : string) : M unit :=
  if bool_decide (method ∈ methods logger)
  then Eff.emit (Log method message)
  else Eff.raise AttributeError.

(** [listener.flags.init]. *)
Definition listener_flags_init (listener : Listener) : M bool :=
  match l_flags listener with
  | None => Eff.raise AttributeError
  | Some flags => Eff.ret (Flags_init flags)
  end.

(** [group.read(priority=priority)], made for the listener at position
    [i]. *)
Definition group_read (gad : GroupAddress) (i : nat) (priority : Priority) : M unit :=
  Eff.emit (Group_read gad priority) ;;;
  match Group_read_outcome gad i with
  | None => Eff.ret tt
  | Some e => Eff.raise e
  end.

(** The inner loop of [start], [for listener in group.listeners], from the
    listener at position [i] on; the result of one round of the [try]
    statement tells whether [break] was reached.  The constructor of the
    priority and the read are inside the [try] block: an [AttributeError]
    of either is logged and the loop goes on with the next listener, any
    other exception ends [start].  [time.sleep] is the standard function,
    which returns for a delay that is not negative. *)
Fixpoint for_listeners (gad : GroupAddress) (i : nat) (ls : list Listener) : M unit :=
  match ls with
  | [] => Eff.ret tt
  | listener :: rest =>
      broke <-
        Eff.try_except
          (init <- listener_flags_init listener ;;
           if init : bool
           then (priority <- Eff.lift Priority_new ;;
                 group_read gad i priority ;;;
                 Eff.emit (Sleep 100) ;;;
                 Eff.ret true)
           else Eff.ret false)
          AttributeError
          (logger_call "exception"
             "Stack.start(): listener does not seem to be a GroupObject" ;;;
           Eff.ret false) ;;
      if broke : bool then Eff.ret tt else for_listeners gad (S i) rest
  end.

(** The outer loop, [for group in self._agds.groups.values()]. *)
Fixpoint for_groups (gs : list (GroupAddress * Group)) : M unit :=
  match gs with
  | [] => Eff.ret tt
  | (gad, group) :: rest =>
      for_listeners gad 0 (listeners group) ;;;
      for_groups rest
  end.

(** [Stack.start]. *)
Definition start : M unit :=
  logger_call "trace" "Stack.start()" ;;;
  self <- Eff.get ;;
  Eff.emit LDS_start ;;;
  Eff.emit TC_start ;;;
  Eff.emit (Sleep 250) ;;;
  logger_call "debug"
    "Stack.start(): initiate a read request for Group having at least one GroupObject with 'init' flag on" ;;;
  for_groups (groups (_agds self)) ;;;
  logger_call "debug" "Stack.start(): running".

(** [Stack.stop]. *)
Definition stop : M unit :=
  logger_call "trace" "Stack.stop()" ;;;
  Eff.emit TC_stop ;;;
  Eff.emit LDS_stop ;;;
  Eff.emit TC_join ;;;
  Eff.emit LDS_join ;;;
  logger_call "debug" "Stack.stop(): stopped".
End Stack.

(** Whether an event is a read request on the group under [gad]. *)
Definition is_read (gad : GroupAddress) (ev : event) : bool :=
  match ev with
  | Group_read g _ => bool_decide (g = gad)
  | _ => false
  end.

(** Number of read requests issued on the group under [gad]. *)
Definition reads (gad : GroupAddress) (t : list event) : nat :=
  length (filter (fun ev => is_read gad ev = true) t).

(** Whether a group has a listener whose flags include init. *)
Definition has_init (group : Group) : bool :=
  existsb (fun l => match l_flags l with
                    | Some flags => Flags_init flags
                    | None => false
                    end) (listeners group).
End StackM.

(** ** DPT translators *)
Module Xlator.

(** Modelled from the spec: the translator classes
    ([pyknyx/core/dptXlator/]) are missing.  A translator is "one
    polymorphic interface {checkValue, valueToData, dataToValue,
    dataToFrame, frameToData, checkData}" bound to one DPT; a value is a
    Python object, the data a fixed-width integer, the frame a byte
    string; [typeSize] is the "extra-byte count". *)
Record DPTXlator : Type := mkXlator {
  dpt : DPTm.DPT string;
  typeSize : Z;
  checkData : Z -> exn + unit;
  checkValue : pyobj -> exn + unit;
  dataToValue : Z -> exn + pyobj;
  valueToData : pyobj -> exn + Z;
  dataToFrame : Z -> exn + list Z;
  frameToData : list Z -> exn + Z
}.

End Xlator.

(** Modelled from the spec: the Boolean translator
    ([pyknyx/core/dptXlator/dptXlatorBoolean.py]) is missing; its behaviour
    is taken from the specification and from the table of
    [tests/core/dptXlator/dptXlatorBoolean.py]: the value is mapped to its
    position in the DPT's enumeration ("enumerated mapping"), the data is
    0x00 or 0x01, and the wire layout "packs the value into the low 6 bits
    of a shared control byte and reports a zero extra-byte count". *)
Module DPTXlatorBoolean.
Import Xlator.

(** Modelled from the spec: the generic DPT of main number 1, which
    "carries the loosest shared limits for that format"; the test table maps
    the values 0 and 1. *)
Definition DPT_Generic : DPTm.DPT string :=
  DPTm.mkDPT string "1.xxx" "Generic" [PInt 0; PInt 1] None.

(** Modelled from the spec: DPT 1.001, an enumeration, written as in the
    usage notes of [dpt.py]. *)
Definition DPT_Switch : DPTm.DPT string :=
  DPTm.mkDPT string "1.001" "Switch" [PStr "Off"; PStr "On"] None.

(** Modelled from the spec: "checkData(d) validates width/range"; the data
    of this format is 0x00 or 0x01. *)
Definition checkData (data : Z) : exn + unit :=
  if (data =? 0x00) || (data =? 0x01) then inr tt else inl DPTXlatorValueError.

(** Modelled from the spec: "checkValue(v) fails with a domain error if v is
    outside the bound DPT's limits". *)
Definition checkValue (d : DPTm.DPT string) (value : pyobj) : exn + unit :=
  if py_in value (DPTm.limits string d) then inr tt else inl DPTXlatorValueError.

(** Modelled from the spec: the enumerated mapping, from the position to
    the value of the enumeration. *)
Definition dataToValue (d : DPTm.DPT string) (data : Z) : exn + pyobj :=
  py_getitem (DPTm.limits string d) data.

(** Modelled from the spec: the enumerated mapping, from the value to its
    position in the enumeration, after the domain check. *)
Definition valueToData (d : DPTm.DPT string) (value : pyobj) : exn + Z :=
  match checkValue d value with
  | inl e => inl e
  | inr _ => py_index (DPTm.limits string d) value
  end.

(** Modelled from the spec: the value goes "into the low 6 bits of a shared
    control byte". *)
Definition dataToFrame (data : Z) : exn + list Z :=
  inr [Z.land data 0x3f].

(** Modelled from the spec: the low 6 bits of the one-byte frame. *)
Definition frameToData (frame : list Z) : exn + Z :=
  match frame with
  | [b] => inr (Z.land b 0x3f)
  | _ => inl DPTXlatorValueError
  end.

(** Modelled from the spec: the translator bound to the DPT [d], with "a
    zero extra-byte count". *)
Definition create (d : DPTm.DPT string) : DPTXlator :=
  mkXlator d 0 checkData (checkValue d) (dataToValue d) (valueToData d)
    dataToFrame frameToData.
End DPTXlatorBoolean.

(** ** Datapoints: [pyknyx/core/datapoint.py] *)
Module DatapointM.
Import Xlator.

(** Calls made on collaborators: the methods of the translator, the
    change signal ([Signal.emit]) and the owner ([FunctionalBlock.notify],
    whose first argument is the datapoint, given by its name). *)
Inductive event : Type :=
| X_checkData (data : Z)
| X_checkValue (value : pyobj)
| X_dataToValue (data : Z)
| X_valueToData (value : pyobj)
| X_frameToData (frame : list Z)
| Signal_emit (oldValue newValue : pyobj)
| Owner_notify (owner : string) (dp : string) (oldValue newValue : pyobj).

Section Datapoint.
  (** The classes [DPTID], [Flags], [Priority] and [DPTXlatorFactory] are
      not part of the sources: their constructors, [dptId.generic],
      the comparison of identifiers and [DPTXlatorFactory().create] are
      parameters. *)
Variable DPTID : Type.
Variable DPTID_init : string -> exn + DPTID.
Variable DPTID_generic : DPTID -> DPTID.
Variable DPTID_ne : DPTID -> DPTID -> bool.
Variable Flags_new : string -> exn + Flags.
Variable Priority_new : string -> exn + Priority.
Variable Factory_create : DPTID -> exn + DPTXlator.

(** [self].  [_owner] is [None] when the datapoint was built without an
    owner; [_default] is [PNone] when no default was given; [_data] is
    [None] as long as nothing is cached. *)
Record Datapoint : Type := mkDatapoint {
  _owner : option string;
  _name : string;
  _dptId : DPTID;
  _access : string;
  _default : pyobj;
  _data : option Z;
  _flags : option Flags;
  _priority : option Priority;
  _dptXlator : DPTXlator;
  _dptXlatorGeneric : DPTXlator
}.

Abbreviation M := (Eff.M Datapoint event).

Definition set_data (self : Datapoint) (d : Z) : Datapoint :=
  mkDatapoint (_owner self) (_name self) (_dptId self) (_access self)
    (_default self) (Some d) (_flags self) (_priority self)
    (_dptXlator self) (_dptXlatorGeneric self).

(** [Datapoint._setData]. *)
Definition _setData (data : Z) : M unit :=
  self <- Eff.get ;;
  Eff.emit (X_checkData data) ;;;
  Eff.lift (checkData (_dptXlator self) data) ;;;
  Eff.put (set_data self data).

(** The getter of the [value] property. *)
Definition value : M pyobj :=
  self <- Eff.get ;;
  match _data self with
  | None => Eff.ret PNone
  | Some data =>
      Eff.emit (X_dataToValue data) ;;;
      Eff.lift (dataToValue (_dptXlator self) data)
  end.

(** [Datapoint._setValue]. *)
Definition _setValue (v : pyobj) : M unit :=
  self <- Eff.get ;;
  Eff.emit (X_checkValue v) ;;;
  Eff.lift (checkValue (_dptXlator self) v) ;;;
  Eff.emit (X_valueToData v) ;;;
  data <- Eff.lift (valueToData (_dptXlator self) v) ;;
  _setData data.

(** [self._owner.notify(self, oldValue, self.value)]: the method is looked
    up on the owner before the arguments are evaluated. *)
Definition owner_notify (oldValue : pyobj) : M unit :=
  self <- Eff.get ;;
  match _owner self with
  | None => Eff.raise AttributeError
  | Some owner =>
      newValue <- value ;;
      Eff.emit (Owner_notify owner (_name self) oldValue newValue)
  end.

(** The setter of the [value] property. *)
Definition value_setter (v : pyobj) : M unit :=
  oldValue <- value ;;
  self <- Eff.get ;;
  Eff.emit (X_checkValue v) ;;;
  Eff.lift (checkValue (_dptXlator self) v) ;;;
  Eff.emit (X_valueToData v) ;;;
  data <- Eff.lift (valueToData (_dptXlator self) v) ;;
  _setData data ;;;
  newValue <- value ;;
  Eff.emit (Signal_emit oldValue newValue) ;;;
  owner_notify oldValue.

(** The setter of the [frame] property. *)
Definition frame_setter (frame : list Z) : M unit :=
  oldValue <- value ;;
  self <- Eff.get ;;
  Eff.emit (X_frameToData frame) ;;;
  data <- Eff.lift (frameToData (_dptXlator self) frame) ;;
  _setData data ;;;
  owner_notify oldValue.

Definition ebind {A B} (r : exn + A) (k : A -> exn + B) : exn + B :=
  match r with
  | inl e => inl e
  | inr a => k a
  end.

Definition opt_new {A} (new : string -> exn + A) (arg : option string)
  : exn + option A :=
  match arg with
  | None => inr None
  | Some s => ebind (new s) (fun a => inr (Some a))
  end.

(** The object [__init__] has built when it reaches "Set default value":
    every attribute is assigned and nothing is cached. *)
Definition fresh (owner : option string) (name : string) (access : string)
    (dptId : DPTID + string) (default : pyobj) (flags priority : option string)
  : exn + Datapoint :=
  if negb (bool_decide (access ∈ ["input"; "output"; "param"]%string))
  then inl DatapointValueError
  else
    ebind (match dptId with inl i => inr i | inr s => DPTID_init s end) (fun dptId =>
    ebind (opt_new Flags_new flags) (fun flags =>
    ebind (opt_new Priority_new priority) (fun priority =>
    ebind (Factory_create dptId) (fun dptXlator =>
    ebind (if DPTID_ne dptId (DPTID_generic dptId)
           then Factory_create (DPTID_generic dptId)
           else inr dptXlator) (fun dptXlatorGeneric =>
    inr (mkDatapoint owner name dptId access default None flags priority
           dptXlator dptXlatorGeneric)))))).

(** [Datapoint.__init__(self, owner, name, access, dptId, default=None,
    flags=None, priority=None)]: the new object and the calls made. *)
Definition init (owner : option string) (name : string) (access : string)
    (dptId : DPTID + string) (default : pyobj) (flags priority : option string)
  : (exn + Datapoint) * list event :=
  match fresh owner name access dptId default flags priority with
  | inl e => (inl e, [])
  | inr self =>
      if negb (pyobj_eqb default PNone)
      then match _setValue default self with
           | (inl e, _, t) => (inl e, t)
           | (inr _, self', t) => (inr self', t)
           end
      else (inr self, [])
  end.

(** Whether an event notifies somebody of a change: a signal emission or
    an owner call. *)
Definition is_notification (ev : event) : bool :=
  match ev with
  | Signal_emit _ _ | Owner_notify _ _ _ _ => true
  | _ => false
  end.

(** The notifications in a trace, in order. *)
Definition notifications (t : list event) : list event :=
  filter (fun ev => is_notification ev = true) t.

(** The [dataToValue] calls in a trace. *)
Definition dataToValue_calls (t : list event) : list Z :=
  omap (fun ev => match ev with X_dataToValue d => Some d | _ => None end) t.
End Datapoint.
End DatapointM.

(* ===================================================================== *)
(** * Part I, continued: the rest of the modelled code                   *)
(* ===================================================================== *)

From stdpp Require sorting.

(** ** Layers 3 and 4 wired together

As in [Stack.__init__] ([self._ngds = N_GroupDataService(self._lds)],
[self._tgds = T_GroupDataService(self._ngds)]): the transport service keeps
the network service and registers itself as its listener, so a call of one
layer on the other runs the other layer's method. *)
Module Pipeline.

(** The transport service, as the listener the network service knows. *)
Definition tgds : L3.listener := "T_GroupDataService".

(** The two services; the store of bytearrays is the transport layer's. *)
Record world : Type := mkWorld {
  n : L3.N_GroupDataService;
  t : L4.world
}.

(** Calls that leave the two layers: those of layer 3 on the link layer
    (left), those of layer 4 on its listener (right). *)
Definition event : Type := (L3.event + L4.event)%type.

Abbreviation M := (Eff.M world event).

(** [T_GroupDataService.__init__(self, ngds)]: [self._tgdl = None], then
    [ngds.setListener(self)]; [h] is the store at that moment. *)
Definition T_GroupDataService_init (ngds : L3.N_GroupDataService)
    (h : gmap L4.ref (list Z)) : world :=
  mkWorld (Eff.final (L3.setListener tgds ngds))
          (L4.mkWorld (L4.mkTGDS None) h).

(** A method of the network service, run inside the pair. *)
Definition in_L3 {A} (m : Eff.M L3.N_GroupDataService L3.event A) (w : world)
  : (exn + A) * world * list L3.event :=
  match m (n w) with
  | (r, n', evs) => (r, mkWorld n' (t w), evs)
  end.

(** A method of the transport service, run inside the pair. *)
Definition in_L4 {A} (m : Eff.M L4.world L4.event A) (w : world)
  : (exn + A) * world * list L4.event :=
  match m (t w) with
  | (r, t', evs) => (r, mkWorld (n w) t', evs)
  end.

(** [bytearray] objects created by a layer: a new object in the store. *)
Definition alloc (bytes : list Z) (w : world) : L4.ref * world :=
  let r := fresh (dom (L4.heap (t w))) in
  (r, mkWorld (n w) (L4.mkWorld (L4.self (t w)) (<[r := bytes]> (L4.heap (t w))))).

(** The upper layer registers as the transport service's listener
    ([T_GroupDataService.setListener], which calls nobody). *)
Definition setListener (tgdl : L4.listener) : M unit :=
  fun w =>
    match in_L4 (L4.setListener tgdl) w with
    | (r, w', _) => (r, w', [])
    end.

Section Pipeline.
Variable CEMILData_new : L3.CEMILData.

(** A call made by the network service.  [self._ngdl.groupDataInd(src, dest,
    priority, nSDU)] on the transport service runs its [groupDataInd] on the
    slice [nSDU], a new bytearray; every other call leaves the pair. *)
Definition on_L3 (ev : L3.event) : M unit :=
  match ev with
  | L3.NGDL_groupDataInd ngdl src gad priority nSDU =>
      if String.eqb ngdl tgds
      then fun w =>
             match alloc nSDU w with
             | (r, w1) =>
                 match in_L4 (L4.groupDataInd src gad priority r) w1 with
                 | (res, w2, evs) => (res, w2, map inr evs)
                 end
             end
      else Eff.emit (inl ev)
  | _ => Eff.emit (inl ev)
  end.

(** A call made by the transport service.
    [self._ngds.groupDataReq(gad, priority, tPDU)] runs the network
    service's [groupDataReq] on the buffer behind [tPDU]; a call on the
    listener leaves the pair. *)
Definition on_L4 (ev : L4.event) : M unit :=
  match ev with
  | L4.NGDS_groupDataReq gad priority tPDU =>
      fun w =>
        match L4.heap (t w) !! tPDU with
        | None => (inl Dangling, w, [])
        | Some bytes =>
            match in_L3 (L3.groupDataReq CEMILData_new gad priority bytes) w with
            | (res, w', evs) => (res, w', map inl evs)
            end
        end
  | _ => Eff.emit (inr ev)
  end.

(** The calls of a method, run in order. *)
Fixpoint run {E} (h : E -> M unit) (evs : list E) : M unit :=
  match evs with
  | [] => Eff.ret tt
  | ev :: rest => h ev ;;; run h rest
  end.

(** A method followed by the calls it made.  Each method of the two layers
    makes its one call on a collaborator as its last statement: the call
    runs on the state the method leaves, and what it raises is what the
    method raises. *)
Definition with_calls {E} (h : E -> M unit)
    (x : (exn + unit) * world * list E) : (exn + unit) * world * list event :=
  match x with
  | (r, w, evs) =>
      match run h evs w with
      | (inl e, w', out) => (inl e, w', out)
      | (inr _, w', out) => (r, w', out)
      end
  end.

(** An inbound frame enters at the network service. *)
Definition dataInd (cEMI : L3.CEMILData) : M unit :=
  fun w => with_calls on_L3 (in_L3 (L3.dataInd cEMI) w).

(** An outbound payload enters at the transport service. *)
Definition groupDataReq (gad : GroupAddress) (priority : Priority)
    (tSDU : L4.ref) : M unit :=
  fun w => with_calls on_L4 (in_L4 (L4.groupDataReq gad priority tSDU) w).

(** The frames handed to the link layer in a trace of the pair. *)
Definition frames_sent (tr : list event) : list L3.CEMILData :=
  omap (fun ev => match ev with
                  | inl (L3.LDS_dataReq c) => Some c
                  | _ => None
                  end) tr.

(** The buffers handed to the upper listener in a trace of the pair. *)
Definition delivered (w : world) (tr : list event) : list (list Z) :=
  omap (fun ev => match ev with
                  | inr ev4 => L4.delivered (t w) ev4
                  | _ => None
                  end) tr.
End Pipeline.
End Pipeline.

(** ** Observations on the traces of [Stack.start] *)
Module StackObs.

(** The time [Stack.start] spends in [time.sleep], in milliseconds. *)
Definition pauses (tr : list StackM.event) : Z :=
  foldr (fun ev acc => match ev with
                       | StackM.Sleep ms => ms + acc
                       | _ => acc
                       end) 0 tr.

(** The groups [start] reads, in the order of the reads. *)
Definition read_order (tr : list StackM.event) : list GroupAddress :=
  omap (fun ev => match ev with
                  | StackM.Group_read gad _ => Some gad
                  | _ => None
                  end) tr.

(** The group addresses whose group has an init listener, in the order of
    [groups.values()]. *)
Definition init_groups (gs : list (GroupAddress * StackM.Group)) : list GroupAddress :=
  omap (fun kg => if StackM.has_init kg.2 then Some kg.1 else None) gs.

(** The calls of a trace that are not calls of the logger. *)
Definition calls (tr : list StackM.event) : list StackM.event :=
  omap (fun ev => match ev with
                  | StackM.Log _ _ => None
                  | _ => Some ev
                  end) tr.

(** The methods of the logger called in a trace, in order. *)
Definition logs (tr : list StackM.event) : list string :=
  omap (fun ev => match ev with
                  | StackM.Log method _ => Some method
                  | _ => None
                  end) tr.

(** The listeners of a group that are no group objects (no [flags]) and
    stand before its first listener with the init flag. *)
Fixpoint strangers (ls : list StackM.Listener) : nat :=
  match ls with
  | [] => 0%nat
  | l :: rest =>
      match StackM.l_flags l with
      | None => S (strangers rest)
      | Some flags => if Flags_init flags then 0%nat else strangers rest
      end
  end.

(** The same, over all the groups. *)
Definition all_strangers (gs : list (GroupAddress * StackM.Group)) : nat :=
  foldr (fun kg acc => (strangers (StackM.listeners kg.2) + acc)%nat) 0%nat gs.
(** What one group adds to the trace of [start] when, in its inner loop,
    only listeners without flags raise: one logged exception per such
    listener met, then the read and the pacing delay if the group has a
    listener with the init flag. *)
Definition group_trace (p : Priority) (kg : GroupAddress * StackM.Group)
  : list StackM.event :=
  repeat (StackM.Log "exception"
            "Stack.start(): listener does not seem to be a GroupObject")
         (strangers (StackM.listeners kg.2))
  ++ (if StackM.has_init kg.2
      then [StackM.Group_read kg.1 p; StackM.Sleep 100]
      else []).
End StackObs.

(** ** Sequences of calls on the network service *)
Module L3Calls.

(** One call on a network service by its neighbours. *)
Inductive call : Type :=
| SetListener (ngdl : L3.listener)
| DataInd (cEMI : L3.CEMILData)
| GroupDataReq (gad : GroupAddress) (priority : Priority) (nSDU : list Z).

(** What a frame sent by a service with hop count [h] must look like: hop
    count and indication code, a non-null group destination, 2 to 257
    network bytes of which the first is the number of the others minus
    one. *)
Definition sent_frame_ok (h : Z) (cEMI : L3.CEMILData) : Prop :=
  L3.hopCount cEMI = h
  /\ L3.messageCode cEMI = L3.MC_LDATA_IND
  /\ (exists gad, L3.destinationAddress cEMI = AddrGroup gad /\ isNull gad = false)
  /\ 2 <= len (L3.npdu cEMI) <= 257
  /\ hd_error (L3.npdu cEMI) = Some (len (L3.npdu cEMI) - 2).

Section L3Calls.
Variable CEMILData_new : L3.CEMILData.

(** The method behind a call. *)
Definition method (c : call) : Eff.M L3.N_GroupDataService L3.event unit :=
  match c with
  | SetListener ngdl => L3.setListener ngdl
  | DataInd cEMI => L3.dataInd cEMI
  | GroupDataReq gad priority nSDU =>
      L3.groupDataReq CEMILData_new gad priority nSDU
  end.

(** The calls of a list made one after the other on the same service; a
    call that raises does not stop the next one (its caller gets the
    exception).  The result is the service at the end and all the calls
    it made. *)
Fixpoint calls (cs : list call) (s : L3.N_GroupDataService)
  : L3.N_GroupDataService * list L3.event :=
  match cs with
  | [] => (s, [])
  | c :: rest =>
      match method c s with
      | (_, s1, t1) =>
          match calls rest s1 with
          | (s2, t2) => (s2, t1 ++ t2)
          end
      end
  end.
End L3Calls.
End L3Calls.

(** ** The network service with its listener

[dataInd] ends with the call [self._ngdl.groupDataInd(src, dest, priority,
nSDU)], outside any [try] statement: what the listener's method raises,
[dataInd] raises. *)
Module L3Up.

Section L3Up.
(** The listener's [groupDataInd].  The object behind [self._ngdl] is
    whatever [setListener] was given, so what its method does with a call
    is a parameter: the exception it raises, [None] when it returns. *)
Variable NGDL_groupDataInd :
  L3.listener -> IndividualAddress -> GroupAddress -> Priority -> list Z -> option exn.

(** The outcome of a call the network service makes. *)
Definition call_outcome (ev : L3.event) : option exn :=
  match ev with
  | L3.NGDL_groupDataInd ngdl src gad priority nSDU =>
      NGDL_groupDataInd ngdl src gad priority nSDU
  | _ => None
  end.

(** [N_GroupDataService.dataInd] with its listener: the method's own
    statements, then the outcome of the call on the listener, which is its
    last statement when it is reached. *)
Definition dataInd (cEMI : L3.CEMILData) : L3.M unit :=
  fun s =>
    match L3.dataInd cEMI s with
    | (inr _, s', [ev]) =>
        match call_outcome ev with
        | Some e => (inl e, s', [ev])
        | None => (inr tt, s', [ev])
        end
    | out => out
    end.
End L3Up.

(** The transport service as the listener, with a listener [tgdl] of its
    own: what [T_GroupDataService.groupDataInd] raises on a buffer that
    reads [nSDU]. *)
Definition T_GroupDataService_groupDataInd (tgdl : L4.listener)
    (_ : L3.listener) (src : IndividualAddress) (gad : GroupAddress)
    (priority : Priority) (nSDU : list Z) : option exn :=
  match Eff.result (L4.groupDataInd src gad priority 1%positive
                      (L4.mkWorld (L4.mkTGDS (Some tgdl)) {[ 1%positive := nSDU ]})) with
  | inl e => Some e
  | inr _ => None
  end.
End L3Up.

(** ** Sequences of accesses to a datapoint *)
Module DatapointCalls.

(** One access to a datapoint: reading [value], assigning [value],
    assigning [frame]. *)
Inductive call : Type :=
| GetValue
| SetValue (v : pyobj)
| SetFrame (frame : list Z).

Section DatapointCalls.
Variable DPTID : Type.

(** The property code behind an access. *)
Definition method (c : call)
  : Eff.M (DatapointM.Datapoint DPTID) DatapointM.event unit :=
  match c with
  | GetValue => _ <- DatapointM.value DPTID ;; Eff.ret tt
  | SetValue v => DatapointM.value_setter DPTID v
  | SetFrame frame => DatapointM.frame_setter DPTID frame
  end.

(** The accesses of a list made one after the other; an access that raises
    does not stop the next one.  The result is the datapoint at the end and
    all the calls made. *)
Fixpoint calls (cs : list call) (self : DatapointM.Datapoint DPTID)
  : DatapointM.Datapoint DPTID * list DatapointM.event :=
  match cs with
  | [] => (self, [])
  | c :: rest =>
      match method c self with
      | (_, self1, t1) =>
          match calls rest self1 with
          | (self2, t2) => (self2, t1 ++ t2)
          end
      end
  end.

(** Two datapoints that differ at most in the cached data. *)
Definition same_but_data (a b : DatapointM.Datapoint DPTID) : Prop :=
  DatapointM._owner DPTID a = DatapointM._owner DPTID b
  /\ DatapointM._name DPTID a = DatapointM._name DPTID b
  /\ DatapointM._dptId DPTID a = DatapointM._dptId DPTID b
  /\ DatapointM._access DPTID a = DatapointM._access DPTID b
  /\ DatapointM._default DPTID a = DatapointM._default DPTID b
  /\ DatapointM._flags DPTID a = DatapointM._flags DPTID b
  /\ DatapointM._priority DPTID a = DatapointM._priority DPTID b
  /\ DatapointM._dptXlator DPTID a = DatapointM._dptXlator DPTID b
  /\ DatapointM._dptXlatorGeneric DPTID a = DatapointM._dptXlatorGeneric DPTID b.

(** The cached data, if any, is one the translator's [checkData] accepts. *)
Definition data_checked (self : DatapointM.Datapoint DPTID) : Prop :=
  match DatapointM._data DPTID self with
  | None => True
  | Some data =>
      Xlator.checkData (DatapointM._dptXlator DPTID self) data = inr tt
  end.
End DatapointCalls.
End DatapointCalls.

(** ** Read-only dictionaries: [pknyx/common/frozenDict.py] *)
Module FrozenDictM.

(** The exceptions of this module. *)
Inductive fd_exn : Type := FrozenDictAttributeError | KeyError | TypeError.

(** The content of a dict with integer keys and values: its
    [(key, value)] items, in the order the dict iterates over them. *)
Definition dict_items : Type := list (Z * Z).

(** [d[k] = v] on a plain dict: the value of a key that is present is
    replaced in place, a new key is added. *)
Fixpoint dict_setitem (d : dict_items) (k v : Z) : dict_items :=
  match d with
  | [] => [(k, v)]
  | (k', v') :: rest =>
      if k =? k' then (k, v) :: rest else (k', v') :: dict_setitem rest k v
  end.

(** [dict.__init__(new, pairs)]: the pairs are assigned in order. *)
Definition dict_init (pairs : list (Z * Z)) : dict_items :=
  foldl (fun d kv => dict_setitem d kv.1 kv.2) [] pairs.

(** [dict.__ior__(d, other)], the in-place union [d |= other]: the items of
    [other] are assigned in order. *)
Definition dict_ior (d : dict_items) (other : list (Z * Z)) : dict_items :=
  foldl (fun d kv => dict_setitem d kv.1 kv.2) d other.

(** [d[k]] on a plain dict. *)
Fixpoint dict_getitem (d : dict_items) (k : Z) : fd_exn + Z :=
  match d with
  | [] => inl KeyError
  | (k', v') :: rest => if k =? k' then inr v' else dict_getitem rest k
  end.

(** Python's order on [(key, value)] tuples of integers. *)
Definition tuple_le (a b : Z * Z) : Prop :=
  a.1 < b.1 \/ (a.1 = b.1 /\ a.2 <= b.2).

Global Instance tuple_le_dec : RelDecision tuple_le.
Proof. intros a b. unfold tuple_le. apply _. Defined.

(** [sorted(items)]. *)
Definition sorted (items : dict_items) : dict_items := sorting.merge_sort tuple_le items.

(** [self]: the dict's content and the attribute [_cachedHash], [None] as
    long as the attribute does not exist. *)
Record FrozenDict : Type := mkFD {
  content : dict_items;
  _cachedHash : option Z
}.

(** A use of a [FrozenDict]: the two methods it answers, the seven it
    blocks, and the in-place union [self |= other], which the class does
    not block: it is [dict]'s own [__ior__] where [dict] has one. *)
Inductive op : Type :=
| Hash
| Getitem (k : Z)
| Setitem (k v : Z)
| Delitem (k : Z)
| Pop (k : Z)
| Popitem
| Setdefault (k v : Z)
| Update (pairs : list (Z * Z))
| Clear
| Ior (other : list (Z * Z)).

(** Whether the use is one of the blocked ones. *)
Definition blocked (o : op) : bool :=
  match o with
  | Hash | Getitem _ | Ior _ => false
  | _ => true
  end.

(** Whether the use is an in-place union. *)
Definition is_ior (o : op) : bool :=
  match o with
  | Ior _ => true
  | _ => false
  end.

Section FrozenDict.
(** The builtin [hash] on a tuple of pairs of integers. *)
Variable py_hash : list (Z * Z) -> Z.

(** Whether [dict] has the method [__ior__]: it has from Python 3.9 on;
    before, [self |= other] raises [TypeError]. *)
Variable has_ior : bool.

(** [FrozenDict.__new__(cls, pairs)] ([__init__] does nothing). *)
Definition new (pairs : list (Z * Z)) : FrozenDict :=
  mkFD (dict_init pairs) None.

(** [FrozenDict.__hash__]: the value, the object afterwards, and the tuples
    [hash] was called on. *)
Definition hash (self : FrozenDict) : Z * FrozenDict * list (list (Z * Z)) :=
  match _cachedHash self with
  | Some h => (h, self, [])
  | None =>
      let items := sorted (content self) in
      let h := py_hash items in
      (h, mkFD (content self) (Some h), [items])
  end.

(** The property [_blocked], which stands for [__delitem__], [__setitem__],
    [pop], [popitem], [setdefault], [update] and [clear]: getting it
    raises. *)
Definition _blocked (self : FrozenDict) : fd_exn + Z * FrozenDict :=
  inl FrozenDictAttributeError.

(** One use: what it answers (nothing, for a statement) or raises, the
    object afterwards, the tuples hashed. *)
Definition use (o : op) (self : FrozenDict)
  : (fd_exn + option Z) * FrozenDict * list (list (Z * Z)) :=
  match o with
  | Hash => match hash self with (h, self', t) => (inr (Some h), self', t) end
  | Getitem k =>
      (match dict_getitem (content self) k with
       | inl e => inl e
       | inr v => inr (Some v)
       end, self, [])
  | Ior other =>
      if has_ior
      then (inr None, mkFD (dict_ior (content self) other) (_cachedHash self), [])
      else (inl TypeError, self, [])
  | _ => match _blocked self with
         | inl e => (inl e, self, [])
         | inr (z, self') => (inr (Some z), self', [])
         end
  end.

(** Uses made one after the other. *)
Fixpoint uses (os : list op) (self : FrozenDict)
  : list (fd_exn + option Z) * FrozenDict * list (list (Z * Z)) :=
  match os with
  | [] => ([], self, [])
  | o :: rest =>
      match use o self with
      | (r, self1, t1) =>
          match uses rest self1 with
          | (rs, self2, t2) => (r :: rs, self2, t1 ++ t2)
          end
      end
  end.

(** What a use writes into a dict's content: nothing, but for an in-place
    union where [dict] has one. *)
Definition written (c : dict_items) (o : op) : dict_items :=
  match o with
  | Ior other => if has_ior then dict_ior c other else c
  | _ => c
  end.

(** The cached hash, when there is one, is the hash of the sorted items. *)
Definition cache_ok (self : FrozenDict) : Prop :=
  match _cachedHash self with
  | None => True
  | Some h => h = py_hash (sorted (content self))
  end.
End FrozenDict.
End FrozenDictM.

(** ** The logger: [pknyx/services/logger.py] *)
Module LoggerM.

(** The exceptions of this module. *)
Inductive lg_exn : Type := LoggerValueError | KeyError.

(** The levels of Python's [logging]. *)
Definition DEBUG : Z := 10.
Definition INFO : Z := 20.
Definition WARNING : Z := 30.
Definition ERROR : Z := 40.
Definition CRITICAL : Z := 50.

(** [logging.TRACE] and [logging.EXCEPTION], as [__init__] defines them. *)
Definition TRACE : Z := DEBUG - 5.
Definition EXCEPTION : Z := ERROR + 5.

(** The table [LEVELS]. *)
Definition LEVELS : list (string * Z) :=
  [("trace", DEBUG - 5); ("debug", DEBUG); ("info", INFO); ("warning", WARNING);
   ("error", ERROR); ("exception", ERROR + 5); ("critical", CRITICAL)]%string.

(** [LEVELS[name]], [None] for a missing key. *)
Fixpoint lookup_level (table : list (string * Z)) (name : string) : option Z :=
  match table with
  | [] => None
  | (n, l) :: rest => if String.eqb n name then Some l else lookup_level rest name
  end.

(** [self]: the level of [self._logger] and the format string of the
    formatter of [self._stdoutStreamHandler]. *)
Record Logger : Type := mkLogger {
  level : Z;
  stream_format : string
}.

(** A record that the underlying logger hands to its handlers: level,
    message, and whether [exc_info] was asked for. *)
Inductive event : Type := Handled (lvl : Z) (message : string) (exc_info : bool).

(** A level given by name or by number. *)
Inductive level_arg : Type := ByName (name : string) | ByNumber (lvl : Z).

Section Logger.
(** [config.LOGGER_STREAM_FORMAT]. *)
Variable LOGGER_STREAM_FORMAT : string.

(** [Logger.setLevel]. *)
Definition setLevel (name : string) (self : Logger) : lg_exn + Logger :=
  match lookup_level LEVELS name with
  | None => inl LoggerValueError
  | Some l =>
      inr (mkLogger l (if INFO <=? l then ""%string else LOGGER_STREAM_FORMAT))
  end.

(** [self._logger.log(lvl, message, exc_info=...)] of Python's [logging]: the
    record is handled when its level is at least the logger's. *)
Definition logger_log (lvl : Z) (message : string) (exc_info : bool)
    (self : Logger) : list event :=
  if level self <=? lvl then [Handled lvl message exc_info] else [].

(** [Logger.log]. *)
Definition log (lvl : level_arg) (message : string) (self : Logger)
  : lg_exn + list event :=
  match lvl with
  | ByName name =>
      match lookup_level LEVELS name with
      | None => inl KeyError
      | Some l => inr (logger_log l message false self)
      end
  | ByNumber l => inr (logger_log l message false self)
  end.

(** [Logger.trace], [debug], [info], [warning], [error], [critical]. *)
Definition trace (message : string) (self : Logger) : list event :=
  logger_log TRACE message false self.
Definition debug (message : string) (exc_info : bool) (self : Logger) : list event :=
  logger_log DEBUG message exc_info self.
Definition info (message : string) (self : Logger) : list event :=
  logger_log INFO message false self.
Definition warning (message : string) (self : Logger) : list event :=
  logger_log WARNING message false self.
Definition error (message : string) (self : Logger) : list event :=
  logger_log ERROR message false self.
Definition critical (message : string) (self : Logger) : list event :=
  logger_log CRITICAL message false self.

(** [Logger.exception(message, debug=False)]: [exc_info] is set, and the
    record goes out at level DEBUG or EXCEPTION. *)
Definition exception (message : string) (debug_flag : bool) (self : Logger)
  : list event :=
  if debug_flag then debug message true self
  else logger_log EXCEPTION message true self.
End Logger.
End LoggerM.

(** The names of the levels, in the order of their numbers. *)
Definition Logger_level_names : list string :=
  ["trace"; "debug"; "info"; "warning"; "error"; "exception"; "critical"]%string.

(** ** The monitor tool: [pknyx/tools/monitor.py] *)
Module Monitor.

(** The names bound in the module when its functions run: what it imports
    and what it defines. *)
Definition module_names : list string :=
  ["__revision__"; "sys"; "time"; "argparse"; "threading"; "PKNyXValueError";
   "Logger"; "DPTXlatorFactory"; "Group"; "GroupListener"; "Stack"; "Priority";
   "MonitorGroupObject"; "write"; "read"; "response"; "monitor"; "main"]%string.

(** What a function of the tool raises: [NameError] for a global name that
    is not bound, or the exception of a collaborator. *)
Inductive tool_exn : Type :=
| NameError (name : string)
| Raised (e : exn).

(** Calls made on collaborators: the constructors of [Priority] and [Stack],
    the methods of the stack, and any other call, by its label. *)
Inductive event : Type :=
| Priority_new (name : string)
| Stack_new (individualAddress : string)
| Stack_start
| Stack_stop
| Stack_mainLoop
| Other (label : string).

(** A function body: the calls made, and the outcome. *)
Definition M (A : Type) : Type := (list event * (tool_exn + A))%type.

Definition ret {A} (a : A) : M A := ([], inr a).

Definition bind {A B} (m : M A) (k : A -> M B) : M B :=
  match m with
  | (t1, inl e) => (t1, inl e)
  | (t1, inr a) => match k a with (t2, r) => (t1 ++ t2, r) end
  end.

(** The load of a global name (none of the names looked up below is a
    builtin). *)
Definition global (name : string) : M unit :=
  if bool_decide (name ∈ module_names) then ([], inr tt)
  else ([], inl (NameError name)).

(** The subcommands and their own arguments. *)
Inductive command : Type :=
| Write (gad value : string)
| Read (timeout : Z) (wait : bool) (gad : string)
| Response (gad value : string)
| MonitorBus.

Section Monitor.
(** The constructors [Priority(name)] and [Stack(individualAddress=src)],
    which may raise. *)
Variable Priority_init : string -> exn + Priority.
Variable Stack_init : string -> exn + StackM.Stack.

(** The statements of [write], [read] and [response] that follow
    [groupObject = SimpleGroupObject()], and those of
    [MonitorGroupObject.__init__] and [monitor] that follow
    [super(SimpleGroupObject, self)]: whatever they do. *)
Variable write_rest : Priority -> StackM.Stack -> string -> string -> M unit.
Variable read_rest : Priority -> StackM.Stack -> Z -> bool -> string -> M unit.
Variable response_rest : Priority -> StackM.Stack -> string -> string -> M unit.
Variable monitor_rest : StackM.Stack -> M unit.

(** [if not isinstance(priority, Priority): priority = Priority(priority)]. *)
Definition as_priority (priority : Priority + string) : M Priority :=
  bind (global "Priority") (fun _ =>
  match priority with
  | inl p => ret p
  | inr name =>
      bind (global "Priority") (fun _ =>
      match Priority_init name with
      | inl e => ([Priority_new name], inl (Raised e))
      | inr p => ([Priority_new name], inr p)
      end)
  end).

(** [stack = Stack(individualAddress=src)]. *)
Definition new_stack (src : string) : M StackM.Stack :=
  bind (global "Stack") (fun _ =>
  match Stack_init src with
  | inl e => ([Stack_new src], inl (Raised e))
  | inr s => ([Stack_new src], inr s)
  end).

(** [write(gad, value, dptId, src, priority, hopCount)]. *)
Definition write (gad value : string) (src : string)
    (priority : Priority + string) : M unit :=
  bind (as_priority priority) (fun priority =>
  bind (new_stack src) (fun stack =>
  bind (global "SimpleGroupObject") (fun _ =>
  write_rest priority stack gad value))).

(** [read(gad, timeout, wait, dptId, src, priority, hopCount)]. *)
Definition read (gad : string) (timeout : Z) (wait : bool) (src : string)
    (priority : Priority + string) : M unit :=
  bind (as_priority priority) (fun priority =>
  bind (new_stack src) (fun stack =>
  bind (global "SimpleGroupObject") (fun _ =>
  read_rest priority stack timeout wait gad))).

(** [response(gad, value, dptId, src, priority, hopCount)]. *)
Definition response (gad value : string) (src : string)
    (priority : Priority + string) : M unit :=
  bind (as_priority priority) (fun priority =>
  bind (new_stack src) (fun stack =>
  bind (global "SimpleGroupObject") (fun _ =>
  response_rest priority stack gad value))).

(** [monitor(dptId, src, priority, hopCount)]: the stack is built, then
    [MonitorGroupObject()] runs [__init__], whose first statement is
    [super(SimpleGroupObject, self).__init__()]. *)
Definition monitor (src : string) : M unit :=
  bind (new_stack src) (fun stack =>
  bind (global "MonitorGroupObject") (fun _ =>
  bind (global "SimpleGroupObject") (fun _ =>
  monitor_rest stack))).

(** The call of [args.func] in [main]: the subcommand, with the common
    options as keyword arguments. *)
Definition run (c : command) (src priority : string) : M unit :=
  match c with
  | Write gad value => write gad value src (inr priority)
  | Read timeout wait gad => read gad timeout wait src (inr priority)
  | Response gad value => response gad value src (inr priority)
  | MonitorBus => monitor src
  end.
End Monitor.
End Monitor.

(* ===================================================================== *)
(** * Part II: properties                                                *)
(* ===================================================================== *)

(** ** Datapoint types *)

Lemma iterable_py_tuple (o : pyobj) :
  iterable o = true <-> exists items, py_tuple o = inr items.
Proof.
  destruct o; simpl; split; intros H; try discriminate; eauto;
    destruct H as [items H]; discriminate.
Qed.

Lemma not_iterable_py_tuple (o : pyobj) :
  iterable o = false -> py_tuple o = inl TypeError.
Proof. destruct o; simpl; intros H; try discriminate; reflexivity. Qed.

(** C6: once the identifier is accepted, [DPT(dptId, desc, limits, unit)]
    raises [DPTValueError] for every [limits] that [tuple()] cannot iterate
    over (an integer such as -273, [None]), and for every [limits] it can,
    construction succeeds and the [limits] property is the tuple of the
    items of the argument, in order (the very items for a tuple or list). *)
Theorem DPT_init_limits_coerce
    (DPTID : Type) (DPTID_init : string -> exn + DPTID)
    (dptId : DPTID + string) (i : DPTID)
    (desc : string) (limits : pyobj) (unit : option string) :
  match dptId with inl j => inr j | inr s => DPTID_init s end = inr i ->
  (iterable limits = false ->
     DPTm.DPT_init DPTID DPTID_init dptId desc limits unit = inl DPTValueError)
  /\ (iterable limits = true ->
        exists d,
          DPTm.DPT_init DPTID DPTID_init dptId desc limits unit = inr d
          /\ py_iter limits = inr (DPTm.limits DPTID d)
          /\ (forall items, limits = PTuple items \/ limits = PList items ->
                DPTm.limits DPTID d = items))
  /\ DPTm.DPT_init DPTID DPTID_init dptId desc (PInt (-273)) unit
       = inl DPTValueError.
Proof.
  intros Hid. unfold DPTm.DPT_init. rewrite Hid. repeat split.
  - intros Hn. now rewrite (not_iterable_py_tuple _ Hn).
  - intros Hy. apply iterable_py_tuple in Hy as [items Hitems].
    rewrite Hitems. eexists. split; [ reflexivity | ]. split.
    + exact Hitems.
    + intros l [-> | ->]; simpl in Hitems; now inversion Hitems.
Qed.

Lemma DPT_init_limits_coerce_witness :
  DPTm.DPT_init string inr (inr "9.001"%string) "Temperature" (PInt (-273)) None
    = inl DPTValueError
  /\ exists d,
       DPTm.DPT_init string inr (inr "1.001"%string) "Switch"
         (PList [PStr "Off"; PStr "On"]) None = inr d
       /\ DPTm.limits string d = [PStr "Off"; PStr "On"].
Proof.
  split.
  - apply (DPT_init_limits_coerce string inr (inr "9.001"%string) "9.001"%string
             "Temperature" (PInt (-273)) None eq_refl).
  - destruct (DPT_init_limits_coerce string inr (inr "1.001"%string) "1.001"%string
                "Switch" (PList [PStr "Off"; PStr "On"]) None eq_refl)
      as (_ & H & _).
    destruct (H eq_refl) as (d & Hd & _ & Hl).
    exists d. split; [ exact Hd | ]. apply Hl. right. reflexivity.
Defined.

(** ** Layer 4 *)

Lemma land_0x3f_byte (b : Z) : is_byte (Z.land b 0x3f) = true.
Proof.
  unfold is_byte. apply andb_true_iff. split.
  - apply Z.leb_le, Z.land_nonneg. right. lia.
  - apply Z.ltb_lt. change 0x3f with (Z.ones 6). rewrite Z.land_ones by lia.
    pose proof (Z.mod_pos_bound b (2 ^ 6)). lia.
Qed.

Lemma land_0x3f_top_bits (b : Z) : Z.land (Z.land b 0x3f) 0xc0 = 0.
Proof. rewrite <- Z.land_assoc. simpl. apply Z.land_0_r. Qed.

(** A byte whose two top bits are clear is left alone by [& 0x3f]. *)
Lemma land_0x3f_id (b : Z) :
  is_byte b = true -> Z.land b 0xc0 = 0 -> Z.land b 0x3f = b.
Proof.
  unfold is_byte. intros Hb H0. apply andb_true_iff in Hb as [Hlo Hhi].
  apply Z.leb_le in Hlo. apply Z.ltb_lt in Hhi.
  assert (Hff : Z.land b 0xff = b).
  { change 0xff with (Z.ones 8). rewrite Z.land_ones by lia.
    apply Z.mod_small. lia. }
  rewrite <- Hff at 2. change 0xff with (Z.lor 0xc0 0x3f).
  rewrite Z.land_lor_distr_r, H0. reflexivity.
Qed.

(** What [groupDataInd] does on a buffer with a first byte, with a listener
    set. *)
Lemma groupDataInd_cons w tgdl src gad priority tPDU b0 rest :
  L4._tgdl (L4.self w) = Some tgdl ->
  L4.heap w !! tPDU = Some (b0 :: rest) ->
  L4.groupDataInd src gad priority tPDU w =
    if Z.land b0 0xc0 =? L4.UNNUMBERED_DATA
    then (inr tt,
          L4.mkWorld (L4.self w) (<[tPDU := Z.land b0 0x3f :: rest]> (L4.heap w)),
          [L4.TGDL_groupDataInd tgdl src gad priority tPDU])
    else (inr tt, w, []).
Proof.
  intros Hl Hh. unfold L4.groupDataInd, Eff.bind at 1. simpl. rewrite Hl.
  unfold Eff.bind at 1. unfold L4.load_item at 1, Eff.bind at 1. simpl.
  rewrite Hh. simpl.
  destruct (Z.land b0 0xc0 =? L4.UNNUMBERED_DATA); [ | reflexivity ].
  unfold Eff.bind, L4.load_item, L4.store_item, Eff.bind. simpl. rewrite Hh. simpl.
  unfold ba_setitem. simpl. rewrite land_0x3f_byte. simpl.
  rewrite Hh. simpl. reflexivity.
Qed.

(** On an empty buffer [tPDU[0]] raises and nothing else happens. *)
Lemma groupDataInd_nil w tgdl src gad priority tPDU :
  L4._tgdl (L4.self w) = Some tgdl ->
  L4.heap w !! tPDU = Some [] ->
  L4.groupDataInd src gad priority tPDU w = (inl IndexError, w, []).
Proof.
  intros Hl Hh. unfold L4.groupDataInd, Eff.bind at 1. simpl. rewrite Hl.
  unfold Eff.bind, L4.load_item, Eff.bind. simpl. rewrite Hh. reflexivity.
Qed.

(** C2: with a listener set, [groupDataInd(src, gad, priority, tPDU)] calls
    the listener if and only if the buffer has a first byte whose two top
    bits are the unnumbered-data code 0x00; the buffer the listener is
    handed then reads [(b0 & 0x3f) :: rest], with those two bits clear; for
    any other code in those bits, numbered data (0x40) included, no call is
    made and nothing changes. *)
Theorem groupDataInd_forwards_iff_unnumbered
    (w : L4.world) (tgdl : L4.listener) (src : IndividualAddress)
    (gad : GroupAddress) (priority : Priority) (tPDU : L4.ref) (bytes : list Z) :
  L4._tgdl (L4.self w) = Some tgdl ->
  L4.heap w !! tPDU = Some bytes ->
  let out := L4.groupDataInd src gad priority tPDU w in
  (Eff.trace out <> [] <->
     exists b0 rest, bytes = b0 :: rest /\ Z.land b0 0xc0 = L4.UNNUMBERED_DATA)
  /\ (forall b0 rest,
        bytes = b0 :: rest -> Z.land b0 0xc0 = L4.UNNUMBERED_DATA ->
        let ev := L4.TGDL_groupDataInd tgdl src gad priority tPDU in
        Eff.result out = inr tt
        /\ Eff.trace out = [ev]
        /\ L4.delivered (Eff.final out) ev = Some (Z.land b0 0x3f :: rest)
        /\ Z.land (Z.land b0 0x3f) 0xc0 = 0)
  /\ (forall b0 rest,
        bytes = b0 :: rest ->
        Z.land b0 0xc0 <> L4.UNNUMBERED_DATA \/ Z.land b0 0xc0 = L4.NUMBERED_DATA ->
        Eff.trace out = [] /\ Eff.final out = w).
Proof.
  intros Hl Hh out. subst out. destruct bytes as [ | b0 rest ].
  - rewrite (groupDataInd_nil _ _ _ _ _ _ Hl Hh). simpl.
    split; [ split | split ].
    + intros H. now destruct H.
    + intros (b0 & rest & H & _). discriminate.
    + intros b0 rest H. discriminate.
    + intros b0 rest H. discriminate.
  - rewrite (groupDataInd_cons _ _ _ _ _ _ _ _ Hl Hh).
    destruct (Z.land b0 0xc0 =? L4.UNNUMBERED_DATA) eqn:E.
    + apply Z.eqb_eq in E. simpl. split; [ | split ].
      * split; [ intros _; eauto | discriminate ].
      * intros b0' rest' Heq _. inversion Heq; subst b0' rest'.
        repeat split.
        -- apply lookup_insert_eq.
        -- apply land_0x3f_top_bits.
      * intros b0' rest' Heq [Hne | Hnum]; inversion Heq; subst b0' rest'.
        -- contradiction.
        -- rewrite Hnum in E. discriminate.
    + apply Z.eqb_neq in E. simpl. split; [ | split ].
      * split; [ intros H; now destruct H | ].
        intros (b0' & rest' & Heq & H0). inversion Heq; subst. contradiction.
      * intros b0' rest' Heq H0. inversion Heq; subst. contradiction.
      * intros; split; reflexivity.
Qed.

Lemma groupDataInd_forwards_iff_unnumbered_witness :
  let w := L4.mkWorld (L4.mkTGDS (Some "app"%string)) {[ 1%positive := [0x00; 0x81] ]} in
  let out := L4.groupDataInd (IA 0x1101) (GAD 0x0901) low 1%positive w in
  Eff.trace out = [L4.TGDL_groupDataInd "app" (IA 0x1101) (GAD 0x0901) low 1%positive]
  /\ L4.heap (Eff.final out) !! 1%positive = Some [0x00; 0x81].
Proof.
  pose (w := L4.mkWorld (L4.mkTGDS (Some "app"%string)) {[ 1%positive := [0x00; 0x81] ]}).
  destruct (groupDataInd_forwards_iff_unnumbered w "app"%string (IA 0x1101)
              (GAD 0x0901) low 1%positive [0x00; 0x81] eq_refl eq_refl)
    as (_ & H & _).
  destruct (H 0x00 [0x81] eq_refl eq_refl) as (_ & Ht & Hd & _).
  split; [ exact Ht | exact Hd ].
Defined.

(** C10, as stated, fails: an accepted indication leaves the content of the
    caller's buffer as it was.  Here the buffer [[0x01; 0x80]] is accepted
    and reads the same after the call. *)
Lemma groupDataInd_buffer_modified_counterexample :
  ~ (forall (w : L4.world) tgdl src gad priority tPDU bytes,
       L4._tgdl (L4.self w) = Some tgdl ->
       L4.heap w !! tPDU = Some bytes ->
       Forall (fun b => is_byte b = true) bytes ->
       let out := L4.groupDataInd src gad priority tPDU w in
       Eff.trace out <> [] ->
       L4.heap (Eff.final out) !! tPDU <> Some bytes).
Proof.
  intros H.
  apply (H (L4.mkWorld (L4.mkTGDS (Some "app"%string)) {[ 1%positive := [0x01; 0x80] ]})
           "app"%string (IA 0x1101) (GAD 0x0901) low 1%positive [0x01; 0x80]).
  - reflexivity.
  - reflexivity.
  - repeat constructor.
  - vm_compute. discriminate.
  - vm_compute. reflexivity.
Qed.

(** C10, amended: for every accepted indication the listener is handed the
    caller's own buffer object (the same reference, no copy), and the write
    in place stores [b0 & 0x3f], which is the byte that was there: the
    store after the call is the store before it. *)
Theorem groupDataInd_forwards_same_buffer
    (w : L4.world) (tgdl : L4.listener) (src : IndividualAddress)
    (gad : GroupAddress) (priority : Priority) (tPDU : L4.ref)
    (b0 : Z) (rest : list Z) :
  L4._tgdl (L4.self w) = Some tgdl ->
  L4.heap w !! tPDU = Some (b0 :: rest) ->
  is_byte b0 = true ->
  let out := L4.groupDataInd src gad priority tPDU w in
  Eff.trace out <> [] ->
  Eff.trace out = [L4.TGDL_groupDataInd tgdl src gad priority tPDU]
  /\ L4.heap (Eff.final out) !! tPDU = Some (Z.land b0 0x3f :: rest)
  /\ Z.land b0 0x3f = b0
  /\ Eff.final out = w.
Proof.
  intros Hl Hh Hb out. subst out.
  rewrite (groupDataInd_cons _ _ _ _ _ _ _ _ Hl Hh).
  destruct (Z.land b0 0xc0 =? L4.UNNUMBERED_DATA) eqn:E; simpl.
  - intros _. apply Z.eqb_eq in E.
    pose proof (land_0x3f_id b0 Hb E) as Hid.
    repeat split.
    + apply lookup_insert_eq.
    + exact Hid.
    + rewrite Hid, (insert_id _ _ _ Hh). now destruct w.
  - intros H. now destruct H.
Qed.

Lemma groupDataInd_forwards_same_buffer_witness :
  let w := L4.mkWorld (L4.mkTGDS (Some "app"%string)) {[ 1%positive := [0x01; 0x80] ]} in
  let out := L4.groupDataInd (IA 0x1101) (GAD 0x0901) low 1%positive w in
  Eff.trace out = [L4.TGDL_groupDataInd "app" (IA 0x1101) (GAD 0x0901) low 1%positive]
  /\ Eff.final out = w.
Proof.
  pose (w := L4.mkWorld (L4.mkTGDS (Some "app"%string)) {[ 1%positive := [0x01; 0x80] ]}).
  assert (Hacc : Eff.trace (L4.groupDataInd (IA 0x1101) (GAD 0x0901) low 1%positive w) <> [])
    by (vm_compute; discriminate).
  destruct (groupDataInd_forwards_same_buffer w "app"%string (IA 0x1101)
              (GAD 0x0901) low 1%positive 0x01 [0x80] eq_refl eq_refl eq_refl Hacc)
    as (Ht & _ & _ & Hw).
  split; [ exact Ht | exact Hw ].
Defined.

(** ** Layer 3 *)

Section L3_properties.
Variable CEMILData_new : L3.CEMILData.

(** [nPDU = bytearray(len(nSDU) + 1); nPDU[0] = len(nSDU) - 1;
    nPDU[1:] = nSDU]. *)
Lemma build_npdu (nSDU : list Z) :
  match ba_setitem (ba_zeros (len nSDU + 1)) 0 (len nSDU - 1) with
  | inr nPDU =>
      is_byte (len nSDU - 1) = true
      /\ ba_setslice_from nPDU 1 nSDU = (len nSDU - 1) :: nSDU
  | inl e => is_byte (len nSDU - 1) = false /\ e = ValueError
  end.
Proof.
  unfold ba_zeros, len.
  replace (Z.of_nat (length nSDU) + 1) with (Z.of_nat (S (length nSDU))) by lia.
  rewrite Nat2Z.id. simpl repeat. unfold ba_setitem, len.
  cbn [length]. rewrite repeat_length.
  replace (0 <? 0) with false by reflexivity.
  replace ((0 <=? 0) && (0 <? Z.of_nat (S (length nSDU)))) with true
    by (symmetry; apply andb_true_iff; split;
        [ reflexivity | apply Z.ltb_lt; lia ]).
  destruct (is_byte (Z.of_nat (length nSDU) - 1)) eqn:E.
  - split; [ reflexivity | ]. reflexivity.
  - split; reflexivity.
Qed.

(** [groupDataReq] in closed form: the address check, then the range
    check of the length byte, then one call on the link layer. *)
Lemma groupDataReq_eval s gad priority nSDU :
  L3.groupDataReq CEMILData_new gad priority nSDU s =
    if isNull gad then (inl N_GDSValueError, s, [])
    else if is_byte (len nSDU - 1)
         then (inr tt, s,
               [L3.LDS_dataReq
                  (L3.mkCEMI L3.MC_LDATA_IND (L3.sourceAddress CEMILData_new)
                     (AddrGroup gad) priority (L3._hopCount s)
                     ((len nSDU - 1) :: nSDU))])
         else (inl ValueError, s, []).
Proof.
  unfold L3.groupDataReq, Eff.bind at 1. simpl.
  destruct (isNull gad); [ reflexivity | ].
  unfold Eff.bind, Eff.lift, Eff.emit.
  pose proof (build_npdu nSDU) as H.
  destruct (ba_setitem (ba_zeros (len nSDU + 1)) 0 (len nSDU - 1)) as [e | nPDU].
  - destruct H as [-> ->]. reflexivity.
  - destruct H as [-> ->]. reflexivity.
Qed.

(** [dataInd] in closed form. *)
Lemma dataInd_eval s cEMI :
  L3.dataInd cEMI s =
    match L3._ngdl s, L3.destinationAddress cEMI with
    | Some ngdl, AddrGroup gad =>
        if isNull gad then (inr tt, s, [])
        else (inr tt, s,
              [L3.NGDL_groupDataInd ngdl (L3.sourceAddress cEMI) gad
                 (L3.priority cEMI) (skipn 1 (L3.npdu cEMI))])
    | _, _ => (inr tt, s, [])
    end.
Proof.
  unfold L3.dataInd, Eff.bind. simpl.
  destruct (L3._ngdl s); [ | reflexivity ].
  destruct (L3.destinationAddress cEMI) as [gad | ia]; [ | reflexivity ].
  destruct (isNull gad); reflexivity.
Qed.

Lemma is_byte_len_pred (nSDU : list Z) :
  is_byte (len nSDU - 1) = true <-> 1 <= len nSDU <= 256.
Proof.
  unfold is_byte. rewrite andb_true_iff, Z.leb_le, Z.ltb_lt. lia.
Qed.
End L3_properties.

(** C3: a request to the null group address (value 0) raises
    [N_GDSValueError] before anything is built: no call reaches layer 2 and
    the service is unchanged; a request to any other group address never
    raises [N_GDSValueError]. *)
Theorem groupDataReq_null_address
    (CEMILData_new : L3.CEMILData) (s : L3.N_GroupDataService)
    (gad : GroupAddress) (priority : Priority) (nSDU : list Z) :
  let out := L3.groupDataReq CEMILData_new gad priority nSDU s in
  (isNull gad = true <-> gad_raw gad = 0)
  /\ if isNull gad
     then Eff.result out = inl N_GDSValueError
          /\ Eff.trace out = []
          /\ Eff.final out = s
     else Eff.result out <> inl N_GDSValueError.
Proof.
  intros out. subst out. split.
  - unfold isNull. apply Z.eqb_eq.
  - rewrite groupDataReq_eval. destruct (isNull gad).
    + repeat split.
    + destruct (is_byte (len nSDU - 1)); simpl; discriminate.
Qed.

(** C4: whatever the destination, priority and payload, every frame
    [groupDataReq] hands to layer 2 carries [MC_LDATA_IND], which is not
    [MC_LDATA_REQ]; a call that returns hands over exactly one frame, a call
    that raises none.  Frames are built: for every group address other than
    the null one, every priority and every payload of 1 to 256 bytes the
    call returns and its one call on layer 2 hands over a frame with
    [MC_LDATA_IND], that destination, that priority and that payload,
    whatever message code [CEMILData()] starts with. *)
Theorem groupDataReq_message_code
    (CEMILData_new : L3.CEMILData) (s : L3.N_GroupDataService)
    (gad : GroupAddress) (priority : Priority) (nSDU : list Z) :
  let out := L3.groupDataReq CEMILData_new gad priority nSDU s in
  Forall (fun cEMI => L3.messageCode cEMI = L3.MC_LDATA_IND
                      /\ L3.messageCode cEMI <> L3.MC_LDATA_REQ)
         (L3.frames_sent (Eff.trace out))
  /\ match Eff.result out with
     | inr _ => exists cEMI, L3.frames_sent (Eff.trace out) = [cEMI]
     | inl _ => L3.frames_sent (Eff.trace out) = []
     end
  /\ (isNull gad = false ->
      1 <= len nSDU <= 256 ->
      exists cEMI,
        Eff.result out = inr tt
        /\ Eff.trace out = [L3.LDS_dataReq cEMI]
        /\ L3.messageCode cEMI = L3.MC_LDATA_IND
        /\ L3.destinationAddress cEMI = AddrGroup gad
        /\ L3.priority cEMI = priority
        /\ tl (L3.npdu cEMI) = nSDU).
Proof.
  intros out. subst out. rewrite groupDataReq_eval.
  pose proof (is_byte_len_pred nSDU) as Hb.
  destruct (isNull gad); [ | destruct (is_byte (len nSDU - 1)) ]; simpl.
  - split; [ constructor | ]. split; [ reflexivity | discriminate ].
  - split; [ repeat constructor; discriminate | ]. split; [ eauto | ].
    intros _ _. eexists. repeat split.
  - split; [ constructor | ]. split; [ reflexivity | ].
    intros _ Hlen. apply Hb in Hlen. discriminate.
Qed.

Lemma groupDataReq_message_code_witness :
  let new := L3.mkCEMI L3.MC_LDATA_REQ (IA 0) (AddrIndividual (IA 0)) low 0 [] in
  let out := L3.groupDataReq new (GAD 0x0901) normal [0x00; 0x81] (L3.mkNGDS None 6) in
  exists cEMI,
    Eff.result out = inr tt
    /\ Eff.trace out = [L3.LDS_dataReq cEMI]
    /\ L3.messageCode cEMI = L3.MC_LDATA_IND
    /\ L3.destinationAddress cEMI = AddrGroup (GAD 0x0901)
    /\ L3.priority cEMI = normal
    /\ tl (L3.npdu cEMI) = [0x00; 0x81].
Proof.
  intros new out.
  destruct (groupDataReq_message_code new (L3.mkNGDS None 6) (GAD 0x0901) normal
              [0x00; 0x81]) as (_ & _ & H).
  apply H; [ reflexivity | vm_compute; split; discriminate ].
Defined.

(** C5: a call of [groupDataReq] that returns hands layer 2 one frame whose
    network payload is the byte [len(nSDU) - 1] followed by [nSDU], so that
    the length byte is the payload length minus one; such calls exist: the
    call returns whenever the address is not null and the payload has 1 to
    256 bytes.  [dataInd], on a frame it accepts (listener set, non-null
    group destination), hands the listener the npdu without its first
    byte; applied to a frame built by [groupDataReq] it gives back
    [nSDU]. *)
Theorem npdu_length_prefix
    (CEMILData_new : L3.CEMILData) (s : L3.N_GroupDataService)
    (gad : GroupAddress) (priority : Priority) (nSDU : list Z)
    (ngdl : L3.listener) (cEMI : L3.CEMILData) (dest : GroupAddress) :
  let out := L3.groupDataReq CEMILData_new gad priority nSDU s in
  (Eff.result out = inr tt ->
     exists frame,
       Eff.trace out = [L3.LDS_dataReq frame]
       /\ L3.npdu frame = (len nSDU - 1) :: nSDU
       /\ hd_error (L3.npdu frame) = Some (len (tl (L3.npdu frame)) - 1)
       /\ (L3._ngdl s = Some ngdl ->
           L3.indications (Eff.trace (L3.dataInd frame s)) = [nSDU]))
  /\ (isNull gad = false -> 1 <= len nSDU <= 256 -> Eff.result out = inr tt)
  /\ (L3._ngdl s = Some ngdl ->
      L3.destinationAddress cEMI = AddrGroup dest ->
      isNull dest = false ->
      Eff.trace (L3.dataInd cEMI s) =
        [L3.NGDL_groupDataInd ngdl (L3.sourceAddress cEMI) dest
           (L3.priority cEMI) (tl (L3.npdu cEMI))]).
Proof.
  intros out. subst out. rewrite groupDataReq_eval. split; [ | split ].
  - destruct (isNull gad) eqn:Hnull; [ discriminate | ].
    destruct (is_byte (len nSDU - 1)); [ | discriminate ].
    intros _. eexists. split; [ reflexivity | ]. simpl. repeat split.
    intros Hl. rewrite dataInd_eval, Hl. simpl. rewrite Hnull. reflexivity.
  - intros -> Hlen. apply is_byte_len_pred in Hlen. rewrite Hlen. reflexivity.
  - intros Hl Hd Hnull. rewrite dataInd_eval, Hl, Hd, Hnull.
    destruct (L3.npdu cEMI); reflexivity.
Qed.

Lemma npdu_length_prefix_witness :
  let new := L3.mkCEMI L3.MC_LDATA_REQ (IA 0) (AddrIndividual (IA 0)) low 0 [] in
  let s := L3.mkNGDS (Some "tgds"%string) 6 in
  let out := L3.groupDataReq new (GAD 0x0901) normal [0x00; 0x81] s in
  Eff.result out = inr tt
  /\ exists frame,
       Eff.trace out = [L3.LDS_dataReq frame]
       /\ L3.npdu frame = [0x01; 0x00; 0x81]
       /\ L3.indications (Eff.trace (L3.dataInd frame s)) = [[0x00; 0x81]].
Proof.
  pose (new := L3.mkCEMI L3.MC_LDATA_REQ (IA 0) (AddrIndividual (IA 0)) low 0 []).
  pose (s := L3.mkNGDS (Some "tgds"%string) 6).
  destruct (npdu_length_prefix new s (GAD 0x0901) normal [0x00; 0x81]
              "tgds"%string new (GAD 0x0901)) as (Hreq & Hok & _).
  assert (Hres : Eff.result (L3.groupDataReq new (GAD 0x0901) normal [0x00; 0x81] s)
                 = inr tt).
  { apply Hok; [ reflexivity | vm_compute; split; discriminate ]. }
  split; [ exact Hres | ].
  destruct (Hreq Hres) as (frame & Ht & Hn & _ & Hback).
  exists frame. split; [ exact Ht | ]. split; [ exact Hn | ].
  apply Hback. reflexivity.
Defined.

(** ** The stack *)

Lemma reads_app gad (t1 t2 : list StackM.event) :
  StackM.reads gad (t1 ++ t2) = (StackM.reads gad t1 + StackM.reads gad t2)%nat.
Proof. unfold StackM.reads. now rewrite filter_app, length_app. Qed.

(** The standard logger has no method [trace]; the class [Logger] has the
    three methods [start] calls. *)
Lemma logging_getLogger_methods :
  ("trace"%string ∉ StackM.methods StackM.logging_getLogger)
  /\ ("debug"%string ∈ StackM.methods StackM.logging_getLogger)
  /\ ("exception"%string ∈ StackM.methods StackM.logging_getLogger).
Proof.
  split; [ | split ].
  - apply (proj1 (bool_decide_eq_false _)). reflexivity.
  - apply (bool_decide_unpack _). reflexivity.
  - apply (bool_decide_unpack _). reflexivity.
Qed.

Lemma Logger_new_methods :
  ("trace"%string ∈ StackM.methods StackM.Logger_new)
  /\ ("debug"%string ∈ StackM.methods StackM.Logger_new)
  /\ ("exception"%string ∈ StackM.methods StackM.Logger_new).
Proof. repeat split; apply (bool_decide_unpack _); reflexivity. Qed.

Section Stack_properties.
Variable logger : StackM.PyLogger.
Variable Priority_new : exn + Priority.
Variable Group_read_outcome : GroupAddress -> nat -> option exn.

Lemma logger_call_eval (method message : string) (s : StackM.Stack) :
  StackM.logger_call logger method message s =
    if bool_decide (method ∈ StackM.methods logger)
    then (inr tt, s, [StackM.Log method message])
    else (inl AttributeError, s, []).
Proof.
  unfold StackM.logger_call.
  destruct (bool_decide (method ∈ StackM.methods logger)); reflexivity.
Qed.

(** With a logger that has no method [trace], [start] raises at its first
    statement: nothing is started and nothing is read. *)
Lemma start_without_trace (s : StackM.Stack) :
  "trace"%string ∉ StackM.methods logger ->
  StackM.start logger Priority_new Group_read_outcome s = (inl AttributeError, s, []).
Proof.
  intros H. unfold StackM.start, Eff.bind.
  rewrite logger_call_eval, bool_decide_false by exact H. reflexivity.
Qed.

Section Returning.
Variable p : Priority.
Hypothesis Hexception : "exception"%string ∈ StackM.methods logger.
Hypothesis Hpriority : Priority_new = inr p.
Hypothesis Hread : forall gad i, Group_read_outcome gad i = None.

(** The inner loop, when the priority is built and the reads return: it
    logs each listener without flags it meets, and it stops at the first
    listener with the init flag, after one read and the pacing delay. *)
Lemma for_listeners_eval gad i ls s :
  StackM.for_listeners logger Priority_new Group_read_outcome gad i ls s =
    (inr tt, s, StackObs.group_trace p (gad, StackM.mkGroup ls)).
Proof.
  revert i. induction ls as [ | l ls IH ]; intros i; [ reflexivity | ].
  unfold StackObs.group_trace in *. unfold StackM.has_init in *. simpl in *.
  unfold Eff.bind at 1, Eff.try_except, StackM.listener_flags_init.
  destruct (StackM.l_flags l) as [flags | ].
  - unfold Eff.bind at 1. simpl. destruct (Flags_init flags); simpl.
    + rewrite Hpriority. unfold StackM.group_read. rewrite Hread. reflexivity.
    + rewrite IH. reflexivity.
  - simpl. unfold Eff.bind at 1. rewrite logger_call_eval.
    rewrite bool_decide_true by exact Hexception. simpl.
    rewrite IH. reflexivity.
Qed.

Lemma for_groups_eval gs s :
  StackM.for_groups logger Priority_new Group_read_outcome gs s =
    (inr tt, s, flat_map (StackObs.group_trace p) gs).
Proof.
  induction gs as [ | [gad group] gs IH ]; [ reflexivity | ].
  simpl. unfold Eff.bind. destruct group as [ls].
  rewrite for_listeners_eval, IH. reflexivity.
Qed.

(** [start] in closed form, with a logger that has the methods it calls. *)
Lemma start_eval s :
  "trace"%string ∈ StackM.methods logger ->
  "debug"%string ∈ StackM.methods logger ->
  StackM.start logger Priority_new Group_read_outcome s =
    (inr tt, s,
     [StackM.Log "trace" "Stack.start()";
      StackM.LDS_start; StackM.TC_start; StackM.Sleep 250;
      StackM.Log "debug"
        "Stack.start(): initiate a read request for Group having at least one GroupObject with 'init' flag on"]
     ++ flat_map (StackObs.group_trace p) (StackM.groups (StackM._agds s))
     ++ [StackM.Log "debug" "Stack.start(): running"]).
Proof.
  intros Htrace Hdebug. unfold StackM.start, Eff.bind.
  rewrite !logger_call_eval.
  rewrite (bool_decide_true _ Htrace). simpl.
  rewrite logger_call_eval, (bool_decide_true _ Hdebug), for_groups_eval.
  rewrite logger_call_eval, (bool_decide_true _ Hdebug). reflexivity.
Qed.
End Returning.
End Stack_properties.


(** ** Translators *)

(** Induction on objects that reaches inside tuples and lists. *)
Lemma pyobj_nested_ind (P : pyobj -> Prop) :
  P PNone ->
  (forall z, P (PInt z)) ->
  (forall s, P (PStr s)) ->
  (forall l, Forall P l -> P (PTuple l)) ->
  (forall l, Forall P l -> P (PList l)) ->
  forall o, P o.
Proof.
  intros HN HI HS HT HL.
  fix IH 1. intros [ | z | s | l | l ].
  - exact HN.
  - apply HI.
  - apply HS.
  - apply HT. induction l as [ | x l IHl ]; constructor; [ apply IH | exact IHl ].
  - apply HL. induction l as [ | x l IHl ]; constructor; [ apply IH | exact IHl ].
Qed.

Lemma pyobj_eqb_eq (a b : pyobj) : pyobj_eqb a b = true <-> a = b.
Proof.
  revert b. induction a as [ | z | s | l IHl | l IHl ] using pyobj_nested_ind;
    intros [ | z' | s' | l' | l' ]; simpl; try (split; congruence).
  - rewrite Z.eqb_eq. split; congruence.
  - rewrite String.eqb_eq. split; congruence.
  - revert l'. induction IHl as [ | x l Hx _ IH ]; intros [ | y l' ];
      try (split; congruence).
    rewrite andb_true_iff, Hx. specialize (IH l'). simpl in IH.
    rewrite IH. split; [ intros [-> E]; congruence | intros E; split; congruence ].
  - revert l'. induction IHl as [ | x l Hx _ IH ]; intros [ | y l' ];
      try (split; congruence).
    rewrite andb_true_iff, Hx. specialize (IH l'). simpl in IH.
    rewrite IH. split; [ intros [-> E]; congruence | intros E; split; congruence ].
Qed.

(** A value found in an enumeration is found at a position that holds it. *)
Lemma py_index_nth (t : list pyobj) (v : pyobj) :
  py_in v t = true ->
  exists i : nat, py_index t v = inr (Z.of_nat i) /\ nth_error t i = Some v.
Proof.
  induction t as [ | x t IH ]; simpl; [ discriminate | ].
  destruct (pyobj_eqb x v) eqn:E.
  - intros _. exists 0%nat. apply pyobj_eqb_eq in E. subst x. split; reflexivity.
  - simpl. intros Hin. destruct (IH Hin) as (i & Hi & Hn).
    exists (S i). rewrite Hi. split; [ | exact Hn ]. f_equal. lia.
Qed.

Lemma py_getitem_nth {A} (t : list A) (i : nat) (x : A) :
  nth_error t i = Some x -> py_getitem t (Z.of_nat i) = inr x.
Proof.
  intros Hn. unfold py_getitem.
  assert (i < length t)%nat as Hlt by (apply nth_error_Some; congruence).
  replace (Z.of_nat i <? 0) with false by (symmetry; apply Z.ltb_ge; lia).
  replace (0 <=? Z.of_nat i) with true by (symmetry; apply Z.leb_le; lia).
  replace (Z.of_nat i <? Z.of_nat (length t)) with true
    by (symmetry; apply Z.ltb_lt; lia).
  simpl. rewrite Nat2Z.id, Hn. reflexivity.
Qed.

(** The Boolean format bound to any DPT: the value survives the trip
    through the data, the data the trip through the frame. *)
Lemma boolean_round_trips (d : DPTm.DPT string) :
  (forall v, DPTXlatorBoolean.checkValue d v = inr tt ->
     exists data, DPTXlatorBoolean.valueToData d v = inr data
                  /\ DPTXlatorBoolean.dataToValue d data = inr v)
  /\ (forall data, DPTXlatorBoolean.checkData data = inr tt ->
        exists frame, DPTXlatorBoolean.dataToFrame data = inr frame
                      /\ DPTXlatorBoolean.frameToData frame = inr data).
Proof.
  split.
  - intros v Hv. unfold DPTXlatorBoolean.valueToData. rewrite Hv.
    unfold DPTXlatorBoolean.checkValue in Hv.
    destruct (py_in v (DPTm.limits string d)) eqn:Hin; [ | discriminate ].
    destruct (py_index_nth _ _ Hin) as (i & Hi & Hn).
    exists (Z.of_nat i). split; [ exact Hi | ].
    unfold DPTXlatorBoolean.dataToValue. now apply py_getitem_nth.
  - intros data Hd. unfold DPTXlatorBoolean.checkData in Hd.
    eexists. split; [ reflexivity | ]. simpl.
    destruct (data =? 0) eqn:E0; [ apply Z.eqb_eq in E0; now subst | ].
    destruct (data =? 1) eqn:E1; [ apply Z.eqb_eq in E1; now subst | ].
    discriminate.
Qed.

(** The table of the Boolean translator's tests, on the generic DPT. *)
Example boolean_test_table :
  let x := DPTXlatorBoolean.create DPTXlatorBoolean.DPT_Generic in
  Xlator.typeSize x = 0
  /\ Xlator.dataToValue x 0x00 = inr (PInt 0)
  /\ Xlator.dataToValue x 0x01 = inr (PInt 1)
  /\ Xlator.valueToData x (PInt 0) = inr 0x00
  /\ Xlator.valueToData x (PInt 1) = inr 0x01
  /\ Xlator.dataToFrame x 0x00 = inr [0x00]
  /\ Xlator.dataToFrame x 0x01 = inr [0x01]
  /\ Xlator.frameToData x [0x00] = inr 0x00
  /\ Xlator.frameToData x [0x01] = inr 0x01
  /\ Xlator.checkValue x (PInt 2) = inl DPTXlatorValueError.
Proof. repeat split. Qed.

(** ** Datapoints *)

Section Datapoint_properties.
Variable DPTID : Type.

Abbreviation Datapoint := (DatapointM.Datapoint DPTID).

(** The getter of [value] in closed form: nothing cached, no translator
    call. *)
Lemma value_eval (self : Datapoint) :
  DatapointM.value DPTID self =
    match DatapointM._data DPTID self with
    | None => (inr PNone, self, [])
    | Some data =>
        (Xlator.dataToValue (DatapointM._dptXlator DPTID self) data, self,
         [DatapointM.X_dataToValue data])
    end.
Proof.
  unfold DatapointM.value, Eff.bind, Eff.get. simpl.
  destruct (DatapointM._data DPTID self); [ | reflexivity ].
  unfold Eff.lift. simpl.
  destruct (Xlator.dataToValue _ _); reflexivity.
Qed.

(** [_setData] in closed form. *)
Lemma setData_eval (data : Z) (self : Datapoint) :
  DatapointM._setData DPTID data self =
    match Xlator.checkData (DatapointM._dptXlator DPTID self) data with
    | inl e => (inl e, self, [DatapointM.X_checkData data])
    | inr _ => (inr tt, DatapointM.set_data DPTID self data,
                [DatapointM.X_checkData data])
    end.
Proof.
  unfold DatapointM._setData, Eff.bind, Eff.get, Eff.emit, Eff.lift, Eff.put.
  simpl. destruct (Xlator.checkData _ _); reflexivity.
Qed.

(** [self._owner.notify(self, oldValue, self.value)] once [data] is
    cached. *)
Lemma owner_notify_eval (oldValue : pyobj) (self : Datapoint) (data : Z) :
  DatapointM._data DPTID self = Some data ->
  DatapointM.owner_notify DPTID oldValue self =
    match DatapointM._owner DPTID self with
    | None => (inl AttributeError, self, [])
    | Some owner =>
        match Xlator.dataToValue (DatapointM._dptXlator DPTID self) data with
        | inl e => (inl e, self, [DatapointM.X_dataToValue data])
        | inr newValue =>
            (inr tt, self,
             [DatapointM.X_dataToValue data;
              DatapointM.Owner_notify owner (DatapointM._name DPTID self)
                oldValue newValue])
        end
    end.
Proof.
  intros Hd. unfold DatapointM.owner_notify, Eff.bind at 1. simpl.
  destruct (DatapointM._owner DPTID self); [ | reflexivity ].
  unfold Eff.bind. rewrite value_eval, Hd.
  destruct (Xlator.dataToValue _ _); reflexivity.
Qed.

(** The getter leaves the datapoint alone and notifies nobody. *)
Lemma value_shape (self : Datapoint) :
  exists r t0,
    DatapointM.value DPTID self = (r, self, t0)
    /\ DatapointM.notifications t0 = [].
Proof.
  rewrite value_eval. destruct (DatapointM._data DPTID self); eauto.
Qed.
End Datapoint_properties.

(** C8: when the frame setter returns, the data decoded by [frameToData] is
    cached and the only notification is one call of the owner with
    (oldValue, newValue), no signal emission; when the value setter
    returns, the data encoded by [valueToData] is cached and the
    notifications are the signal emission with (oldValue, newValue)
    followed by the owner call with the same pair.  [oldValue] is what the
    [value] getter gave before the call, [newValue] is [dataToValue] of the
    cached data. *)
Theorem setters_notify
    (DPTID : Type) (self : DatapointM.Datapoint DPTID)
    (frame : list Z) (v : pyobj) :
  let xl := DatapointM._dptXlator DPTID self in
  let name := DatapointM._name DPTID self in
  (let out := DatapointM.frame_setter DPTID frame self in
   Eff.result out = inr tt ->
   exists owner data oldValue newValue,
     DatapointM._owner DPTID self = Some owner
     /\ Eff.result (DatapointM.value DPTID self) = inr oldValue
     /\ Xlator.frameToData xl frame = inr data
     /\ DatapointM._data DPTID (Eff.final out) = Some data
     /\ Xlator.dataToValue xl data = inr newValue
     /\ DatapointM.notifications (Eff.trace out) =
          [DatapointM.Owner_notify owner name oldValue newValue])
  /\ (let out := DatapointM.value_setter DPTID v self in
      Eff.result out = inr tt ->
      exists owner data oldValue newValue,
        DatapointM._owner DPTID self = Some owner
        /\ Eff.result (DatapointM.value DPTID self) = inr oldValue
        /\ Xlator.checkValue xl v = inr tt
        /\ Xlator.valueToData xl v = inr data
        /\ DatapointM._data DPTID (Eff.final out) = Some data
        /\ Xlator.dataToValue xl data = inr newValue
        /\ DatapointM.notifications (Eff.trace out) =
             [DatapointM.Signal_emit oldValue newValue;
              DatapointM.Owner_notify owner name oldValue newValue]).
Proof.
  intros xl name. subst xl name. split.
  - intros out. assert (Hout : out = DatapointM.frame_setter DPTID frame self)
      by reflexivity.
    clearbody out. revert Hout. unfold DatapointM.frame_setter.
    unfold Eff.bind at 1.
    destruct (value_shape DPTID self) as (r & t0 & Hv & Ht0). rewrite Hv.
    destruct r as [e | oldValue]; [ intros ->; discriminate | ].
    unfold Eff.bind at 1, Eff.get at 1. unfold Eff.bind at 1, Eff.emit at 1.
    unfold Eff.bind at 1, Eff.lift at 1.
    destruct (Xlator.frameToData _ frame) as [e | data] eqn:Hf;
      [ intros ->; discriminate | ].
    unfold Eff.bind at 1. rewrite setData_eval.
    destruct (Xlator.checkData _ data) as [e | []] eqn:Hc;
      [ intros ->; discriminate | ].
    rewrite (owner_notify_eval DPTID oldValue
               (DatapointM.set_data DPTID self data) data eq_refl). simpl.
    destruct (DatapointM._owner DPTID self) as [owner | ] eqn:Ho;
      [ | intros ->; discriminate ].
    destruct (Xlator.dataToValue _ data) as [e | newValue] eqn:Hn;
      [ intros ->; discriminate | ].
    intros -> _. simpl. exists owner, data, oldValue, newValue.
    repeat split; try assumption.
    unfold DatapointM.notifications in *. rewrite !filter_app, Ht0. reflexivity.
  - intros out. assert (Hout : out = DatapointM.value_setter DPTID v self)
      by reflexivity.
    clearbody out. revert Hout. unfold DatapointM.value_setter.
    unfold Eff.bind at 1.
    destruct (value_shape DPTID self) as (r & t0 & Hv & Ht0). rewrite Hv.
    destruct r as [e | oldValue]; [ intros ->; discriminate | ].
    unfold Eff.bind at 1, Eff.get at 1. unfold Eff.bind at 1, Eff.emit at 1.
    unfold Eff.bind at 1, Eff.lift at 1.
    destruct (Xlator.checkValue _ v) as [e | []] eqn:Hcv;
      [ intros ->; discriminate | ].
    unfold Eff.bind at 1, Eff.emit at 1. unfold Eff.bind at 1, Eff.lift at 1.
    destruct (Xlator.valueToData _ v) as [e | data] eqn:Hvd;
      [ intros ->; discriminate | ].
    unfold Eff.bind at 1. rewrite setData_eval.
    destruct (Xlator.checkData _ data) as [e | []] eqn:Hc;
      [ intros ->; discriminate | ].
    unfold Eff.bind at 1. rewrite value_eval.
    cbn [DatapointM._data DatapointM.set_data DatapointM._dptXlator].
    destruct (Xlator.dataToValue _ data) as [e | newValue] eqn:Hn;
      [ intros ->; discriminate | ].
    unfold Eff.bind at 1, Eff.emit at 1.
    rewrite (owner_notify_eval DPTID oldValue
               (DatapointM.set_data DPTID self data) data eq_refl). simpl.
    destruct (DatapointM._owner DPTID self) as [owner | ] eqn:Ho;
      [ | intros ->; discriminate ].
    rewrite Hn. intros -> _. simpl.
    exists owner, data, oldValue, newValue. repeat split; try assumption.
    unfold DatapointM.notifications in *. rewrite !filter_app, Ht0. reflexivity.
Qed.

Lemma setters_notify_witness :
  let self :=
    DatapointM.mkDatapoint string (Some "block"%string) "lamp" "1.xxx" "output"
      PNone None None None
      (DPTXlatorBoolean.create DPTXlatorBoolean.DPT_Generic)
      (DPTXlatorBoolean.create DPTXlatorBoolean.DPT_Generic) in
  DatapointM.notifications
    (Eff.trace (DatapointM.frame_setter string [0x01] self)) =
    [DatapointM.Owner_notify "block" "lamp" PNone (PInt 1)]
  /\ DatapointM.notifications
       (Eff.trace (DatapointM.value_setter string (PInt 1) self)) =
       [DatapointM.Signal_emit PNone (PInt 1);
        DatapointM.Owner_notify "block" "lamp" PNone (PInt 1)].
Proof.
  intros self.
  pose proof (setters_notify string self [0x01] (PInt 1)) as H.
  cbv zeta in H. destruct H as [Hf Hv]. split.
  - destruct (Hf eq_refl) as (owner & data & old & new & Ho & Hold & Hfd & _ & Hn & Hnot).
    inversion Ho; subst owner. inversion Hold; subst old.
    inversion Hfd; subst data. inversion Hn; subst new. exact Hnot.
  - destruct (Hv eq_refl) as (owner & data & old & new & Ho & Hold & _ & Hvd & _ & Hn & Hnot).
    inversion Ho; subst owner. inversion Hold; subst old.
    inversion Hvd; subst data. inversion Hn; subst new. exact Hnot.
Defined.

Section Datapoint_init_properties.
Variable DPTID : Type.
Variable DPTID_init : string -> exn + DPTID.
Variable DPTID_generic : DPTID -> DPTID.
Variable DPTID_ne : DPTID -> DPTID -> bool.
Variable Flags_new : string -> exn + Flags.
Variable Priority_new : string -> exn + Priority.
Variable Factory_create : DPTID -> exn + Xlator.DPTXlator.

(** The object [__init__] builds before it looks at the default has
    nothing cached. *)
Lemma fresh_no_data owner name access dptId default flags priority self :
  DatapointM.fresh DPTID DPTID_init DPTID_generic DPTID_ne Flags_new
    Priority_new Factory_create owner name access dptId default flags priority
    = inr self ->
  DatapointM._data DPTID self = None.
Proof.
  unfold DatapointM.fresh, DatapointM.ebind. intros H.
  repeat match type of H with
         | context [match ?x with _ => _ end] => destruct x; try discriminate
         end.
  all: inversion H; reflexivity.
Qed.
End Datapoint_init_properties.

(** C9: a datapoint built without a default has nothing cached, and reading
    [value] while nothing is cached returns [None] and makes no call at all
    (so none of [dataToValue]); once a data is cached, reading [value] calls
    [dataToValue] on it, once, and returns what it returns. *)
Theorem value_without_data
    (DPTID : Type) (DPTID_init : string -> exn + DPTID)
    (DPTID_generic : DPTID -> DPTID) (DPTID_ne : DPTID -> DPTID -> bool)
    (Flags_new : string -> exn + Flags) (Priority_new : string -> exn + Priority)
    (Factory_create : DPTID -> exn + Xlator.DPTXlator) :
  (forall owner name access dptId flags priority self t,
     DatapointM.init DPTID DPTID_init DPTID_generic DPTID_ne Flags_new
       Priority_new Factory_create owner name access dptId PNone flags priority
       = (inr self, t) ->
     t = []
     /\ DatapointM._data DPTID self = None
     /\ DatapointM.value DPTID self = (inr PNone, self, []))
  /\ (forall self,
        DatapointM._data DPTID self = None ->
        DatapointM.value DPTID self = (inr PNone, self, [])
        /\ DatapointM.dataToValue_calls (Eff.trace (DatapointM.value DPTID self)) = [])
  /\ (forall self data,
        DatapointM._data DPTID self = Some data ->
        Eff.result (DatapointM.value DPTID self) =
          Xlator.dataToValue (DatapointM._dptXlator DPTID self) data
        /\ Eff.final (DatapointM.value DPTID self) = self
        /\ DatapointM.dataToValue_calls (Eff.trace (DatapointM.value DPTID self))
             = [data]).
Proof.
  split; [ | split ].
  - intros owner name access dptId flags priority self t. unfold DatapointM.init.
    destruct (DatapointM.fresh _ _ _ _ _ _ _ _ _ _ _ _ _ _) as [e | self0] eqn:E;
      [ discriminate | ].
    simpl. intros H. inversion H; subst self0 t.
    apply fresh_no_data in E. rewrite value_eval, E. repeat split.
  - intros self Hd. rewrite value_eval, Hd. split; reflexivity.
  - intros self data Hd. rewrite value_eval, Hd. repeat split.
Qed.

Lemma value_without_data_witness :
  let create := fun _ : string =>
    inr (DPTXlatorBoolean.create DPTXlatorBoolean.DPT_Generic) : exn + Xlator.DPTXlator in
  exists self,
    DatapointM.init string inr (fun i => i) (fun _ _ => false)
      (fun s => inr (mkFlags s)) (fun _ => inr low) create
      (Some "block"%string) "lamp" "output" (inr "1.xxx"%string) PNone None None
      = (inr self, [])
    /\ DatapointM.value string self = (inr PNone, self, []).
Proof.
  intros create. eexists. split; [ reflexivity | ].
  apply (value_without_data string inr (fun i => i) (fun _ _ => false)
           (fun s => inr (mkFlags s)) (fun _ => inr low) create).
  reflexivity.
Defined.

(** ** Runs on concrete inputs *)

(** Two groups: under 1/1/1 the second and third listeners have the init
    flag, under 1/1/2 one listener has no flags and the other no init flag.
    With the module's own logger [start] raises at once; with a logger of
    the class [Logger] and reads that return it reads the first group once
    and the second not at all, and logs the listener without flags. *)
Example start_two_groups :
  let go := fun letters => StackM.mkListener "go" (Some (mkFlags letters)) in
  let g1 := StackM.mkGroup [go "CWTU"%string; go "CRWTUI"%string; go "CWUI"%string] in
  let g2 := StackM.mkGroup [StackM.mkListener "monitor" None; go "CRW"%string] in
  let s := StackM.mkStack (StackM.mkAGDS [(GAD 0x0901, g1); (GAD 0x0902, g2)]) in
  let returns := fun (_ : GroupAddress) (_ : nat) => None : option exn in
  let out := StackM.start StackM.Logger_new (inr low) returns s in
  StackM.start StackM.logging_getLogger (inr low) returns s = (inl AttributeError, s, [])
  /\ StackM.reads (GAD 0x0901) (Eff.trace out) = 1%nat
  /\ StackM.reads (GAD 0x0902) (Eff.trace out) = 0%nat
  /\ StackObs.calls (Eff.trace out) =
       [StackM.LDS_start; StackM.TC_start; StackM.Sleep 250;
        StackM.Group_read (GAD 0x0901) low; StackM.Sleep 100]
  /\ StackObs.logs (Eff.trace out) = ["trace"; "debug"; "exception"; "debug"]%string.
Proof. vm_compute. repeat split. Qed.

(** The network layer on a null address, on an empty payload and on a
    two-byte payload. *)
Example groupDataReq_runs :
  let new := L3.mkCEMI L3.MC_LDATA_REQ (IA 0) (AddrIndividual (IA 0)) low 0 [] in
  let s := L3.mkNGDS None 6 in
  L3.groupDataReq new (GAD 0) normal [0x00; 0x81] s = (inl N_GDSValueError, s, [])
  /\ L3.groupDataReq new (GAD 0x0901) normal [] s = (inl ValueError, s, [])
  /\ L3.groupDataReq new (GAD 0x0901) normal [0x00; 0x81] s =
       (inr tt, s,
        [L3.LDS_dataReq
           (L3.mkCEMI L3.MC_LDATA_IND (IA 0) (AddrGroup (GAD 0x0901)) normal 6
              [0x01; 0x00; 0x81])]).
Proof. repeat split. Qed.

(** The hop count of the network layer must lie in 1..6. *)
Example N_GDS_init_hopCount :
  L3.init 6 = (inr (L3.mkNGDS None 6), [L3.LDS_setListener])
  /\ L3.init 0 = (inl N_GDSValueError, [])
  /\ L3.init 7 = (inl N_GDSValueError, []).
Proof. repeat split. Qed.

(** The transport layer: without a listener nothing is read or written; a
    numbered-data packet is dropped; a request ORs the unnumbered code into
    the caller's buffer and hands the same buffer down. *)
Example transport_runs :
  let h : gmap L4.ref (list Z) := {[ 1%positive := [0x41; 0x80] ]} in
  let w0 := L4.mkWorld (L4.mkTGDS None) h in
  let w1 := L4.mkWorld (L4.mkTGDS (Some "app"%string)) h in
  L4.groupDataInd (IA 0x1101) (GAD 0x0901) low 1%positive w0 = (inr tt, w0, [])
  /\ Eff.final (L4.setListener "app" w0) = w1
  /\ L4.groupDataInd (IA 0x1101) (GAD 0x0901) low 1%positive w1 = (inr tt, w1, [])
  /\ Eff.trace (L4.groupDataReq (GAD 0x0901) low 1%positive w1) =
       [L4.NGDS_groupDataReq (GAD 0x0901) low 1%positive].
Proof. vm_compute. repeat split. Qed.

(* ===================================================================== *)
(** * Part III: further properties of the modelled code                  *)
(* ===================================================================== *)

(** Closes the goals left by a case analysis on an outcome. *)
Ltac close_outcome :=
  repeat match goal with
         | |- _ /\ _ => split
         | |- _ <-> _ => split
         | |- _ -> _ => intro
         | H : _ /\ _ |- _ => destruct H
         | H : is_Some None |- _ =>
             let E := fresh in destruct H as [? E]; discriminate E
         | H : ?x <> ?x |- _ => now destruct H
         | H : _ = _ |- _ => discriminate H
         | |- _ = _ => reflexivity
         | |- (_ <= _)%nat => simpl; lia
         | |- _ \/ _ => first [ left; reflexivity | right; reflexivity ]
         | |- is_Some (Some _) => eexists; reflexivity
         end.

(** ** Layer 4, further *)

Lemma world_eta (w : L4.world) : L4.mkWorld (L4.self w) (L4.heap w) = w.
Proof. now destruct w. Qed.

(** [groupDataReq] on a buffer with a first byte. *)
Lemma T_groupDataReq_cons w gad priority tSDU b0 rest :
  L4.heap w !! tSDU = Some (b0 :: rest) ->
  is_byte b0 = true ->
  L4.groupDataReq gad priority tSDU w =
    (inr tt, w, [L4.NGDS_groupDataReq gad priority tSDU]).
Proof.
  intros Hh Hb. unfold L4.groupDataReq, Eff.bind at 1.
  unfold L4.load_item at 1, Eff.bind at 1. simpl. rewrite Hh. simpl.
  unfold L4.UNNUMBERED_DATA. rewrite Z.lor_0_r.
  unfold Eff.bind, L4.store_item, Eff.bind. simpl. rewrite Hh. simpl.
  unfold ba_setitem. simpl. rewrite Hb. simpl.
  rewrite (insert_id _ _ _ Hh), world_eta. reflexivity.
Qed.

(** X1: a transport request leaves every buffer as it was (ORing the
    unnumbered code 0x00 into byte 0 changes nothing, so the two top bits
    the caller put there go out as they are) and hands the caller's own
    buffer to the network service, by one call; on an empty buffer it
    raises [IndexError] and makes no call.  No listener is needed. *)
Theorem T_groupDataReq_keeps_buffer
    (w : L4.world) (gad : GroupAddress) (priority : Priority)
    (tSDU : L4.ref) (bytes : list Z) :
  L4.heap w !! tSDU = Some bytes ->
  Forall (fun b => is_byte b = true) bytes ->
  let out := L4.groupDataReq gad priority tSDU w in
  Eff.final out = w
  /\ (bytes = [] -> Eff.result out = inl IndexError /\ Eff.trace out = [])
  /\ (bytes <> [] ->
      Eff.result out = inr tt
      /\ Eff.trace out = [L4.NGDS_groupDataReq gad priority tSDU]).
Proof.
  intros Hh Hb out. subst out. destruct bytes as [ | b0 rest ].
  - unfold L4.groupDataReq, Eff.bind, L4.load_item, Eff.bind. simpl.
    rewrite Hh. simpl. close_outcome.
  - apply Forall_cons in Hb as [Hb0 _].
    rewrite (T_groupDataReq_cons _ _ _ _ _ _ Hh Hb0). simpl. close_outcome.
Qed.

Lemma T_groupDataReq_keeps_buffer_witness :
  let w := L4.mkWorld (L4.mkTGDS None) {[ 1%positive := [0x40; 0x81] ]} in
  let out := L4.groupDataReq (GAD 0x0901) low 1%positive w in
  Eff.final out = w
  /\ Eff.trace out = [L4.NGDS_groupDataReq (GAD 0x0901) low 1%positive].
Proof.
  intros w.
  assert (Hb : Forall (fun b => is_byte b = true) [0x40; 0x81])
    by (repeat constructor).
  destruct (T_groupDataReq_keeps_buffer w (GAD 0x0901) low 1%positive
              [0x40; 0x81] eq_refl Hb) as (Hw & _ & Hne).
  split; [ exact Hw | ]. apply Hne. discriminate.
Defined.

(** X2: an indication never changes the store, whatever it does; it
    raises (always [IndexError]) exactly when a listener is set and the
    buffer is empty, since the listener is tested before the buffer is
    read; and it makes at most one call. *)
Theorem T_groupDataInd_outcomes
    (w : L4.world) (src : IndividualAddress) (gad : GroupAddress)
    (priority : Priority) (tPDU : L4.ref) (bytes : list Z) :
  L4.heap w !! tPDU = Some bytes ->
  Forall (fun b => is_byte b = true) bytes ->
  let out := L4.groupDataInd src gad priority tPDU w in
  Eff.final out = w
  /\ (Eff.result out = inl IndexError <->
      is_Some (L4._tgdl (L4.self w)) /\ bytes = [])
  /\ (Eff.result out = inr tt \/ Eff.result out = inl IndexError)
  /\ (L4._tgdl (L4.self w) = None -> Eff.trace out = [])
  /\ (length (Eff.trace out) <= 1)%nat.
Proof.
  intros Hh Hb out. subst out.
  destruct (L4._tgdl (L4.self w)) as [tgdl | ] eqn:Hl.
  - destruct bytes as [ | b0 rest ].
    + rewrite (groupDataInd_nil _ _ _ _ _ _ Hl Hh). simpl. close_outcome.
    + apply Forall_cons in Hb as [Hb0 _].
      rewrite (groupDataInd_cons _ _ _ _ _ _ _ _ Hl Hh).
      destruct (Z.land b0 0xc0 =? L4.UNNUMBERED_DATA) eqn:E; simpl.
      * apply Z.eqb_eq in E. rewrite (land_0x3f_id b0 Hb0 E).
        rewrite (insert_id _ _ _ Hh), world_eta. close_outcome.
      * close_outcome.
  - unfold L4.groupDataInd, Eff.bind. simpl. rewrite Hl. simpl. close_outcome.
Qed.

Lemma T_groupDataInd_outcomes_witness :
  let w := L4.mkWorld (L4.mkTGDS None) {[ 1%positive := [] ]} in
  L4.groupDataInd (IA 0x1101) (GAD 0x0901) low 1%positive w = (inr tt, w, []).
Proof.
  intros w.
  destruct (T_groupDataInd_outcomes w (IA 0x1101) (GAD 0x0901) low 1%positive []
              eq_refl (List.Forall_nil _)) as (Hw & Hidx & Hres & Htr & _).
  specialize (Htr eq_refl).
  destruct (L4.groupDataInd (IA 0x1101) (GAD 0x0901) low 1%positive w)
    as [[r w'] tr].
  unfold Eff.final, Eff.result, Eff.trace in *. simpl in *. subst w' tr.
  destruct Hres as [-> | Hr]; [ reflexivity | ].
  apply Hidx in Hr as [[x Hx] _]. discriminate.
Defined.

(** ** Layer 3, further *)

Section L3_further.
Variable CEMILData_new : L3.CEMILData.

(** No method of the network service changes its hop count. *)
Lemma method_hopCount (c : L3Calls.call) (s : L3.N_GroupDataService) :
  L3._hopCount (Eff.final (L3Calls.method CEMILData_new c s)) = L3._hopCount s.
Proof.
  destruct c as [ngdl | cEMI | gad priority nSDU ]; simpl.
  - reflexivity.
  - rewrite dataInd_eval. destruct (L3._ngdl s); [ | reflexivity ].
    destruct (L3.destinationAddress cEMI) as [gad | ia]; [ | reflexivity ].
    destruct (isNull gad); reflexivity.
  - rewrite groupDataReq_eval. destruct (isNull gad); [ reflexivity | ].
    destruct (is_byte (len nSDU - 1)); reflexivity.
Qed.

Lemma method_frames (c : L3Calls.call) (s : L3.N_GroupDataService) :
  Forall (L3Calls.sent_frame_ok (L3._hopCount s))
    (L3.frames_sent (Eff.trace (L3Calls.method CEMILData_new c s))).
Proof.
  destruct c as [ngdl | cEMI | gad priority nSDU ]; simpl.
  - constructor.
  - rewrite dataInd_eval. destruct (L3._ngdl s); [ | constructor ].
    destruct (L3.destinationAddress cEMI) as [gad | ia]; [ | constructor ].
    destruct (isNull gad); constructor.
  - rewrite groupDataReq_eval. destruct (isNull gad) eqn:Hnull; [ constructor | ].
    destruct (is_byte (len nSDU - 1)) eqn:Hb; [ | constructor ].
    apply is_byte_len_pred in Hb. simpl. constructor; [ | constructor ].
    unfold L3Calls.sent_frame_ok. simpl. repeat split; eauto.
    + unfold len in *. simpl. lia.
    + unfold len in *. simpl. lia.
    + f_equal. unfold len. simpl. lia.
Qed.

Lemma calls_invariant (cs : list L3Calls.call) (s : L3.N_GroupDataService) :
  L3._hopCount (L3Calls.calls CEMILData_new cs s).1 = L3._hopCount s
  /\ Forall (L3Calls.sent_frame_ok (L3._hopCount s))
       (L3.frames_sent (L3Calls.calls CEMILData_new cs s).2).
Proof.
  revert s. induction cs as [ | c cs IH ]; intros s; simpl.
  - split; [ reflexivity | constructor ].
  - pose proof (method_hopCount c s) as Hh.
    pose proof (method_frames c s) as Hf.
    destruct (L3Calls.method CEMILData_new c s) as [[r s1] t1].
    unfold Eff.final, Eff.trace in *. simpl in *.
    destruct (IH s1) as [IHh IHf].
    destruct (L3Calls.calls CEMILData_new cs s1) as [s2 t2]. simpl in *.
    split; [ congruence | ].
    unfold L3.frames_sent in *. rewrite omap_app. apply Forall_app.
    split; [ exact Hf | ]. rewrite <- Hh. exact IHf.
Qed.
End L3_further.

(** X3: a network service exists only with a hop count in 1..6
    ([__init__] raises [N_GDSValueError] otherwise, and then registers
    nothing), it starts without listener, and whatever calls are made on
    it afterwards it keeps that hop count; every frame it ever hands to the
    link layer carries that hop count and the indication code, goes to a
    non-null group address, and has 2 to 257 network bytes of which the
    first is the number of the others minus one. *)
Theorem N_service_frames_invariant
    (CEMILData_new : L3.CEMILData) (hopCount : Z) (cs : list L3Calls.call) :
  match L3.init hopCount with
  | (inr s, t0) =>
      1 <= hopCount <= 6
      /\ t0 = [L3.LDS_setListener]
      /\ L3._ngdl s = None
      /\ L3._hopCount (L3Calls.calls CEMILData_new cs s).1 = hopCount
      /\ Forall (L3Calls.sent_frame_ok hopCount)
           (L3.frames_sent (L3Calls.calls CEMILData_new cs s).2)
  | (inl e, t0) =>
      (hopCount < 1 \/ 6 < hopCount) /\ e = N_GDSValueError /\ t0 = []
  end.
Proof.
  unfold L3.init.
  destruct ((0 <? hopCount) && (hopCount <? 7)) eqn:E; simpl.
  - apply andb_true_iff in E as [E1 E2].
    apply Z.ltb_lt in E1. apply Z.ltb_lt in E2.
    destruct (calls_invariant CEMILData_new cs (L3.mkNGDS None hopCount))
      as [Hh Hf].
    repeat split; try lia; try exact Hh. exact Hf.
  - apply andb_false_iff in E as [E | E]; apply Z.ltb_ge in E;
      repeat split; lia.
Qed.

Example N_service_calls_run :
  let new := L3.mkCEMI L3.MC_LDATA_REQ (IA 0) (AddrIndividual (IA 0)) low 0 [] in
  let cs := [L3Calls.GroupDataReq (GAD 0x0901) normal [0x00; 0x81];
             L3Calls.GroupDataReq (GAD 0) normal [0x00];
             L3Calls.SetListener "tgds";
             L3Calls.GroupDataReq (GAD 0x0902) low [0x00]] in
  L3.frames_sent (L3Calls.calls new cs (L3.mkNGDS None 6)).2 =
    [L3.mkCEMI L3.MC_LDATA_IND (IA 0) (AddrGroup (GAD 0x0901)) normal 6 [0x01; 0x00; 0x81];
     L3.mkCEMI L3.MC_LDATA_IND (IA 0) (AddrGroup (GAD 0x0902)) low 6 [0x00; 0x00]].
Proof. reflexivity. Qed.

(** X4: what the network service does with an inbound frame.  The
    service is never changed.  The frame is handed on, by one call on the
    listener, exactly when a listener is set and the destination is a group
    address other than the null one; the call carries the frame's source,
    destination and priority and its network bytes after the first.  The
    method's own statements raise nothing: without a call it returns, and
    with a call it raises what the listener's [groupDataInd] raises and
    returns when that returns.  The hop count and the message code of the
    frame are read but not used, and the length byte is dropped unread: two
    frames that agree on source, destination, priority and the network
    bytes after the first are treated alike. *)
Theorem N_dataInd_filter
    (NGDL_groupDataInd :
       L3.listener -> IndividualAddress -> GroupAddress -> Priority -> list Z -> option exn)
    (s : L3.N_GroupDataService) (cEMI cEMI' : L3.CEMILData) :
  let out := L3Up.dataInd NGDL_groupDataInd cEMI s in
  Eff.final out = s
  /\ (length (Eff.trace out) <= 1)%nat
  /\ (Eff.trace out <> [] <->
      exists ngdl gad,
        L3._ngdl s = Some ngdl
        /\ L3.destinationAddress cEMI = AddrGroup gad
        /\ isNull gad = false)
  /\ (Eff.trace out = [] -> Eff.result out = inr tt)
  /\ (forall ngdl gad,
        L3._ngdl s = Some ngdl ->
        L3.destinationAddress cEMI = AddrGroup gad ->
        isNull gad = false ->
        Eff.trace out =
          [L3.NGDL_groupDataInd ngdl (L3.sourceAddress cEMI) gad (L3.priority cEMI)
             (tl (L3.npdu cEMI))]
        /\ Eff.result out =
             match NGDL_groupDataInd ngdl (L3.sourceAddress cEMI) gad (L3.priority cEMI)
                     (tl (L3.npdu cEMI)) with
             | Some e => inl e
             | None => inr tt
             end)
  /\ (L3.sourceAddress cEMI' = L3.sourceAddress cEMI ->
      L3.destinationAddress cEMI' = L3.destinationAddress cEMI ->
      L3.priority cEMI' = L3.priority cEMI ->
      tl (L3.npdu cEMI') = tl (L3.npdu cEMI) ->
      L3Up.dataInd NGDL_groupDataInd cEMI' s = L3Up.dataInd NGDL_groupDataInd cEMI s).
Proof.
  intros out. subst out. unfold L3Up.dataInd. rewrite !dataInd_eval.
  assert (Hsk : forall l : list Z, skipn 1 l = tl l) by (intros [ | ? ? ]; reflexivity).
  rewrite !Hsk.
  split; [ | split; [ | split; [ | split; [ | split ] ] ] ].
  - destruct (L3._ngdl s); [ | reflexivity ].
    destruct (L3.destinationAddress cEMI) as [gad | ia]; [ | reflexivity ].
    destruct (isNull gad); [ reflexivity | ]. simpl.
    destruct (NGDL_groupDataInd _ _ _ _ _); reflexivity.
  - destruct (L3._ngdl s); [ | simpl; lia ].
    destruct (L3.destinationAddress cEMI) as [gad | ia]; [ | simpl; lia ].
    destruct (isNull gad); [ simpl; lia | ]. simpl.
    destruct (NGDL_groupDataInd _ _ _ _ _); simpl; lia.
  - destruct (L3._ngdl s) as [ngdl | ].
    + destruct (L3.destinationAddress cEMI) as [gad | ia].
      * destruct (isNull gad) eqn:Hn; simpl.
        -- split; [ intros H; now destruct H | ].
           intros (l & g & _ & Hg & Hg0). inversion Hg; subst. congruence.
        -- split; [ eauto | ].
           intros _. destruct (NGDL_groupDataInd _ _ _ _ _); discriminate.
      * simpl. split; [ intros H; now destruct H | ].
        intros (l & g & _ & Hg & _). discriminate.
    + simpl. split; [ intros H; now destruct H | ].
      intros (l & g & Hl & _). discriminate.
  - destruct (L3._ngdl s); [ | reflexivity ].
    destruct (L3.destinationAddress cEMI) as [gad | ia]; [ | reflexivity ].
    destruct (isNull gad); [ reflexivity | ]. simpl.
    destruct (NGDL_groupDataInd _ _ _ _ _); discriminate.
  - intros ngdl gad -> -> ->. simpl.
    destruct (NGDL_groupDataInd _ _ _ _ _); split; reflexivity.
  - intros -> -> -> ->. reflexivity.
Qed.

Lemma N_dataInd_filter_witness :
  let up := L3Up.T_GroupDataService_groupDataInd "app" in
  let s := L3.mkNGDS (Some "tgds"%string) 6 in
  let c := L3.mkCEMI L3.MC_LDATA_IND (IA 0x1101) (AddrGroup (GAD 0x0901)) normal 6
             [0x01; 0x00; 0x81] in
  let c' := L3.mkCEMI L3.MC_LDATA_REQ (IA 0x1101) (AddrGroup (GAD 0x0901)) normal 0
              [0xff; 0x00; 0x81] in
  let short := L3.mkCEMI L3.MC_LDATA_IND (IA 0x1101) (AddrGroup (GAD 0x0901)) normal 6
                 [0x00] in
  L3Up.dataInd up c' s = L3Up.dataInd up c s
  /\ Eff.result (L3Up.dataInd up c s) = inr tt
  /\ Eff.result (L3Up.dataInd up short s) = inl IndexError
  /\ Eff.trace (L3Up.dataInd up short s) =
       [L3.NGDL_groupDataInd "tgds" (IA 0x1101) (GAD 0x0901) normal []].
Proof.
  intros up s c c' short.
  destruct (N_dataInd_filter up s c c') as (_ & _ & _ & _ & Hcall & Hsame).
  destruct (N_dataInd_filter up s short c) as (_ & _ & _ & _ & Hshort & _).
  destruct (Hcall "tgds"%string (GAD 0x0901) eq_refl eq_refl eq_refl) as (_ & Hres).
  destruct (Hshort "tgds"%string (GAD 0x0901) eq_refl eq_refl eq_refl) as (Htr & Hres').
  split; [ apply Hsame; reflexivity | ].
  split; [ exact Hres | ]. split; [ exact Hres' | exact Htr ].
Defined.

(** X5: the three outcomes of a network request.  It returns exactly
    when the address is not null and the payload has 1 to 256 bytes; it
    raises [ValueError] (from the length byte, which must be a byte) exactly
    when the address is not null and the payload is empty or longer than
    256 bytes; otherwise it raises [N_GDSValueError].  The service is never
    changed, a call that raises sends nothing, and the frame of a call that
    returns has the requested destination and priority, the service's hop
    count, and the source address [CEMILData()] starts with. *)
Theorem N_groupDataReq_outcomes
    (CEMILData_new : L3.CEMILData) (s : L3.N_GroupDataService)
    (gad : GroupAddress) (priority : Priority) (nSDU : list Z) :
  let out := L3.groupDataReq CEMILData_new gad priority nSDU s in
  Eff.final out = s
  /\ (Eff.result out = inr tt <-> isNull gad = false /\ 1 <= len nSDU <= 256)
  /\ (Eff.result out = inl ValueError <->
      isNull gad = false /\ (len nSDU = 0 \/ 256 < len nSDU))
  /\ (Eff.result out = inl N_GDSValueError <-> isNull gad = true)
  /\ match Eff.result out with
     | inl _ => Eff.trace out = []
     | inr _ =>
         exists frame,
           Eff.trace out = [L3.LDS_dataReq frame]
           /\ L3.destinationAddress frame = AddrGroup gad
           /\ L3.priority frame = priority
           /\ L3.hopCount frame = L3._hopCount s
           /\ L3.sourceAddress frame = L3.sourceAddress CEMILData_new
     end.
Proof.
  intros out. subst out. rewrite groupDataReq_eval.
  pose proof (is_byte_len_pred nSDU) as Hb.
  assert (0 <= len nSDU) as Hpos by (unfold len; lia).
  destruct (isNull gad); simpl.
  - close_outcome.
  - destruct (is_byte (len nSDU - 1)) eqn:E; simpl.
    + destruct Hb as [Hb _]. specialize (Hb eq_refl).
      split; [ reflexivity | ].
      split; [ split; [ intros _; split; [ reflexivity | lia ] | reflexivity ] | ].
      split; [ split; [ discriminate | intros [_ H]; lia ] | ].
      split; [ split; discriminate | ].
      eexists. repeat split.
    + assert (~ 1 <= len nSDU <= 256) as Hn
        by (intros H; apply Hb in H; discriminate).
      split; [ reflexivity | ].
      split; [ split; [ discriminate | intros [_ H]; tauto ] | ].
      split; [ split; [ intros _; split; [ reflexivity | lia ] | reflexivity ] | ].
      split; [ split; discriminate | ].
      reflexivity.
Qed.

(** ** The two layers together *)

Section Pipeline_properties.
Variable CEMILData_new : L3.CEMILData.

Lemma fresh_ref_unused (h : gmap L4.ref (list Z)) : h !! fresh (dom h) = None.
Proof. apply not_elem_of_dom, is_fresh. Qed.

(** What a wired pair does with an inbound frame for a group. *)
Lemma Pipeline_dataInd_eval w app cEMI gad :
  L3._ngdl (Pipeline.n w) = Some Pipeline.tgds ->
  L4._tgdl (L4.self (Pipeline.t w)) = Some app ->
  L3.destinationAddress cEMI = AddrGroup gad ->
  isNull gad = false ->
  let h := L4.heap (Pipeline.t w) in
  let r := fresh (dom h) in
  let grown := fun bytes =>
    Pipeline.mkWorld (Pipeline.n w)
      (L4.mkWorld (L4.self (Pipeline.t w)) (<[r := bytes]> h)) in
  Pipeline.dataInd cEMI w =
    match skipn 1 (L3.npdu cEMI) with
    | [] => (inl IndexError, grown [], [])
    | b0 :: rest =>
        if Z.land b0 0xc0 =? L4.UNNUMBERED_DATA
        then (inr tt, grown (Z.land b0 0x3f :: rest),
              [inr (L4.TGDL_groupDataInd app (L3.sourceAddress cEMI) gad
                      (L3.priority cEMI) r)])
        else (inr tt, grown (b0 :: rest), [])
    end.
Proof.
  intros Hn Ht Hd Hnull h r grown.
  unfold Pipeline.dataInd, Pipeline.in_L3. rewrite dataInd_eval, Hn, Hd, Hnull.
  unfold Pipeline.with_calls, Pipeline.run, Eff.bind, Pipeline.on_L3.
  replace (String.eqb Pipeline.tgds Pipeline.tgds) with true by reflexivity.
  unfold Pipeline.alloc, Pipeline.in_L4. fold h. fold r. simpl.
  destruct (skipn 1 (L3.npdu cEMI)) as [ | b0 rest ] eqn:Hs.
  - rewrite (groupDataInd_nil _ app); [ reflexivity | exact Ht | ].
    simpl. apply lookup_insert_eq.
  - rewrite (groupDataInd_cons _ app _ _ _ _ b0 rest);
      [ | exact Ht | simpl; apply lookup_insert_eq ].
    destruct (Z.land b0 0xc0 =? L4.UNNUMBERED_DATA); simpl.
    + unfold grown. rewrite insert_insert_eq. reflexivity.
    + reflexivity.
Qed.
End Pipeline_properties.

(** X6: an inbound frame for a non-null group, through both layers with
    their listeners set.  The upper listener is called exactly when the
    frame has a transport byte (a second network byte) whose two top bits
    are 0; it is handed a new buffer, unknown to the store before, that
    reads the network bytes after the length byte with those two bits
    clear, and no older buffer is touched.  A frame with no transport byte
    (fewer than two network bytes) makes [dataInd] raise [IndexError]: no
    layer checks the length. *)
Theorem Pipeline_inbound
    (w : Pipeline.world) (app : L4.listener) (cEMI : L3.CEMILData)
    (gad : GroupAddress) :
  L3._ngdl (Pipeline.n w) = Some Pipeline.tgds ->
  L4._tgdl (L4.self (Pipeline.t w)) = Some app ->
  L3.destinationAddress cEMI = AddrGroup gad ->
  isNull gad = false ->
  let out := Pipeline.dataInd cEMI w in
  let h := L4.heap (Pipeline.t w) in
  let h' := L4.heap (Pipeline.t (Eff.final out)) in
  (forall r, is_Some (h !! r) -> h' !! r = h !! r)
  /\ Pipeline.n (Eff.final out) = Pipeline.n w
  /\ match L3.npdu cEMI with
     | _ :: b0 :: rest =>
         Eff.result out = inr tt
         /\ if Z.land b0 0xc0 =? L4.UNNUMBERED_DATA
            then exists r,
                   Eff.trace out =
                     [inr (L4.TGDL_groupDataInd app (L3.sourceAddress cEMI) gad
                             (L3.priority cEMI) r)]
                   /\ h !! r = None
                   /\ h' !! r = Some (Z.land b0 0x3f :: rest)
            else Eff.trace out = []
     | _ => Eff.result out = inl IndexError /\ Eff.trace out = []
     end.
Proof.
  intros Hn Ht Hd Hnull out h h'. subst out h'.
  rewrite (Pipeline_dataInd_eval w app cEMI gad Hn Ht Hd Hnull). fold h.
  assert (Hold : forall bytes r,
             is_Some (h !! r) -> <[fresh (dom h) := bytes]> h !! r = h !! r).
  { intros bytes r [x Hx]. apply lookup_insert_ne. intros <-.
    rewrite fresh_ref_unused in Hx. discriminate. }
  destruct (L3.npdu cEMI) as [ | l [ | b0 rest ] ]; simpl.
  - repeat split. apply Hold.
  - repeat split. apply Hold.
  - destruct (Z.land b0 0xc0 =? L4.UNNUMBERED_DATA); simpl.
    + split; [ apply Hold | ]. split; [ reflexivity | ]. split; [ reflexivity | ].
      eexists. split; [ reflexivity | ]. split.
      * apply fresh_ref_unused.
      * apply lookup_insert_eq.
    + repeat split. apply Hold.
Qed.

Lemma Pipeline_inbound_witness :
  let w := Eff.final (Pipeline.setListener "app"
             (Pipeline.T_GroupDataService_init (L3.mkNGDS None 6)
                {[ 1%positive := [0x00; 0x80] ]})) in
  let c := L3.mkCEMI L3.MC_LDATA_IND (IA 0x1101) (AddrGroup (GAD 0x0901)) normal 6
             [0x01; 0x00; 0x81] in
  let c0 := L3.mkCEMI L3.MC_LDATA_IND (IA 0x1101) (AddrGroup (GAD 0x0901)) normal 6
              [0x00] in
  (exists r, Eff.trace (Pipeline.dataInd c w) =
               [inr (L4.TGDL_groupDataInd "app" (IA 0x1101) (GAD 0x0901) normal r)]
             /\ L4.heap (Pipeline.t (Eff.final (Pipeline.dataInd c w))) !! r
                = Some [0x00; 0x81])
  /\ Eff.result (Pipeline.dataInd c0 w) = inl IndexError.
Proof.
  intros w c c0. split.
  - destruct (Pipeline_inbound w "app"%string c (GAD 0x0901)
                eq_refl eq_refl eq_refl eq_refl) as (_ & _ & _ & r & Ht & _ & Hr).
    exists r. split; [ exact Ht | exact Hr ].
  - destruct (Pipeline_inbound w "app"%string c0 (GAD 0x0901)
                eq_refl eq_refl eq_refl eq_refl) as (_ & _ & Hres & _).
    exact Hres.
Defined.

Section Pipeline_outbound_properties.
Variable CEMILData_new : L3.CEMILData.

Lemma Pipeline_world_eta (w : Pipeline.world) :
  Pipeline.mkWorld (Pipeline.n w) (Pipeline.t w) = w.
Proof. now destruct w. Qed.

(** What a wired pair does with an outbound payload. *)
Lemma Pipeline_groupDataReq_eval w gad priority tSDU bytes :
  L4.heap (Pipeline.t w) !! tSDU = Some bytes ->
  Forall (fun b => is_byte b = true) bytes ->
  Pipeline.groupDataReq CEMILData_new gad priority tSDU w =
    match bytes with
    | [] => (inl IndexError, w, [])
    | _ :: _ =>
        if isNull gad then (inl N_GDSValueError, w, [])
        else if is_byte (len bytes - 1)
             then (inr tt, w,
                   [inl (L3.LDS_dataReq
                           (L3.mkCEMI L3.MC_LDATA_IND
                              (L3.sourceAddress CEMILData_new) (AddrGroup gad)
                              priority (L3._hopCount (Pipeline.n w))
                              ((len bytes - 1) :: bytes)))])
             else (inl ValueError, w, [])
    end.
Proof.
  intros Hh Hb. unfold Pipeline.groupDataReq, Pipeline.in_L4.
  destruct bytes as [ | b0 rest ].
  - unfold L4.groupDataReq, Eff.bind, L4.load_item, Eff.bind. simpl.
    rewrite Hh. simpl. now rewrite Pipeline_world_eta.
  - pose proof Hb as Hb'. apply Forall_cons in Hb' as [Hb0 _].
    rewrite (T_groupDataReq_cons _ _ _ _ _ _ Hh Hb0).
    rewrite Pipeline_world_eta.
    unfold Pipeline.with_calls, Pipeline.run, Eff.bind, Pipeline.on_L4.
    rewrite Hh. unfold Pipeline.in_L3. rewrite groupDataReq_eval.
    destruct (isNull gad); simpl.
    + now rewrite Pipeline_world_eta.
    + destruct (is_byte (len (b0 :: rest) - 1)); simpl;
        now rewrite Pipeline_world_eta.
Qed.
End Pipeline_outbound_properties.

(** X7: an outbound payload through both layers.  The pair is never
    changed (the caller's buffer keeps its content); the request returns
    exactly when the group address is not null and the buffer holds 1 to
    256 bytes, and then the link layer gets one frame whose network bytes
    are the length byte followed by the buffer's content as it is; an
    empty buffer raises [IndexError] before the address is even looked at,
    a null address [N_GDSValueError], a longer buffer [ValueError], and
    then the link layer gets nothing. *)
Theorem Pipeline_outbound
    (CEMILData_new : L3.CEMILData) (w : Pipeline.world) (gad : GroupAddress)
    (priority : Priority) (tSDU : L4.ref) (bytes : list Z) :
  L4.heap (Pipeline.t w) !! tSDU = Some bytes ->
  Forall (fun b => is_byte b = true) bytes ->
  let out := Pipeline.groupDataReq CEMILData_new gad priority tSDU w in
  Eff.final out = w
  /\ (Eff.result out = inr tt <-> isNull gad = false /\ 1 <= len bytes <= 256)
  /\ match Eff.result out with
     | inr _ =>
         exists frame,
           Eff.trace out = [inl (L3.LDS_dataReq frame)]
           /\ L3.npdu frame = (len bytes - 1) :: bytes
           /\ L3.destinationAddress frame = AddrGroup gad
           /\ L3.priority frame = priority
     | inl e =>
         Eff.trace out = []
         /\ e = (if decide (bytes = []) then IndexError
                 else if isNull gad then N_GDSValueError
                      else ValueError)
     end.
Proof.
  intros Hh Hb out. subst out.
  rewrite (Pipeline_groupDataReq_eval CEMILData_new w gad priority tSDU bytes Hh Hb).
  pose proof (is_byte_len_pred bytes) as Hlen.
  destruct bytes as [ | b0 rest ]; simpl.
  - split; [ reflexivity | ]. split; [ | split; reflexivity ].
    split; [ discriminate | ]. intros [_ H]. unfold len in H. simpl in H. lia.
  - destruct (isNull gad); simpl.
    + split; [ reflexivity | ]. split; [ | split; reflexivity ].
      split; [ discriminate | ]. intros [H _]. discriminate.
    + destruct (is_byte (len (b0 :: rest) - 1)) eqn:E; simpl.
      * split; [ reflexivity | ]. split.
        -- split; [ intros _; split; [ reflexivity | now apply Hlen ] | reflexivity ].
        -- eexists. repeat split.
      * split; [ reflexivity | ]. split; [ | split; reflexivity ].
        split; [ discriminate | ]. intros [_ H]. apply Hlen in H. discriminate.
Qed.

Lemma Pipeline_outbound_witness :
  let new := L3.mkCEMI L3.MC_LDATA_REQ (IA 0) (AddrIndividual (IA 0)) low 0 [] in
  let w := Pipeline.T_GroupDataService_init (L3.mkNGDS None 6)
             {[ 1%positive := [0x00; 0x81] ]} in
  let out := Pipeline.groupDataReq new (GAD 0x0901) normal 1%positive w in
  Eff.final out = w /\ Eff.result out = inr tt.
Proof.
  intros new w.
  assert (Hb : Forall (fun b => is_byte b = true) [0x00; 0x81])
    by (repeat constructor).
  destruct (Pipeline_outbound new w (GAD 0x0901) normal 1%positive [0x00; 0x81]
              eq_refl Hb) as (Hw & Hiff & _).
  split; [ exact Hw | ]. apply Hiff. split; [ reflexivity | ].
  vm_compute. split; discriminate.
Defined.

(** X8: a payload sent through one pair and received through another.  If
    the request returns, the frame it produced, fed to a pair whose
    listeners are set, reaches the upper listener exactly when the first
    byte of the payload has its two top bits clear, and the buffer handed
    up then reads as the buffer that was sent; a payload whose first byte
    has one of those bits set is sent all the same and dropped on
    reception, without an error on either side.  The receiving side does
    not depend on what the link layer made of the source address, the hop
    count or the message code. *)
Theorem Pipeline_loopback
    (CEMILData_new : L3.CEMILData) (ws wr : Pipeline.world) (app : L4.listener)
    (gad : GroupAddress) (priority : Priority) (tSDU : L4.ref)
    (b0 : Z) (rest : list Z) (frame received : L3.CEMILData) :
  L4.heap (Pipeline.t ws) !! tSDU = Some (b0 :: rest) ->
  Forall (fun b => is_byte b = true) (b0 :: rest) ->
  L3._ngdl (Pipeline.n wr) = Some Pipeline.tgds ->
  L4._tgdl (L4.self (Pipeline.t wr)) = Some app ->
  Pipeline.groupDataReq CEMILData_new gad priority tSDU ws
    = (inr tt, ws, [inl (L3.LDS_dataReq frame)]) ->
  L3.destinationAddress received = L3.destinationAddress frame ->
  L3.npdu received = L3.npdu frame ->
  let up := Pipeline.dataInd received wr in
  Eff.result up = inr tt
  /\ Pipeline.delivered (Eff.final up) (Eff.trace up) =
       (if Z.land b0 0xc0 =? L4.UNNUMBERED_DATA then [b0 :: rest] else [])
  /\ forall tgdl src g p r,
       inr (L4.TGDL_groupDataInd tgdl src g p r) ∈ Eff.trace up ->
       tgdl = app /\ g = gad /\ src = L3.sourceAddress received
       /\ p = L3.priority received.
Proof.
  intros Hh Hb Hn Ht Hsend Hdest Hnpdu up. subst up.
  rewrite (Pipeline_groupDataReq_eval CEMILData_new ws gad priority tSDU _ Hh Hb)
    in Hsend.
  destruct (isNull gad) eqn:Hnull; [ discriminate | ].
  destruct (is_byte (len (b0 :: rest) - 1)); [ | discriminate ].
  inversion Hsend; subst frame. simpl in Hdest, Hnpdu.
  rewrite (Pipeline_dataInd_eval wr app received gad Hn Ht Hdest Hnull) in *.
  rewrite Hnpdu in *. simpl in *.
  apply Forall_cons in Hb as [Hb0 _].
  destruct (Z.land b0 0xc0 =? L4.UNNUMBERED_DATA) eqn:E; simpl.
  - apply Z.eqb_eq in E. rewrite (land_0x3f_id b0 Hb0 E).
    split; [ reflexivity | ]. split.
    + unfold Pipeline.delivered. simpl. rewrite lookup_insert_eq. reflexivity.
    + intros tgdl src g p r Hin. apply list_elem_of_singleton in Hin.
      inversion Hin; subst. repeat split.
  - split; [ reflexivity | ]. split; [ reflexivity | ].
    intros tgdl src g p r Hin. inversion Hin.
Qed.

Lemma Pipeline_loopback_witness :
  let new := L3.mkCEMI L3.MC_LDATA_REQ (IA 0) (AddrIndividual (IA 0)) low 0 [] in
  let w := Eff.final (Pipeline.setListener "app"
             (Pipeline.T_GroupDataService_init (L3.mkNGDS None 6)
                {[ 1%positive := [0x00; 0x81] ]})) in
  let frame := L3.mkCEMI L3.MC_LDATA_IND (IA 0) (AddrGroup (GAD 0x0901)) normal 6
                 [0x01; 0x00; 0x81] in
  let received := L3.mkCEMI L3.MC_LDATA_IND (IA 0x1101) (AddrGroup (GAD 0x0901))
                    normal 5 [0x01; 0x00; 0x81] in
  let up := Pipeline.dataInd received w in
  Pipeline.delivered (Eff.final up) (Eff.trace up) = [[0x00; 0x81]].
Proof.
  intros new w frame received up.
  assert (Hb : Forall (fun b => is_byte b = true) [0x00; 0x81])
    by (repeat constructor).
  destruct (Pipeline_loopback new w w "app"%string (GAD 0x0901) normal 1%positive
              0x00 [0x81] frame received eq_refl Hb eq_refl eq_refl eq_refl
              eq_refl eq_refl) as (_ & Hd & _).
  exact Hd.
Defined.

(** ** The stack, further *)

Lemma pauses_app (t1 t2 : list StackM.event) :
  StackObs.pauses (t1 ++ t2) = StackObs.pauses t1 + StackObs.pauses t2.
Proof.
  induction t1 as [ | ev t1 IH ]; simpl; [ reflexivity | ].
  destruct ev; simpl; lia.
Qed.

Lemma read_order_app (t1 t2 : list StackM.event) :
  StackObs.read_order (t1 ++ t2) = StackObs.read_order t1 ++ StackObs.read_order t2.
Proof. unfold StackObs.read_order. apply omap_app. Qed.

Lemma calls_app (t1 t2 : list StackM.event) :
  StackObs.calls (t1 ++ t2) = StackObs.calls t1 ++ StackObs.calls t2.
Proof. unfold StackObs.calls. apply omap_app. Qed.

Lemma logs_app (t1 t2 : list StackM.event) :
  StackObs.logs (t1 ++ t2) = StackObs.logs t1 ++ StackObs.logs t2.
Proof. unfold StackObs.logs. apply omap_app. Qed.

(** Logged exceptions are neither reads nor pauses. *)
Lemma logged_observed (n : nat) (message : string) :
  let tr := repeat (StackM.Log "exception" message) n in
  StackObs.read_order tr = []
  /\ StackObs.pauses tr = 0
  /\ StackObs.calls tr = []
  /\ StackObs.logs tr = repeat "exception"%string n.
Proof.
  induction n as [ | n (IHr & IHp & IHc & IHl) ]; [ repeat split | ].
  cbv zeta in *. simpl. rewrite IHl.
  split; [ exact IHr | ]. split; [ exact IHp | ]. split; [ exact IHc | reflexivity ].
Qed.

(** What can be seen of one group's part of the trace. *)
Lemma group_observed (p : Priority) (gad : GroupAddress) (group : StackM.Group) :
  let tr := StackObs.group_trace p (gad, group) in
  let inits := StackObs.init_groups [(gad, group)] in
  StackObs.read_order tr = inits
  /\ StackObs.pauses tr = 100 * Z.of_nat (length inits)
  /\ StackObs.calls tr =
       flat_map (fun g => [StackM.Group_read g p; StackM.Sleep 100]) inits
  /\ StackObs.logs tr =
       repeat "exception"%string (StackObs.strangers (StackM.listeners group)).
Proof.
  cbv zeta. unfold StackObs.group_trace, StackObs.init_groups. simpl.
  rewrite read_order_app, pauses_app, calls_app, logs_app.
  destruct (logged_observed (StackObs.strangers (StackM.listeners group))
              "Stack.start(): listener does not seem to be a GroupObject")
    as (Hr & Hp & Hc & Hl).
  cbv zeta in Hr, Hp, Hc, Hl. rewrite Hr, Hp, Hc, Hl.
  destruct (StackM.has_init group); simpl; rewrite ?app_nil_r; repeat split.
Qed.

(** What can be seen of the outer loop's part of the trace. *)
Lemma groups_observed (p : Priority) (gs : list (GroupAddress * StackM.Group)) :
  let tr := flat_map (StackObs.group_trace p) gs in
  let inits := StackObs.init_groups gs in
  StackObs.read_order tr = inits
  /\ StackObs.pauses tr = 100 * Z.of_nat (length inits)
  /\ StackObs.calls tr =
       flat_map (fun g => [StackM.Group_read g p; StackM.Sleep 100]) inits
  /\ StackObs.logs tr = repeat "exception"%string (StackObs.all_strangers gs).
Proof.
  induction gs as [ | [gad group] gs IH ]; [ repeat split | ].
  cbv zeta in *. destruct IH as (IHr & IHp & IHc & IHl).
  destruct (group_observed p gad group) as (Hr & Hp & Hc & Hl).
  cbv zeta in Hr, Hp, Hc, Hl.
  change (flat_map (StackObs.group_trace p) ((gad, group) :: gs))
    with (StackObs.group_trace p (gad, group) ++ flat_map (StackObs.group_trace p) gs).
  replace (StackObs.init_groups ((gad, group) :: gs))
    with (StackObs.init_groups [(gad, group)] ++ StackObs.init_groups gs)
    by (unfold StackObs.init_groups; simpl; now destruct (StackM.has_init group)).
  rewrite read_order_app, pauses_app, calls_app, logs_app.
  rewrite Hr, Hp, Hc, Hl, IHr, IHp, IHc, IHl.
  rewrite length_app, Nat2Z.inj_add, flat_map_app.
  split; [ reflexivity | ]. split; [ lia | ]. split; [ reflexivity | ].
  simpl. now rewrite repeat_app.
Qed.

Lemma init_groups_NoDup (gs : list (GroupAddress * StackM.Group)) :
  NoDup gs.*1 -> NoDup (StackObs.init_groups gs).
Proof.
  unfold StackObs.init_groups.
  induction gs as [ | [g grp] l IHl ]; simpl; intros Hnd; [ constructor | ].
  apply NoDup_cons in Hnd as [Hg Hnd].
  destruct (StackM.has_init grp); simpl; [ | now apply IHl ].
  apply NoDup_cons. split; [ | now apply IHl ].
  intros Hin. apply Hg. apply list_elem_of_omap in Hin as ([g' grp'] & Hin & Heq).
  simpl in Heq. destruct (StackM.has_init grp'); [ | discriminate ].
  inversion Heq; subst g'. apply list_elem_of_fmap. exists (g, grp').
  split; [ reflexivity | exact Hin ].
Qed.

(** Sequencing and [try] keep the state when their parts do. *)
Lemma bind_final {S E A B : Type} (m : Eff.M S E A) (k : A -> Eff.M S E B) :
  (forall s, Eff.final (m s) = s) ->
  (forall a s, Eff.final (k a s) = s) ->
  forall s, Eff.final (Eff.bind m k s) = s.
Proof.
  intros Hm Hk s. unfold Eff.bind. specialize (Hm s).
  destruct (m s) as [[[e | a] s1] l1]; unfold Eff.final in *; simpl in *; subst s1;
    [ reflexivity | ].
  specialize (Hk a s). destruct (k a s) as [[r s2] l2]. exact Hk.
Qed.

Lemma try_except_final {S E A : Type} (m h : Eff.M S E A) (e : exn) :
  (forall s, Eff.final (m s) = s) ->
  (forall s, Eff.final (h s) = s) ->
  forall s, Eff.final (Eff.try_except m e h s) = s.
Proof.
  intros Hm Hh s. unfold Eff.try_except. specialize (Hm s).
  destruct (m s) as [[[e' | a] s1] l1]; unfold Eff.final in *; simpl in *; subst s1;
    [ | reflexivity ].
  destruct (decide (e' = e)); [ | reflexivity ].
  specialize (Hh s). destruct (h s) as [[r s2] l2]. exact Hh.
Qed.

Section Stack_further.
Variable logger : StackM.PyLogger.
Variable Priority_new : exn + Priority.
Variable Group_read_outcome : GroupAddress -> nat -> option exn.

Lemma logger_call_final method message s :
  Eff.final (StackM.logger_call logger method message s) = s.
Proof.
  rewrite logger_call_eval. destruct (bool_decide _); reflexivity.
Qed.

(** No statement of the loops assigns to the stack object, whatever is
    raised on the way. *)
Lemma for_listeners_final gad i ls s :
  Eff.final (StackM.for_listeners logger Priority_new Group_read_outcome gad i ls s) = s.
Proof.
  revert i s. induction ls as [ | l ls IH ]; intros i s; [ reflexivity | ].
  simpl. revert s. apply bind_final.
  - apply try_except_final.
    + apply bind_final.
      * intros s. unfold StackM.listener_flags_init.
        destruct (StackM.l_flags l); reflexivity.
      * intros [ | ]; [ | reflexivity ].
        apply bind_final; [ reflexivity | ]. intros priority.
        apply bind_final.
        -- apply bind_final; [ reflexivity | ]. intros _ s.
           destruct (Group_read_outcome gad i); reflexivity.
        -- intros _. apply bind_final; reflexivity.
    + apply bind_final; [ apply logger_call_final | reflexivity ].
  - intros [ | ] s; [ reflexivity | apply IH ].
Qed.

Lemma for_groups_final gs s :
  Eff.final (StackM.for_groups logger Priority_new Group_read_outcome gs s) = s.
Proof.
  revert s. induction gs as [ | [gad group] gs IH ]; intros s; [ reflexivity | ].
  simpl. revert s. apply bind_final.
  - intros s. apply for_listeners_final.
  - intros _. exact IH.
Qed.

Lemma start_final s :
  Eff.final (StackM.start logger Priority_new Group_read_outcome s) = s.
Proof.
  unfold StackM.start. revert s.
  apply bind_final; [ apply logger_call_final | ]. intros _.
  apply bind_final; [ reflexivity | ]. intros self.
  repeat (apply bind_final; [ reflexivity | ]; intros _).
  apply bind_final; [ apply logger_call_final | ]. intros _.
  apply bind_final; [ apply for_groups_final | ]. intros _.
  apply logger_call_final.
Qed.
End Stack_further.

(** X9: what [Stack.start()] does, in which order it reads and what it
    costs.  It never changes the stack object.  With a logger that has no
    method [trace], as the one the module binds, it raises [AttributeError]
    before any call.  With a logger that has [trace], [debug] and
    [exception], a [Priority()] that returns and reads that return, it
    returns; apart from the logger its calls are the start of the link
    layer, the start of the transceiver and a 250 ms sleep, then, for each
    group that has an init listener, in the order of [groups.values()], one
    read with the priority [Priority()] followed by a 100 ms sleep, and
    nothing else; each such group is read once; the time slept is 250 ms
    plus 100 ms per group read; and the logger is called for [trace], for
    [debug], once for [exception] per listener without flags that stands
    before the first init listener of its group, and for [debug]. *)
Theorem start_reads_and_pauses
    (logger : StackM.PyLogger) (Priority_new : exn + Priority)
    (Group_read_outcome : GroupAddress -> nat -> option exn)
    (p : Priority) (s : StackM.Stack) :
  let out := StackM.start logger Priority_new Group_read_outcome s in
  let gs := StackM.groups (StackM._agds s) in
  let inits := StackObs.init_groups gs in
  Eff.final out = s
  /\ ("trace"%string ∉ StackM.methods logger ->
      Eff.result out = inl AttributeError /\ Eff.trace out = [])
  /\ ("trace"%string ∈ StackM.methods logger ->
      "debug"%string ∈ StackM.methods logger ->
      "exception"%string ∈ StackM.methods logger ->
      Priority_new = inr p ->
      (forall gad i, Group_read_outcome gad i = None) ->
      Eff.result out = inr tt
      /\ StackObs.calls (Eff.trace out) =
           [StackM.LDS_start; StackM.TC_start; StackM.Sleep 250]
           ++ flat_map (fun gad => [StackM.Group_read gad p; StackM.Sleep 100]) inits
      /\ StackObs.read_order (Eff.trace out) = inits
      /\ (NoDup gs.*1 -> NoDup inits)
      /\ StackObs.pauses (Eff.trace out) = 250 + 100 * Z.of_nat (length inits)
      /\ StackObs.logs (Eff.trace out) =
           ["trace"; "debug"]%string
           ++ repeat "exception"%string (StackObs.all_strangers gs)
           ++ ["debug"]%string
      /\ hd_error (Eff.trace out) = Some (StackM.Log "trace" "Stack.start()")).
Proof.
  intros out gs inits. subst out gs inits.
  split; [ apply start_final | ]. split.
  - intros Hno. rewrite start_without_trace by exact Hno. split; reflexivity.
  - intros Htrace Hdebug Hexception Hpriority Hread.
    rewrite (start_eval logger Priority_new Group_read_outcome p
               Hexception Hpriority Hread s Htrace Hdebug).
    unfold Eff.result, Eff.trace. cbn [fst snd].
    destruct (groups_observed p (StackM.groups (StackM._agds s)))
      as (Hr & Hp & Hc & Hl).
    cbv zeta in Hr, Hp, Hc, Hl.
    rewrite !calls_app, !read_order_app, !pauses_app, !logs_app.
    rewrite Hr, Hp, Hc, Hl.
    split; [ reflexivity | ]. split; [ simpl; now rewrite app_nil_r | ].
    split; [ simpl; now rewrite app_nil_r | ].
    split; [ apply init_groups_NoDup | ].
    split; [ simpl; lia | ]. split; reflexivity.
Qed.

Lemma start_reads_and_pauses_witness :
  let go := fun letters => StackM.mkListener "go" (Some (mkFlags letters)) in
  let g1 := StackM.mkGroup [go "CWTU"%string; go "CRWTUI"%string; go "CWUI"%string] in
  let g2 := StackM.mkGroup [StackM.mkListener "monitor" None; go "CRW"%string] in
  let s := StackM.mkStack (StackM.mkAGDS [(GAD 0x0901, g1); (GAD 0x0902, g2)]) in
  let returns := fun (_ : GroupAddress) (_ : nat) => None : option exn in
  let out := StackM.start StackM.Logger_new (inr low) returns s in
  StackObs.read_order (Eff.trace out) = [GAD 0x0901]
  /\ StackObs.pauses (Eff.trace out) = 350
  /\ StackObs.logs (Eff.trace out) = ["trace"; "debug"; "exception"; "debug"]%string
  /\ Eff.result (StackM.start StackM.logging_getLogger (inr low) returns s)
     = inl AttributeError.
Proof.
  intros go g1 g2 s returns out.
  destruct Logger_new_methods as (Ht & Hd & He).
  destruct logging_getLogger_methods as (Hno & _).
  destruct (start_reads_and_pauses StackM.Logger_new (inr low) returns low s)
    as (_ & _ & H).
  destruct (H Ht Hd He eq_refl (fun _ _ => eq_refl)) as (_ & _ & Hr & _ & Hp & Hl & _).
  destruct (start_reads_and_pauses StackM.logging_getLogger (inr low) returns low s)
    as (_ & H' & _).
  destruct (H' Hno) as (Hres & _).
  split; [ exact Hr | ]. split; [ exact Hp | ]. split; [ exact Hl | exact Hres ].
Defined.


(** ** Datapoints, further *)

Section Datapoint_further.
Variable DPTID : Type.

Abbreviation DP := (DatapointM.Datapoint DPTID).
Abbreviation xl := (DatapointM._dptXlator DPTID).

(** The frame setter, step by step, after the read of the old value. *)
Lemma frame_setter_eval (self : DP) (frame : list Z) r t0 :
  DatapointM.value DPTID self = (r, self, t0) ->
  DatapointM.frame_setter DPTID frame self =
    match r with
    | inl e => (inl e, self, t0)
    | inr oldValue =>
        match Xlator.frameToData (xl self) frame with
        | inl e => (inl e, self, t0 ++ [DatapointM.X_frameToData frame])
        | inr data =>
            let t1 := t0 ++ [DatapointM.X_frameToData frame;
                             DatapointM.X_checkData data] in
            match Xlator.checkData (xl self) data with
            | inl e => (inl e, self, t1)
            | inr _ =>
                let self' := DatapointM.set_data DPTID self data in
                match DatapointM._owner DPTID self with
                | None => (inl AttributeError, self', t1)
                | Some owner =>
                    match Xlator.dataToValue (xl self) data with
                    | inl e => (inl e, self', t1 ++ [DatapointM.X_dataToValue data])
                    | inr newValue =>
                        (inr tt, self',
                         t1 ++ [DatapointM.X_dataToValue data;
                                DatapointM.Owner_notify owner
                                  (DatapointM._name DPTID self) oldValue newValue])
                    end
                end
            end
        end
    end.
Proof.
  intros Hv. unfold DatapointM.frame_setter. unfold Eff.bind at 1. rewrite Hv.
  destruct r as [e | oldValue]; [ reflexivity | ].
  unfold Eff.bind at 1, Eff.get at 1. unfold Eff.bind at 1, Eff.emit at 1.
  unfold Eff.bind at 1, Eff.lift at 1.
  destruct (Xlator.frameToData _ frame) as [e | data]; [ reflexivity | ].
  unfold Eff.bind at 1. rewrite setData_eval.
  destruct (Xlator.checkData _ data) as [e | []];
    [ simpl; rewrite <- ?app_assoc; reflexivity | ].
  rewrite (owner_notify_eval DPTID oldValue
             (DatapointM.set_data DPTID self data) data eq_refl). simpl.
  destruct (DatapointM._owner DPTID self) as [owner | ];
    [ | simpl; rewrite <- ?app_assoc; reflexivity ].
  destruct (Xlator.dataToValue _ data) as [e | newValue]; simpl;
    rewrite <- ?app_assoc; reflexivity.
Qed.

(** The value setter, step by step, after the read of the old value. *)
Lemma value_setter_eval (self : DP) (v : pyobj) r t0 :
  DatapointM.value DPTID self = (r, self, t0) ->
  DatapointM.value_setter DPTID v self =
    match r with
    | inl e => (inl e, self, t0)
    | inr oldValue =>
        let t1 := t0 ++ [DatapointM.X_checkValue v] in
        match Xlator.checkValue (xl self) v with
        | inl e => (inl e, self, t1)
        | inr _ =>
            let t2 := t1 ++ [DatapointM.X_valueToData v] in
            match Xlator.valueToData (xl self) v with
            | inl e => (inl e, self, t2)
            | inr data =>
                let t3 := t2 ++ [DatapointM.X_checkData data] in
                match Xlator.checkData (xl self) data with
                | inl e => (inl e, self, t3)
                | inr _ =>
                    let self' := DatapointM.set_data DPTID self data in
                    let t4 := t3 ++ [DatapointM.X_dataToValue data] in
                    match Xlator.dataToValue (xl self) data with
                    | inl e => (inl e, self', t4)
                    | inr newValue =>
                        let t5 := t4 ++ [DatapointM.Signal_emit oldValue newValue] in
                        match DatapointM._owner DPTID self with
                        | None => (inl AttributeError, self', t5)
                        | Some owner =>
                            (inr tt, self',
                             t5 ++ [DatapointM.X_dataToValue data;
                                    DatapointM.Owner_notify owner
                                      (DatapointM._name DPTID self)
                                      oldValue newValue])
                        end
                    end
                end
            end
        end
    end.
Proof.
  intros Hv. unfold DatapointM.value_setter. unfold Eff.bind at 1. rewrite Hv.
  destruct r as [e | oldValue]; [ reflexivity | ].
  unfold Eff.bind at 1, Eff.get at 1. unfold Eff.bind at 1, Eff.emit at 1.
  unfold Eff.bind at 1, Eff.lift at 1.
  destruct (Xlator.checkValue _ v) as [e | []]; [ reflexivity | ].
  unfold Eff.bind at 1, Eff.emit at 1. unfold Eff.bind at 1, Eff.lift at 1.
  destruct (Xlator.valueToData _ v) as [e | data];
    [ simpl; rewrite <- ?app_assoc; reflexivity | ].
  unfold Eff.bind at 1. rewrite setData_eval.
  destruct (Xlator.checkData _ data) as [e | []];
    [ simpl; rewrite <- ?app_assoc; reflexivity | ].
  unfold Eff.bind at 1. rewrite value_eval.
  cbn [DatapointM._data DatapointM.set_data DatapointM._dptXlator].
  destruct (Xlator.dataToValue _ data) as [e | newValue] eqn:Hn;
    [ simpl; rewrite <- ?app_assoc; reflexivity | ].
  unfold Eff.bind at 1, Eff.emit at 1.
  rewrite (owner_notify_eval DPTID oldValue
             (DatapointM.set_data DPTID self data) data eq_refl). simpl.
  destruct (DatapointM._owner DPTID self) as [owner | ];
    [ | simpl; rewrite <- ?app_assoc; reflexivity ].
  rewrite Hn. simpl. rewrite <- ?app_assoc; reflexivity.
Qed.
End Datapoint_further.

Section Datapoint_further_lemmas.
Variable DPTID : Type.

Lemma notifications_app (t1 t2 : list DatapointM.event) :
  DatapointM.notifications (t1 ++ t2) =
    DatapointM.notifications t1 ++ DatapointM.notifications t2.
Proof. unfold DatapointM.notifications. apply filter_app. Qed.

(** The read of [value] in the three shapes it can take. *)
Lemma value_cases (self : DatapointM.Datapoint DPTID) :
  exists r t0,
    DatapointM.value DPTID self = (r, self, t0)
    /\ DatapointM.notifications t0 = []
    /\ (forall x, r = inr x ->
          match DatapointM._data DPTID self with
          | None => x = PNone
          | Some data =>
              Xlator.dataToValue (DatapointM._dptXlator DPTID self) data = inr x
          end).
Proof.
  rewrite value_eval. destruct (DatapointM._data DPTID self) as [data | ].
  - do 2 eexists. split; [ reflexivity | ]. split; [ reflexivity | ]. auto.
  - do 2 eexists. split; [ reflexivity | ]. split; [ reflexivity | ].
    intros x H. now inversion H.
Qed.

Lemma set_data_same (self : DatapointM.Datapoint DPTID) (data : Z) :
  DatapointM._data DPTID self = Some data ->
  DatapointM.set_data DPTID self data = self.
Proof. destruct self. simpl. intros ->. reflexivity. Qed.
End Datapoint_further_lemmas.

(** X10: a setter that is refused changes nothing and tells nobody.  If
    the translator raises in [checkValue], [valueToData] or [checkData]
    (value setter), or in [frameToData] or [checkData] (frame setter), or
    already when the old value is read, the setter raises that exception,
    the datapoint is exactly as before, and neither the signal nor the
    owner is notified. *)
Theorem setters_refuse_atomically
    (DPTID : Type) (self : DatapointM.Datapoint DPTID)
    (v : pyobj) (frame : list Z) (e : exn) :
  let xl := DatapointM._dptXlator DPTID self in
  let refused := fun out : (exn + unit) * DatapointM.Datapoint DPTID
                           * list DatapointM.event =>
    Eff.result out = inl e
    /\ Eff.final out = self
    /\ DatapointM.notifications (Eff.trace out) = [] in
  (Eff.result (DatapointM.value DPTID self) = inl e ->
     refused (DatapointM.value_setter DPTID v self)
     /\ refused (DatapointM.frame_setter DPTID frame self))
  /\ (forall oldValue,
        Eff.result (DatapointM.value DPTID self) = inr oldValue ->
        (Xlator.checkValue xl v = inl e
         \/ (Xlator.checkValue xl v = inr tt
             /\ (Xlator.valueToData xl v = inl e
                 \/ exists data, Xlator.valueToData xl v = inr data
                                 /\ Xlator.checkData xl data = inl e)) ->
         refused (DatapointM.value_setter DPTID v self))
        /\ (Xlator.frameToData xl frame = inl e
            \/ (exists data, Xlator.frameToData xl frame = inr data
                             /\ Xlator.checkData xl data = inl e) ->
            refused (DatapointM.frame_setter DPTID frame self))).
Proof.
  intros xl refused. subst xl refused. cbv beta.
  destruct (value_cases DPTID self) as (r & t0 & Hv & Ht0 & _).
  rewrite (value_setter_eval DPTID self v r t0 Hv).
  rewrite (frame_setter_eval DPTID self frame r t0 Hv).
  rewrite Hv. unfold Eff.result, Eff.final, Eff.trace.
  destruct r as [e0 | old]; cbn [fst snd]; split.
  - intros H. inversion H; subst e0. repeat split; assumption.
  - intros oldValue H. discriminate.
  - intros H. discriminate.
  - intros oldValue _. split.
    + intros [Hc | [Hc [Hd | (data & Hd & Hk)]]]; rewrite Hc.
      * cbn [fst snd]. repeat split. now rewrite notifications_app, Ht0.
      * rewrite Hd. cbn [fst snd]. repeat split.
        now rewrite !notifications_app, Ht0.
      * rewrite Hd. cbv zeta. rewrite Hk. cbn [fst snd]. repeat split.
        now rewrite !notifications_app, Ht0.
    + intros [Hf | (data & Hf & Hk)]; rewrite Hf.
      * cbn [fst snd]. repeat split. now rewrite notifications_app, Ht0.
      * cbv zeta. rewrite Hk. cbn [fst snd]. repeat split.
        now rewrite !notifications_app, Ht0.
Qed.

Lemma setters_refuse_atomically_witness :
  let self :=
    DatapointM.mkDatapoint string (Some "block"%string) "lamp" "1.xxx" "output"
      PNone (Some 1) None None
      (DPTXlatorBoolean.create DPTXlatorBoolean.DPT_Generic)
      (DPTXlatorBoolean.create DPTXlatorBoolean.DPT_Generic) in
  let out := DatapointM.value_setter string (PInt 2) self in
  Eff.result out = inl DPTXlatorValueError
  /\ Eff.final out = self
  /\ DatapointM.notifications (Eff.trace out) = [].
Proof.
  intros self.
  destruct (setters_refuse_atomically string self (PInt 2) [] DPTXlatorValueError)
    as [_ H].
  destruct (H (PInt 1) eq_refl) as [Hv _].
  apply Hv. left. reflexivity.
Defined.

(** X11: a datapoint without owner ([_owner] is [None]).  Assigning a
    value the translator accepts caches the data and emits the change
    signal, and only then raises [AttributeError] at the owner call;
    assigning a frame caches the data and raises [AttributeError] with no
    notification: in both cases the assignment has taken effect although
    the setter raised. *)
Theorem setters_without_owner
    (DPTID : Type) (self : DatapointM.Datapoint DPTID)
    (v : pyobj) (frame : list Z) (oldValue newValue : pyobj) (data : Z) :
  let xl := DatapointM._dptXlator DPTID self in
  DatapointM._owner DPTID self = None ->
  Eff.result (DatapointM.value DPTID self) = inr oldValue ->
  Xlator.checkData xl data = inr tt ->
  (Xlator.checkValue xl v = inr tt ->
   Xlator.valueToData xl v = inr data ->
   Xlator.dataToValue xl data = inr newValue ->
   let out := DatapointM.value_setter DPTID v self in
   Eff.result out = inl AttributeError
   /\ DatapointM._data DPTID (Eff.final out) = Some data
   /\ DatapointM.notifications (Eff.trace out) =
        [DatapointM.Signal_emit oldValue newValue])
  /\ (Xlator.frameToData xl frame = inr data ->
      let out := DatapointM.frame_setter DPTID frame self in
      Eff.result out = inl AttributeError
      /\ DatapointM._data DPTID (Eff.final out) = Some data
      /\ DatapointM.notifications (Eff.trace out) = []).
Proof.
  intros xl Ho Hold Hk. subst xl.
  destruct (value_cases DPTID self) as (r & t0 & Hv & Ht0 & _).
  rewrite (value_setter_eval DPTID self v r t0 Hv).
  rewrite (frame_setter_eval DPTID self frame r t0 Hv).
  rewrite Hv in Hold. unfold Eff.result in Hold. cbn [fst snd] in Hold. subst r.
  split.
  - intros Hc Hd Hn. cbv zeta. rewrite Hc, Hd, Hk, Hn, Ho.
    unfold Eff.result, Eff.final, Eff.trace. cbn [fst snd]. repeat split.
    rewrite !notifications_app, Ht0. reflexivity.
  - intros Hf. cbv zeta. rewrite Hf, Hk, Ho.
    unfold Eff.result, Eff.final, Eff.trace. cbn [fst snd]. repeat split.
    rewrite !notifications_app, Ht0. reflexivity.
Qed.

Lemma setters_without_owner_witness :
  let self :=
    DatapointM.mkDatapoint string None "lamp" "1.xxx" "output"
      PNone None None None
      (DPTXlatorBoolean.create DPTXlatorBoolean.DPT_Generic)
      (DPTXlatorBoolean.create DPTXlatorBoolean.DPT_Generic) in
  let out := DatapointM.value_setter string (PInt 1) self in
  Eff.result out = inl AttributeError
  /\ DatapointM._data string (Eff.final out) = Some 1
  /\ DatapointM.notifications (Eff.trace out) =
       [DatapointM.Signal_emit PNone (PInt 1)].
Proof.
  intros self.
  destruct (setters_without_owner string self (PInt 1) [0x01] PNone (PInt 1) 1
              eq_refl eq_refl eq_refl) as [Hv _].
  apply Hv; reflexivity.
Defined.

(** X12: assigning a value whose data is the one already cached is not
    noticed as "no change": when the setter returns, the datapoint is as
    before and still the change signal and the owner are both notified,
    with an old value equal to the new one. *)
Theorem value_setter_notifies_unchanged
    (DPTID : Type) (self : DatapointM.Datapoint DPTID) (v : pyobj) (data : Z) :
  DatapointM._data DPTID self = Some data ->
  Xlator.valueToData (DatapointM._dptXlator DPTID self) v = inr data ->
  let out := DatapointM.value_setter DPTID v self in
  Eff.result out = inr tt ->
  Eff.final out = self
  /\ exists owner x,
       DatapointM.notifications (Eff.trace out) =
         [DatapointM.Signal_emit x x;
          DatapointM.Owner_notify owner (DatapointM._name DPTID self) x x].
Proof.
  intros Hd Hvd out. subst out.
  destruct (value_cases DPTID self) as (r & t0 & Hv & Ht0 & Hr).
  rewrite (value_setter_eval DPTID self v r t0 Hv). rewrite Hd in Hr.
  destruct r as [e | oldValue]; [ discriminate | ].
  specialize (Hr oldValue eq_refl). cbv zeta.
  destruct (Xlator.checkValue _ v) as [e | []]; [ discriminate | ].
  rewrite Hvd.
  destruct (Xlator.checkData _ data) as [e | []]; [ discriminate | ].
  rewrite Hr.
  destruct (DatapointM._owner DPTID self) as [owner | ]; [ | discriminate ].
  unfold Eff.result, Eff.final, Eff.trace. cbn [fst snd]. intros _. split.
  - now apply set_data_same.
  - exists owner, oldValue. rewrite !notifications_app, Ht0. reflexivity.
Qed.

Lemma value_setter_notifies_unchanged_witness :
  let self :=
    DatapointM.mkDatapoint string (Some "block"%string) "lamp" "1.xxx" "output"
      PNone (Some 1) None None
      (DPTXlatorBoolean.create DPTXlatorBoolean.DPT_Generic)
      (DPTXlatorBoolean.create DPTXlatorBoolean.DPT_Generic) in
  let out := DatapointM.value_setter string (PInt 1) self in
  Eff.final out = self
  /\ exists owner x,
       DatapointM.notifications (Eff.trace out) =
         [DatapointM.Signal_emit x x; DatapointM.Owner_notify owner "lamp" x x].
Proof.
  intros self.
  apply (value_setter_notifies_unchanged string self (PInt 1) 1 eq_refl eq_refl eq_refl).
Defined.

Section Datapoint_construction.
Variable DPTID : Type.
Variable DPTID_init : string -> exn + DPTID.
Variable DPTID_generic : DPTID -> DPTID.
Variable DPTID_ne : DPTID -> DPTID -> bool.
Variable Flags_new : string -> exn + Flags.
Variable Priority_new : string -> exn + Priority.
Variable Factory_create : DPTID -> exn + Xlator.DPTXlator.

(** What [__init__] has assigned when it reaches the default value. *)
Lemma fresh_fields owner name access dptId default flags priority self :
  DatapointM.fresh DPTID DPTID_init DPTID_generic DPTID_ne Flags_new
    Priority_new Factory_create owner name access dptId default flags priority
    = inr self ->
  DatapointM._owner DPTID self = owner
  /\ DatapointM._name DPTID self = name
  /\ DatapointM._access DPTID self = access
  /\ DatapointM._default DPTID self = default
  /\ DatapointM._data DPTID self = None
  /\ access ∈ ["input"; "output"; "param"]%string
  /\ Factory_create (DatapointM._dptId DPTID self)
       = inr (DatapointM._dptXlator DPTID self).
Proof.
  unfold DatapointM.fresh. intros H.
  destruct (bool_decide (access ∈ ["input"; "output"; "param"]%string)) eqn:Hacc;
    simpl in H; [ | discriminate ].
  apply bool_decide_eq_true in Hacc. unfold DatapointM.ebind in H.
  destruct (match dptId with inl i => inr i | inr s => DPTID_init s end)
    as [e | i]; [ discriminate | ].
  destruct (DatapointM.opt_new Flags_new flags) as [e | fl]; [ discriminate | ].
  destruct (DatapointM.opt_new Priority_new priority) as [e | pr]; [ discriminate | ].
  destruct (Factory_create i) as [e | x] eqn:Hx; [ discriminate | ].
  destruct (if DPTID_ne i (DPTID_generic i) then Factory_create (DPTID_generic i)
            else inr x) as [e | xg]; [ discriminate | ].
  inversion H; subst self. simpl. repeat split; assumption.
Qed.

(** [_setValue] step by step. *)
Lemma setValue_eval (v : pyobj) (self : DatapointM.Datapoint DPTID) :
  DatapointM._setValue DPTID v self =
    match Xlator.checkValue (DatapointM._dptXlator DPTID self) v with
    | inl e => (inl e, self, [DatapointM.X_checkValue v])
    | inr _ =>
        match Xlator.valueToData (DatapointM._dptXlator DPTID self) v with
        | inl e => (inl e, self, [DatapointM.X_checkValue v; DatapointM.X_valueToData v])
        | inr data =>
            let tr := [DatapointM.X_checkValue v; DatapointM.X_valueToData v;
                       DatapointM.X_checkData data] in
            match Xlator.checkData (DatapointM._dptXlator DPTID self) data with
            | inl e => (inl e, self, tr)
            | inr _ => (inr tt, DatapointM.set_data DPTID self data, tr)
            end
        end
    end.
Proof.
  unfold DatapointM._setValue.
  unfold Eff.bind at 1, Eff.get at 1. unfold Eff.bind at 1, Eff.emit at 1.
  unfold Eff.bind at 1, Eff.lift at 1.
  destruct (Xlator.checkValue _ v) as [e | []]; [ reflexivity | ].
  unfold Eff.bind at 1, Eff.emit at 1. unfold Eff.bind at 1, Eff.lift at 1.
  destruct (Xlator.valueToData _ v) as [e | data]; [ reflexivity | ].
  rewrite setData_eval.
  destruct (Xlator.checkData _ data) as [e | []]; reflexivity.
Qed.
End Datapoint_construction.

(** X13: what [Datapoint.__init__] leaves behind.  An access mode other
    than 'input', 'output' or 'param' raises [DatapointValueError] before
    any collaborator is called.  When construction returns, owner, name,
    access mode and default are the arguments, the translator is the one
    the factory gives for the datapoint's DPTID, and nobody was notified;
    without default nothing is cached and no call was made; with a default
    the cached data is [valueToData(default)], which passed [checkValue]
    and [checkData].  A default the translator refuses makes
    construction itself raise. *)
Theorem Datapoint_init_outcome
    (DPTID : Type) (DPTID_init : string -> exn + DPTID)
    (DPTID_generic : DPTID -> DPTID) (DPTID_ne : DPTID -> DPTID -> bool)
    (Flags_new : string -> exn + Flags) (Priority_new : string -> exn + Priority)
    (Factory_create : DPTID -> exn + Xlator.DPTXlator)
    (owner : option string) (name access : string) (dptId : DPTID + string)
    (default : pyobj) (flags priority : option string) :
  let out := DatapointM.init DPTID DPTID_init DPTID_generic DPTID_ne Flags_new
               Priority_new Factory_create owner name access dptId default
               flags priority in
  (access ∉ ["input"; "output"; "param"]%string ->
     out = (inl DatapointValueError, []))
  /\ (forall self t,
        out = (inr self, t) ->
        let xl := DatapointM._dptXlator DPTID self in
        DatapointM._owner DPTID self = owner
        /\ DatapointM._name DPTID self = name
        /\ DatapointM._access DPTID self = access
        /\ access ∈ ["input"; "output"; "param"]%string
        /\ DatapointM._default DPTID self = default
        /\ Factory_create (DatapointM._dptId DPTID self) = inr xl
        /\ DatapointM.notifications t = []
        /\ DatapointCalls.data_checked DPTID self
        /\ (default = PNone -> DatapointM._data DPTID self = None /\ t = [])
        /\ (default <> PNone ->
            exists data,
              Xlator.checkValue xl default = inr tt
              /\ Xlator.valueToData xl default = inr data
              /\ DatapointM._data DPTID self = Some data))
  /\ (forall self0 e,
        DatapointM.fresh DPTID DPTID_init DPTID_generic DPTID_ne Flags_new
          Priority_new Factory_create owner name access dptId default
          flags priority = inr self0 ->
        default <> PNone ->
        Xlator.checkValue (DatapointM._dptXlator DPTID self0) default = inl e ->
        out.1 = inl e).
Proof.
  intros out. subst out. unfold DatapointM.init. split; [ | split ].
  - intros Hacc. unfold DatapointM.fresh.
    rewrite bool_decide_eq_false_2 by exact Hacc. reflexivity.
  - intros self t.
    destruct (DatapointM.fresh _ _ _ _ _ _ _ _ _ _ _ _ _ _) as [e | self0] eqn:E;
      [ discriminate | ].
    apply fresh_fields in E as (Ho & Hn & Ha & Hd & Hdata & Hacc & Hx).
    destruct (pyobj_eqb default PNone) eqn:Hnone; simpl.
    + apply pyobj_eqb_eq in Hnone. intros H. inversion H; subst self0 t.
      unfold DatapointCalls.data_checked. rewrite Hdata. cbv zeta.
      repeat (split; [ first [ assumption | reflexivity | exact I ] | ]).
      split; [ intros _; split; reflexivity | intros Hne; contradiction ].
    + rewrite setValue_eval.
      destruct (Xlator.checkValue _ default) as [e | []] eqn:Hc; [ discriminate | ].
      destruct (Xlator.valueToData _ default) as [e | data] eqn:Hv; [ discriminate | ].
      cbv zeta.
      destruct (Xlator.checkData _ data) as [e | []] eqn:Hk; [ discriminate | ].
      intros H. inversion H; subst self t.
      unfold DatapointCalls.data_checked. simpl.
      repeat (split; [ first [ assumption | reflexivity | exact I ] | ]).
      split.
      * intros ->. simpl in Hnone. discriminate.
      * intros _. exists data. repeat split; assumption.
  - intros self0 e -> Hne Hc.
    destruct (pyobj_eqb default PNone) eqn:Hnone.
    + apply pyobj_eqb_eq in Hnone. contradiction.
    + simpl. rewrite setValue_eval, Hc. reflexivity.
Qed.

Lemma Datapoint_init_outcome_witness :
  let create := fun _ : string =>
    inr (DPTXlatorBoolean.create DPTXlatorBoolean.DPT_Switch) : exn + Xlator.DPTXlator in
  let init := DatapointM.init string inr (fun i => i) (fun _ _ => false)
                (fun s => inr (mkFlags s)) (fun _ => inr low) create
                (Some "block"%string) "lamp" in
  init "inout"%string (inr "1.001"%string) (PStr "On") None None
    = (inl DatapointValueError, [])
  /\ (exists self t,
        init "output"%string (inr "1.001"%string) (PStr "On") None None = (inr self, t)
        /\ DatapointM._data string self = Some 1
        /\ DatapointM.notifications t = [])
  /\ (init "output"%string (inr "1.001"%string) (PStr "Up") None None).1
       = inl DPTXlatorValueError.
Proof.
  intros create init. subst init. split; [ | split ].
  - apply (Datapoint_init_outcome string inr (fun i => i) (fun _ _ => false)
             (fun s => inr (mkFlags s)) (fun _ => inr low) create
             (Some "block"%string) "lamp" "inout" (inr "1.001"%string)
             (PStr "On") None None).
    vm_compute. intros H. repeat (apply elem_of_cons in H as [H | H]; [ discriminate | ]).
    inversion H.
  - destruct (Datapoint_init_outcome string inr (fun i => i) (fun _ _ => false)
                (fun s => inr (mkFlags s)) (fun _ => inr low) create
                (Some "block"%string) "lamp" "output" (inr "1.001"%string)
                (PStr "On") None None) as (_ & H & _).
    do 2 eexists. split; [ reflexivity | ].
    specialize (H _ _ eq_refl). cbv zeta in H.
    destruct H as (_ & _ & _ & _ & _ & _ & Hn & _ & _ & Hd).
    split; [ | exact Hn ].
    destruct (Hd ltac:(discriminate)) as (data & _ & Hv & Hdata).
    rewrite Hdata. vm_compute in Hv. inversion Hv. reflexivity.
  - destruct (Datapoint_init_outcome string inr (fun i => i) (fun _ _ => false)
                (fun s => inr (mkFlags s)) (fun _ => inr low) create
                (Some "block"%string) "lamp" "output" (inr "1.001"%string)
                (PStr "Up") None None) as (_ & _ & H).
    eapply H; [ reflexivity | discriminate | reflexivity ].
Defined.

Section Datapoint_invariants.
Variable DPTID : Type.

Lemma same_but_data_refl (a : DatapointM.Datapoint DPTID) :
  DatapointCalls.same_but_data DPTID a a.
Proof. unfold DatapointCalls.same_but_data. repeat split. Qed.

Lemma same_but_data_trans (a b c : DatapointM.Datapoint DPTID) :
  DatapointCalls.same_but_data DPTID a b ->
  DatapointCalls.same_but_data DPTID b c ->
  DatapointCalls.same_but_data DPTID a c.
Proof.
  unfold DatapointCalls.same_but_data.
  intros (H1 & H2 & H3 & H4 & H5 & H6 & H7 & H8 & H9)
         (G1 & G2 & G3 & G4 & G5 & G6 & G7 & G8 & G9).
  repeat split; congruence.
Qed.

(** Caching a checked data keeps the rest and the invariant. *)
Lemma set_data_keeps (self : DatapointM.Datapoint DPTID) (data : Z) :
  Xlator.checkData (DatapointM._dptXlator DPTID self) data = inr tt ->
  DatapointCalls.same_but_data DPTID self (DatapointM.set_data DPTID self data)
  /\ DatapointCalls.data_checked DPTID (DatapointM.set_data DPTID self data).
Proof.
  intros Hk. split.
  - unfold DatapointCalls.same_but_data. repeat split.
  - unfold DatapointCalls.data_checked. simpl. exact Hk.
Qed.

(** One access keeps everything but the cached data, and keeps the cached
    data checked. *)
Lemma method_keeps (c : DatapointCalls.call) (self : DatapointM.Datapoint DPTID) :
  DatapointCalls.data_checked DPTID self ->
  let self' := Eff.final (DatapointCalls.method DPTID c self) in
  DatapointCalls.same_but_data DPTID self self'
  /\ DatapointCalls.data_checked DPTID self'.
Proof.
  intros Hinv self'. subst self'.
  destruct (value_cases DPTID self) as (r & t0 & Hv & _ & _).
  destruct c as [ | v | frame ]; unfold DatapointCalls.method.
  - unfold Eff.bind. rewrite Hv. destruct r; simpl;
      (split; [ apply same_but_data_refl | exact Hinv ]).
  - rewrite (value_setter_eval DPTID self v r t0 Hv). cbv zeta.
    destruct r as [e | old];
      [ split; [ apply same_but_data_refl | exact Hinv ] | ].
    destruct (Xlator.checkValue _ v) as [e | []];
      [ split; [ apply same_but_data_refl | exact Hinv ] | ].
    destruct (Xlator.valueToData _ v) as [e | data];
      [ split; [ apply same_but_data_refl | exact Hinv ] | ].
    destruct (Xlator.checkData _ data) as [e | []] eqn:Hk;
      [ split; [ apply same_but_data_refl | exact Hinv ] | ].
    destruct (Xlator.dataToValue _ data);
      [ now apply set_data_keeps | ].
    destruct (DatapointM._owner DPTID self); now apply set_data_keeps.
  - rewrite (frame_setter_eval DPTID self frame r t0 Hv). cbv zeta.
    destruct r as [e | old];
      [ split; [ apply same_but_data_refl | exact Hinv ] | ].
    destruct (Xlator.frameToData _ frame) as [e | data];
      [ split; [ apply same_but_data_refl | exact Hinv ] | ].
    destruct (Xlator.checkData _ data) as [e | []] eqn:Hk;
      [ split; [ apply same_but_data_refl | exact Hinv ] | ].
    destruct (DatapointM._owner DPTID self); [ | now apply set_data_keeps ].
    destruct (Xlator.dataToValue _ data); now apply set_data_keeps.
Qed.
End Datapoint_invariants.

(** X14: what no sequence of accesses can do to a datapoint.  Starting
    from a datapoint whose cached data (if any) passed [checkData], after
    any reads of [value] and assignments of [value] and [frame], returned
    or raised, owner, name, DPTID, access mode, default, flags, priority
    and both translators are the same objects as before, and the cached
    data (if any) is still one that [checkData] accepts. *)
Theorem Datapoint_calls_invariant
    (DPTID : Type) (cs : list DatapointCalls.call)
    (self : DatapointM.Datapoint DPTID) :
  DatapointCalls.data_checked DPTID self ->
  let self' := (DatapointCalls.calls DPTID cs self).1 in
  DatapointCalls.same_but_data DPTID self self'
  /\ DatapointCalls.data_checked DPTID self'.
Proof.
  revert self. induction cs as [ | c cs IH ]; intros self Hinv; simpl.
  - split; [ apply same_but_data_refl | exact Hinv ].
  - destruct (method_keeps DPTID c self Hinv) as [Hs Hk].
    destruct (DatapointCalls.method DPTID c self) as [[r self1] t1].
    unfold Eff.final in *. simpl in *.
    destruct (IH self1 Hk) as [IHs IHk].
    destruct (DatapointCalls.calls DPTID cs self1) as [self2 t2]. simpl in *.
    split; [ | exact IHk ].
    now apply (same_but_data_trans DPTID self self1 self2).
Qed.

Lemma Datapoint_calls_invariant_witness :
  let self :=
    DatapointM.mkDatapoint string None "lamp" "1.xxx" "output"
      PNone None None None
      (DPTXlatorBoolean.create DPTXlatorBoolean.DPT_Generic)
      (DPTXlatorBoolean.create DPTXlatorBoolean.DPT_Generic) in
  let cs := [DatapointCalls.SetValue (PInt 7); DatapointCalls.SetFrame [0x01];
             DatapointCalls.GetValue; DatapointCalls.SetFrame [0x02]] in
  DatapointCalls.data_checked string (DatapointCalls.calls string cs self).1
  /\ DatapointM._data string (DatapointCalls.calls string cs self).1 = Some 1.
Proof.
  intros self cs. split.
  - apply (Datapoint_calls_invariant string cs self). exact I.
  - reflexivity.
Defined.

(** X15: write, then read, on a datapoint bound to a translator of the
    Boolean registry.  After an assignment of [value] that returned,
    reading [value] gives back the value assigned; after an assignment of
    [frame] that returned, reading [value] gives the entry of the DPT's
    limits at the position the frame's byte holds in its low 6 bits. *)
Theorem Boolean_datapoint_read_after_write
    (DPTID : Type) (self : DatapointM.Datapoint DPTID)
    (d : DPTm.DPT string) (v : pyobj) (b : Z) :
  DatapointM._dptXlator DPTID self = DPTXlatorBoolean.create d ->
  (let out := DatapointM.value_setter DPTID v self in
   Eff.result out = inr tt ->
   Eff.result (DatapointM.value DPTID (Eff.final out)) = inr v)
  /\ (let out := DatapointM.frame_setter DPTID [b] self in
      Eff.result out = inr tt ->
      (Z.land b 0x3f = 0 \/ Z.land b 0x3f = 1)
      /\ Eff.result (DatapointM.value DPTID (Eff.final out)) =
           py_getitem (DPTm.limits string d) (Z.land b 0x3f)).
Proof.
  intros Hx.
  destruct (value_cases DPTID self) as (r & t0 & Hv & _ & _).
  split.
  - intros out. subst out.
    rewrite (value_setter_eval DPTID self v r t0 Hv). cbv zeta. rewrite Hx.
    destruct r as [e | old]; [ discriminate | ].
    destruct (Xlator.checkValue _ v) as [e | []] eqn:Hc; [ discriminate | ].
    destruct (boolean_round_trips d) as [Hrt _].
    destruct (Hrt v Hc) as (data & Hvd & Hdv). simpl in Hvd, Hdv |- *.
    rewrite Hvd. destruct (DPTXlatorBoolean.checkData data); [ discriminate | ].
    rewrite Hdv. destruct (DatapointM._owner DPTID self); [ | discriminate ].
    intros _. unfold Eff.final. cbn [fst snd].
    rewrite value_eval. simpl. rewrite Hx. simpl. exact Hdv.
  - intros out. subst out.
    rewrite (frame_setter_eval DPTID self [b] r t0 Hv). cbv zeta. rewrite Hx.
    destruct r as [e | old]; [ discriminate | ]. simpl.
    destruct (DPTXlatorBoolean.checkData (Z.land b 63)) as [e | []] eqn:Hk;
      [ discriminate | ].
    destruct (DatapointM._owner DPTID self); [ | discriminate ].
    destruct (DPTXlatorBoolean.dataToValue d (Z.land b 63)) eqn:Hdv;
      [ discriminate | ].
    intros _. unfold Eff.final. cbn [fst snd]. split.
    + unfold DPTXlatorBoolean.checkData in Hk.
      destruct (Z.land b 63 =? 0) eqn:E0; [ left; now apply Z.eqb_eq | ].
      destruct (Z.land b 63 =? 1) eqn:E1; [ right; now apply Z.eqb_eq | ].
      discriminate.
    + rewrite value_eval. simpl. rewrite Hx. simpl. rewrite Hdv.
      unfold Eff.result. cbn [fst snd]. rewrite <- Hdv. reflexivity.
Qed.

Lemma Boolean_datapoint_read_after_write_witness :
  let self :=
    DatapointM.mkDatapoint string (Some "block"%string) "lamp" "1.001" "output"
      PNone None None None
      (DPTXlatorBoolean.create DPTXlatorBoolean.DPT_Switch)
      (DPTXlatorBoolean.create DPTXlatorBoolean.DPT_Generic) in
  Eff.result (DatapointM.value string
                (Eff.final (DatapointM.value_setter string (PStr "On") self)))
    = inr (PStr "On")
  /\ Eff.result (DatapointM.value string
                   (Eff.final (DatapointM.frame_setter string [0x40] self)))
       = inr (PStr "Off").
Proof.
  intros self.
  destruct (Boolean_datapoint_read_after_write string self
              DPTXlatorBoolean.DPT_Switch (PStr "On") 0x40 eq_refl) as [Hv Hf].
  split; [ exact (Hv eq_refl) | ].
  destruct (Hf eq_refl) as [_ H]. exact H.
Defined.

(** ** Datapoint types, further *)

(** X16: the identifier is settled before the limits are looked at: an
    identifier string that [DPTID] refuses makes [DPT.__init__] raise
    [DPTID]'s exception whatever the limits are, and a [DPTID] instance is
    taken as it is, without [DPTID] being called.  A DPT that was built
    keeps the identifier, description and unit it was given, and building
    a DPT again from its own attributes gives an equal DPT. *)
Theorem DPT_init_identifier_first
    (DPTID : Type) (DPTID_init DPTID_init' : string -> exn + DPTID)
    (dptId : DPTID + string) (desc : string) (limits : pyobj)
    (unit : option string) :
  let out := DPTm.DPT_init DPTID DPTID_init dptId desc limits unit in
  (forall s e, dptId = inr s -> DPTID_init s = inl e -> out = inl e)
  /\ (forall i, dptId = inl i ->
        out = DPTm.DPT_init DPTID DPTID_init' dptId desc limits unit)
  /\ (forall d, out = inr d ->
        (match dptId with inl i => inr i | inr s => DPTID_init s end)
          = inr (DPTm._id DPTID d)
        /\ DPTm._desc DPTID d = desc
        /\ DPTm._unit DPTID d = unit
        /\ DPTm.DPT_init DPTID DPTID_init (inl (DPTm._id DPTID d))
             (DPTm._desc DPTID d) (PTuple (DPTm.limits DPTID d))
             (DPTm._unit DPTID d) = inr d).
Proof.
  intros out. subst out. unfold DPTm.DPT_init. split; [ | split ].
  - intros s e -> ->. reflexivity.
  - intros i ->. reflexivity.
  - intros d.
    destruct (match dptId with inl i => inr i | inr s => DPTID_init s end)
      as [e | i]; [ discriminate | ].
    destruct (py_tuple limits) as [[] | items]; try discriminate.
    intros H. inversion H; subst d. simpl. repeat split.
Qed.

Lemma DPT_init_identifier_first_witness :
  let reject := fun s : string =>
    if String.eqb s "9.001" then inr s else inl DPTIDValueError : exn + string in
  DPTm.DPT_init string reject (inr "9,001"%string) "Temperature" (PInt (-273)) None
    = inl DPTIDValueError
  /\ exists d,
       DPTm.DPT_init string reject (inr "9.001"%string) "Temperature"
         (PList [PInt (-273); PInt 670760]) (Some "C"%string) = inr d
       /\ DPTm.DPT_init string reject (inl (DPTm._id string d)) (DPTm._desc string d)
            (PTuple (DPTm.limits string d)) (DPTm._unit string d) = inr d.
Proof.
  intros reject. split.
  - destruct (DPT_init_identifier_first string reject reject (inr "9,001"%string)
                "Temperature" (PInt (-273)) None) as (H & _).
    apply (H "9,001"%string); reflexivity.
  - destruct (DPT_init_identifier_first string reject reject (inr "9.001"%string)
                "Temperature" (PList [PInt (-273); PInt 670760]) (Some "C"%string))
      as (_ & _ & H).
    eexists. split; [ reflexivity | ]. apply (H _ eq_refl).
Defined.

(** ** Read-only dictionaries *)

Global Instance tuple_le_trans : Transitive FrozenDictM.tuple_le.
Proof. intros [a1 a2] [b1 b2] [c1 c2]. unfold FrozenDictM.tuple_le. simpl. lia. Qed.

Global Instance tuple_le_total : Total FrozenDictM.tuple_le.
Proof. intros [a1 a2] [b1 b2]. unfold FrozenDictM.tuple_le. simpl. lia. Qed.

Global Instance tuple_le_antisymm : AntiSymm eq FrozenDictM.tuple_le.
Proof.
  intros [a1 a2] [b1 b2]. unfold FrozenDictM.tuple_le. simpl.
  intros H1 H2. f_equal; lia.
Qed.

(** Sorting forgets the order the items came in. *)
Lemma sorted_Permutation (a b : FrozenDictM.dict_items) :
  a ≡ₚ b -> FrozenDictM.sorted a = FrozenDictM.sorted b.
Proof.
  intros Hab. unfold FrozenDictM.sorted.
  apply (sorting.StronglySorted_unique FrozenDictM.tuple_le).
  - apply sorting.StronglySorted_merge_sort; apply _.
  - apply sorting.StronglySorted_merge_sort; apply _.
  - now rewrite !sorting.merge_sort_Permutation.
Qed.

(** Pairs with distinct keys make a dict with these items in this order. *)
Lemma dict_init_NoDup (pairs : list (Z * Z)) :
  NoDup pairs.*1 -> FrozenDictM.dict_init pairs = pairs.
Proof.
  unfold FrozenDictM.dict_init.
  assert (H : forall acc : FrozenDictM.dict_items,
             NoDup (acc ++ pairs).*1 ->
             foldl (fun d kv => FrozenDictM.dict_setitem d kv.1 kv.2) acc pairs
             = acc ++ pairs).
  { induction pairs as [ | [k v] pairs IH ]; intros acc Hnd; simpl.
    - now rewrite app_nil_r.
    - assert (Hset : FrozenDictM.dict_setitem acc k v = acc ++ [(k, v)]).
      { clear IH. induction acc as [ | [k' v'] acc IHacc ]; simpl; [ reflexivity | ].
        simpl in Hnd. apply NoDup_cons in Hnd as [Hk' Hnd].
        destruct (k =? k') eqn:E.
        - apply Z.eqb_eq in E. subst k'. exfalso. apply Hk'.
          rewrite fmap_app. apply elem_of_app. right. simpl. apply elem_of_cons.
          now left.
        - f_equal. now apply IHacc. }
      rewrite Hset, IH; rewrite <- app_assoc; [ reflexivity | exact Hnd ]. }
  intros Hnd. now apply (H []).
Qed.

(** X17: the hash of a [FrozenDict] depends on its items only, not on the
    order the dict holds them in: two frozen dicts whose items are the same
    up to order have the same hash (whether or not either has its hash
    cached already, as long as a cached hash is the one [__hash__]
    stored); in particular two frozen dicts built from the same pairs with
    distinct keys, given in any order, hash alike. *)
Theorem FrozenDict_hash_order
    (py_hash : list (Z * Z) -> Z) (a b : FrozenDictM.FrozenDict)
    (pairs1 pairs2 : list (Z * Z)) :
  (FrozenDictM.cache_ok py_hash a ->
   FrozenDictM.cache_ok py_hash b ->
   FrozenDictM.content a ≡ₚ FrozenDictM.content b ->
   (FrozenDictM.hash py_hash a).1.1 = (FrozenDictM.hash py_hash b).1.1)
  /\ (NoDup pairs1.*1 ->
      pairs1 ≡ₚ pairs2 ->
      (FrozenDictM.hash py_hash (FrozenDictM.new pairs1)).1.1
      = (FrozenDictM.hash py_hash (FrozenDictM.new pairs2)).1.1).
Proof.
  split.
  - unfold FrozenDictM.cache_ok, FrozenDictM.hash. intros Ha Hb Hab.
    destruct (FrozenDictM._cachedHash a), (FrozenDictM._cachedHash b); simpl;
      subst; now rewrite (sorted_Permutation _ _ Hab).
  - intros Hnd Hp. unfold FrozenDictM.hash, FrozenDictM.new. simpl.
    assert (Hnd2 : NoDup pairs2.*1) by now rewrite <- Hp.
    rewrite (dict_init_NoDup _ Hnd), (dict_init_NoDup _ Hnd2).
    now rewrite (sorted_Permutation _ _ Hp).
Qed.

Lemma FrozenDict_hash_order_witness :
  let py_hash := fun t : list (Z * Z) => foldr (fun kv h => 31 * h + kv.1 + kv.2) 7 t in
  (FrozenDictM.hash py_hash (FrozenDictM.new [(1, 10); (2, 20); (3, 30)])).1.1
  = (FrozenDictM.hash py_hash (FrozenDictM.new [(3, 30); (1, 10); (2, 20)])).1.1.
Proof.
  intros py_hash.
  destruct (FrozenDict_hash_order py_hash (FrozenDictM.new []) (FrozenDictM.new [])
              [(1, 10); (2, 20); (3, 30)] [(3, 30); (1, 10); (2, 20)]) as [_ H].
  apply H.
  - apply NoDup_ListNoDup. repeat constructor; simpl; intuition lia.
  - change [(3, 30); (1, 10); (2, 20)] with ([(3, 30)] ++ [(1, 10); (2, 20)]).
    change [(1, 10); (2, 20); (3, 30)] with ([(1, 10); (2, 20)] ++ [(3, 30)]).
    apply Permutation_app_comm.
Defined.

Section FrozenDict_uses.
Variable py_hash : list (Z * Z) -> Z.
Variable has_ior : bool.

(** A use that is no in-place union, or any use where [dict] has no
    [__ior__], writes nothing. *)
Lemma written_same (c : FrozenDictM.dict_items) (o : FrozenDictM.op) :
  has_ior = false \/ FrozenDictM.is_ior o = false ->
  FrozenDictM.written has_ior c o = c.
Proof.
  intros [-> | Ho]; destruct o; try reflexivity. discriminate.
Qed.

(** One use: what it writes, that it raises if it is a blocked one, and
    what becomes of the cached hash: a cached hash is answered and kept as
    it is, and without one only [__hash__] computes and stores one. *)
Lemma use_keeps (o : FrozenDictM.op) (self : FrozenDictM.FrozenDict) :
  match FrozenDictM.use py_hash has_ior o self with
  | (r, self', t) =>
      FrozenDictM.content self' = FrozenDictM.written has_ior (FrozenDictM.content self) o
      /\ (FrozenDictM.blocked o = true -> r = inl FrozenDictM.FrozenDictAttributeError)
      /\ match FrozenDictM._cachedHash self with
         | Some h =>
             t = [] /\ FrozenDictM._cachedHash self' = Some h
             /\ (o = FrozenDictM.Hash -> r = inr (Some h))
         | None =>
             (o <> FrozenDictM.Hash /\ t = [] /\ FrozenDictM._cachedHash self' = None)
             \/ (o = FrozenDictM.Hash
                 /\ t = [FrozenDictM.sorted (FrozenDictM.content self)]
                 /\ r = inr (Some (py_hash (FrozenDictM.sorted (FrozenDictM.content self))))
                 /\ FrozenDictM._cachedHash self'
                    = Some (py_hash (FrozenDictM.sorted (FrozenDictM.content self))))
         end
  end.
Proof.
  destruct o; simpl; unfold FrozenDictM.hash;
    try destruct has_ior;
    destruct (FrozenDictM._cachedHash self) as [h | ] eqn:Hc; simpl;
    rewrite ?Hc;
    (split; [ reflexivity | ]); (split; [ try discriminate; reflexivity | ]);
    try (split; [ reflexivity | split; [ reflexivity | ] ]; try discriminate; reflexivity);
    try (left; split; [ discriminate | split; reflexivity ]);
    try (right; repeat split).
Qed.

(** Once a hash is cached, it is the answer of every [__hash__] and
    nothing is hashed any more, whatever is written. *)
Lemma uses_cached (h : Z) (os : list FrozenDictM.op) (self : FrozenDictM.FrozenDict) :
  FrozenDictM._cachedHash self = Some h ->
  match FrozenDictM.uses py_hash has_ior os self with
  | (rs, self', t) =>
      FrozenDictM.content self'
      = foldl (FrozenDictM.written has_ior) (FrozenDictM.content self) os
      /\ Forall2 (fun o r => FrozenDictM.blocked o = true ->
                             r = inl FrozenDictM.FrozenDictAttributeError) os rs
      /\ t = []
      /\ FrozenDictM._cachedHash self' = Some h
      /\ Forall2 (fun o r => o = FrozenDictM.Hash -> r = inr (Some h)) os rs
  end.
Proof.
  revert self. induction os as [ | o os IH ]; intros self Hc; simpl.
  - repeat split; [ constructor | exact Hc | constructor ].
  - pose proof (use_keeps o self) as Huse.
    destruct (FrozenDictM.use py_hash has_ior o self) as [[r self1] t1].
    rewrite Hc in Huse. destruct Huse as (Hw & Hb & -> & Hc1 & Hh).
    specialize (IH self1 Hc1).
    destruct (FrozenDictM.uses py_hash has_ior os self1) as [[rs self2] t2].
    destruct IH as (Hw2 & Hb2 & -> & Hc2 & Hh2).
    split; [ now rewrite Hw2, Hw | ].
    split; [ now constructor | ].
    split; [ reflexivity | ]. split; [ exact Hc2 | now constructor ].
Qed.

(** Any sequence of uses. *)
Lemma uses_any (os : list FrozenDictM.op) (self : FrozenDictM.FrozenDict) :
  match FrozenDictM.uses py_hash has_ior os self with
  | (rs, self', t) =>
      FrozenDictM.content self'
      = foldl (FrozenDictM.written has_ior) (FrozenDictM.content self) os
      /\ Forall2 (fun o r => FrozenDictM.blocked o = true ->
                             r = inl FrozenDictM.FrozenDictAttributeError) os rs
      /\ (length t <= 1)%nat
      /\ (is_Some (FrozenDictM._cachedHash self) -> t = [])
      /\ (forall h, FrozenDictM._cachedHash self = Some h ->
                    FrozenDictM._cachedHash self' = Some h)
      /\ exists h0, Forall2 (fun o r => o = FrozenDictM.Hash -> r = inr (Some h0)) os rs
  end.
Proof.
  revert self. induction os as [ | o os IH ]; intros self.
  - simpl. repeat split; try constructor; try (simpl; lia); try tauto.
    exists 0. constructor.
  - destruct (FrozenDictM._cachedHash self) as [h | ] eqn:Hc.
    + pose proof (uses_cached h (o :: os) self Hc) as H.
      destruct (FrozenDictM.uses py_hash has_ior (o :: os) self) as [[rs self'] t].
      destruct H as (Hw & Hb & -> & Hc' & Hh).
      split; [ exact Hw | ]. split; [ exact Hb | ]. split; [ simpl; lia | ].
      split; [ reflexivity | ]. split; [ intros h' Heq; congruence | ].
      exists h. exact Hh.
    + simpl. pose proof (use_keeps o self) as Huse.
      destruct (FrozenDictM.use py_hash has_ior o self) as [[r self1] t1].
      rewrite Hc in Huse.
      destruct Huse as (Hw & Hb & [(Hno & -> & Hc1) | (-> & -> & -> & Hc1)]).
      * specialize (IH self1).
        destruct (FrozenDictM.uses py_hash has_ior os self1) as [[rs self2] t2].
        destruct IH as (Hw2 & Hb2 & Hlen & _ & _ & (h0 & Hh2)).
        split; [ now rewrite Hw2, Hw | ]. split; [ now constructor | ].
        split; [ exact Hlen | ].
        split; [ intros [x Hx]; discriminate | ].
        split; [ intros x Hx; discriminate | ].
        exists h0. constructor; [ intros Ho; contradiction | exact Hh2 ].
      * pose proof (uses_cached _ os self1 Hc1) as H.
        destruct (FrozenDictM.uses py_hash has_ior os self1) as [[rs self2] t2].
        destruct H as (Hw2 & Hb2 & -> & Hc2 & Hh2).
        split; [ now rewrite Hw2, Hw | ]. split; [ now constructor | ].
        split; [ simpl; lia | ].
        split; [ intros [x Hx]; discriminate | ].
        split; [ intros x Hx; discriminate | ].
        eexists. constructor; [ intros _; reflexivity | exact Hh2 ].
Qed.

(** Uses none of which is an in-place union that takes effect: the object
    is frozen. *)
Lemma uses_frozen (os : list FrozenDictM.op) (self : FrozenDictM.FrozenDict) :
  FrozenDictM.cache_ok py_hash self ->
  has_ior = false \/ Forall (fun o => FrozenDictM.is_ior o = false) os ->
  match FrozenDictM.uses py_hash has_ior os self with
  | (rs, self', t) =>
      FrozenDictM.content self' = FrozenDictM.content self
      /\ FrozenDictM.cache_ok py_hash self'
      /\ Forall2 (fun o r =>
                    o = FrozenDictM.Hash ->
                    r = inr (Some (py_hash (FrozenDictM.sorted (FrozenDictM.content self)))))
                 os rs
  end.
Proof.
  revert self. induction os as [ | o os IH ]; intros self Hok Hfrozen; simpl.
  - repeat split; [ exact Hok | constructor ].
  - assert (Ho : has_ior = false \/ FrozenDictM.is_ior o = false).
    { destruct Hfrozen as [H | H]; [ now left | right; now inversion H ]. }
    assert (Hos : has_ior = false \/ Forall (fun o => FrozenDictM.is_ior o = false) os).
    { destruct Hfrozen as [H | H]; [ now left | right; now inversion H ]. }
    pose proof (use_keeps o self) as Huse.
    destruct (FrozenDictM.use py_hash has_ior o self) as [[r self1] t1].
    destruct Huse as (Hw & _ & Hcache). rewrite (written_same _ _ Ho) in Hw.
    assert (Hok1 : FrozenDictM.cache_ok py_hash self1
                   /\ (o = FrozenDictM.Hash ->
                       r = inr (Some (py_hash (FrozenDictM.sorted (FrozenDictM.content self)))))).
    { unfold FrozenDictM.cache_ok in *.
      destruct (FrozenDictM._cachedHash self) as [h | ].
      - destruct Hcache as (_ & -> & Hh). rewrite Hw. split; [ exact Hok | ].
        intros Hhash. rewrite (Hh Hhash), Hok. reflexivity.
      - destruct Hcache as [(Hno & _ & ->) | (_ & _ & -> & ->)].
        + split; [ exact I | intros Hhash; contradiction ].
        + rewrite Hw. split; [ reflexivity | intros _; reflexivity ]. }
    destruct Hok1 as [Hok1 Hh].
    specialize (IH self1 Hok1 Hos).
    destruct (FrozenDictM.uses py_hash has_ior os self1) as [[rs self2] t2].
    destruct IH as (Hc2 & Hok2 & Hf).
    split; [ congruence | ]. split; [ exact Hok2 | ].
    constructor; [ exact Hh | ]. rewrite <- Hw. exact Hf.
Qed.
End FrozenDict_uses.

(** X18: how far a [FrozenDict] is frozen.  Over any sequence of uses
    among [__hash__], item reads, the seven blocked methods and the
    in-place union [|=]: every [__setitem__], [__delitem__], [pop],
    [popitem], [setdefault], [update] and [clear] raises
    [FrozenDictAttributeError]; [hash] is computed at most once over the
    whole sequence (not at all if a hash was cached before), a cached hash
    is never replaced, and all the [__hash__] calls of the sequence return
    one value; the content is the initial content with the writes of the
    in-place unions, which the class does not block: they take effect
    where [dict] has [__ior__] (elsewhere they raise [TypeError]).  So as
    long as no in-place union takes effect the content never changes and
    every [__hash__] returns the hash of the sorted items (for an object
    whose cached hash, if any, is the one [__hash__] stored); after one that
    does, the hash returned is a stale one. *)
Theorem FrozenDict_uses_invariant
    (py_hash : list (Z * Z) -> Z) (has_ior : bool) (os : list FrozenDictM.op)
    (self : FrozenDictM.FrozenDict) :
  match FrozenDictM.uses py_hash has_ior os self with
  | (rs, self', t) =>
      Forall2 (fun o r => FrozenDictM.blocked o = true ->
                          r = inl FrozenDictM.FrozenDictAttributeError) os rs
      /\ (length t <= 1)%nat
      /\ (is_Some (FrozenDictM._cachedHash self) -> t = [])
      /\ (forall h, FrozenDictM._cachedHash self = Some h ->
                    FrozenDictM._cachedHash self' = Some h)
      /\ (exists h0, Forall2 (fun o r => o = FrozenDictM.Hash -> r = inr (Some h0)) os rs)
      /\ FrozenDictM.content self'
         = foldl (FrozenDictM.written has_ior) (FrozenDictM.content self) os
      /\ (FrozenDictM.cache_ok py_hash self ->
          has_ior = false \/ Forall (fun o => FrozenDictM.is_ior o = false) os ->
          FrozenDictM.content self' = FrozenDictM.content self
          /\ FrozenDictM.cache_ok py_hash self'
          /\ Forall2 (fun o r =>
                        o = FrozenDictM.Hash ->
                        r = inr (Some (py_hash (FrozenDictM.sorted
                                                  (FrozenDictM.content self)))))
                     os rs)
  end.
Proof.
  pose proof (uses_any py_hash has_ior os self) as Hany.
  pose proof (uses_frozen py_hash has_ior os self) as Hfrozen.
  destruct (FrozenDictM.uses py_hash has_ior os self) as [[rs self'] t].
  destruct Hany as (Hw & Hb & Hlen & Hnone & Hkept & Hsame).
  split; [ exact Hb | ]. split; [ exact Hlen | ]. split; [ exact Hnone | ].
  split; [ exact Hkept | ]. split; [ exact Hsame | ]. split; [ exact Hw | ].
  exact Hfrozen.
Qed.

Lemma FrozenDict_uses_invariant_witness :
  let py_hash := fun t : list (Z * Z) => foldr (fun kv h => 31 * h + kv.1 + kv.2) 7 t in
  let frozen := [FrozenDictM.Getitem 2; FrozenDictM.Setitem 2 0; FrozenDictM.Hash;
                 FrozenDictM.Clear; FrozenDictM.Hash; FrozenDictM.Getitem 5] in
  let os := [FrozenDictM.Getitem 2; FrozenDictM.Setitem 2 0; FrozenDictM.Hash;
             FrozenDictM.Ior [(5, 50)]; FrozenDictM.Hash; FrozenDictM.Getitem 5] in
  let fd := FrozenDictM.new [(2, 20); (1, 10); (2, 21)] in
  FrozenDictM.content (FrozenDictM.uses py_hash true frozen fd).1.2 = [(2, 21); (1, 10)]
  /\ (FrozenDictM.uses py_hash true frozen fd).1.1 =
       [inr (Some 21); inl FrozenDictM.FrozenDictAttributeError; inr (Some 7451);
        inl FrozenDictM.FrozenDictAttributeError; inr (Some 7451);
        inl FrozenDictM.KeyError]
  /\ FrozenDictM.content (FrozenDictM.uses py_hash false os fd).1.2 = [(2, 21); (1, 10)]
  /\ (FrozenDictM.uses py_hash true os fd).1.1 =
       [inr (Some 21); inl FrozenDictM.FrozenDictAttributeError; inr (Some 7451);
        inr None; inr (Some 7451); inr (Some 50)]
  /\ FrozenDictM.content (FrozenDictM.uses py_hash true os fd).1.2
     = [(2, 21); (1, 10); (5, 50)]
  /\ py_hash (FrozenDictM.sorted [(2, 21); (1, 10); (5, 50)]) <> 7451.
Proof.
  intros py_hash frozen os fd.
  pose proof (FrozenDict_uses_invariant py_hash true frozen fd) as H1.
  pose proof (FrozenDict_uses_invariant py_hash false os fd) as H2.
  pose proof (FrozenDict_uses_invariant py_hash true os fd) as H3.
  destruct (FrozenDictM.uses py_hash true frozen fd) as [[rs1 fd1] t1] eqn:E1.
  destruct (FrozenDictM.uses py_hash false os fd) as [[rs2 fd2] t2] eqn:E2.
  destruct (FrozenDictM.uses py_hash true os fd) as [[rs3 fd3] t3] eqn:E3.
  destruct H1 as (_ & _ & _ & _ & _ & _ & H1).
  assert (Hfrozen : Forall (fun o => FrozenDictM.is_ior o = false) frozen)
    by (repeat constructor).
  destruct (H1 I (or_intror Hfrozen)) as (Hc1 & _ & _).
  destruct H2 as (_ & _ & _ & _ & _ & _ & H2).
  destruct (H2 I (or_introl eq_refl)) as (Hc2 & _ & _).
  destruct H3 as (_ & _ & _ & _ & _ & Hw3 & _).
  split; [ exact Hc1 | ].
  split; [ vm_compute in E1; now inversion E1 | ].
  split; [ exact Hc2 | ].
  split; [ vm_compute in E3; now inversion E3 | ].
  split; [ exact Hw3 | ].
  vm_compute. discriminate.
Defined.

(** ** The logger *)

Lemma lookup_level_None (table : list (string * Z)) (name : string) :
  LoggerM.lookup_level table name = None <-> name ∉ table.*1.
Proof.
  induction table as [ | [n l] table IH ]; simpl.
  - split; [ intros _ H; inversion H | reflexivity ].
  - destruct (String.eqb n name) eqn:E.
    + apply String.eqb_eq in E. subst n. split; [ discriminate | ].
      intros H. exfalso. apply H. apply elem_of_cons. now left.
    + apply String.eqb_neq in E. rewrite IH, not_elem_of_cons. split.
      * intros H. split; [ congruence | exact H ].
      * intros [_ H]. exact H.
Qed.

Lemma level_names_table : LoggerM.LEVELS.*1 = Logger_level_names.
Proof. reflexivity. Qed.

(** A level name is one of the seven. *)
Lemma level_name_cases (name : string) :
  name ∈ Logger_level_names ->
  name = "trace"%string \/ name = "debug"%string \/ name = "info"%string
  \/ name = "warning"%string \/ name = "error"%string
  \/ name = "exception"%string \/ name = "critical"%string.
Proof.
  unfold Logger_level_names. intros H.
  repeat (apply elem_of_cons in H as [H | H]; [ tauto | ]).
  inversion H.
Qed.

(** Only a name of the table gets through [setLevel]. *)
Lemma setLevel_name fmt name (self self' : LoggerM.Logger) :
  LoggerM.setLevel fmt name self = inr self' -> name ∈ Logger_level_names.
Proof.
  unfold LoggerM.setLevel. intros H.
  destruct (decide (name ∈ Logger_level_names)) as [Hin | Hout]; [ exact Hin | ].
  rewrite <- level_names_table in Hout. apply lookup_level_None in Hout.
  rewrite Hout in H. discriminate.
Qed.

(** X19: [setLevel] accepts exactly the seven level names.  For any
    other name it raises [LoggerValueError] and the logger is left alone;
    for one of the seven the logger's level becomes the number the table
    gives, and the format of the console handler is the configured one
    for 'trace' and 'debug' and the empty string from 'info' upwards. *)
Theorem Logger_setLevel_outcome
    (LOGGER_STREAM_FORMAT : string) (name : string) (self : LoggerM.Logger) :
  match LoggerM.setLevel LOGGER_STREAM_FORMAT name self with
  | inr self' =>
      name ∈ Logger_level_names
      /\ LoggerM.lookup_level LoggerM.LEVELS name = Some (LoggerM.level self')
      /\ 5 <= LoggerM.level self' <= 50
      /\ LoggerM.stream_format self' =
           (if bool_decide (name ∈ ["trace"; "debug"]%string)
            then LOGGER_STREAM_FORMAT else ""%string)
  | inl e => e = LoggerM.LoggerValueError /\ name ∉ Logger_level_names
  end.
Proof.
  unfold LoggerM.setLevel.
  destruct (decide (name ∈ Logger_level_names)) as [Hin | Hout].
  - destruct (level_name_cases name Hin)
      as [-> | [-> | [-> | [-> | [-> | [-> | ->]]]]]]; simpl;
      (split; [ exact Hin | ]); (split; [ reflexivity | ]);
      (split; [ unfold LoggerM.DEBUG, LoggerM.INFO, LoggerM.WARNING,
                  LoggerM.ERROR, LoggerM.CRITICAL; lia | reflexivity ]).
  - pose proof Hout as Hnone. rewrite <- level_names_table in Hnone.
    apply lookup_level_None in Hnone. rewrite Hnone. split; [ reflexivity | exact Hout ].
Qed.

(** X20: which records pass once a level is set by name.  A record of
    [exception()] goes out at level 45 with [exc_info]: it passes at every
    level except 'critical'; with [debug=True] it goes out at level 10 and
    passes only at 'trace' and 'debug'.  [trace()] passes only at 'trace',
    [critical()] always.  [log] with a level name that is not in the table
    raises [KeyError], and with a name of the table it never does. *)
Theorem Logger_threshold
    (LOGGER_STREAM_FORMAT : string) (name message : string)
    (self self' : LoggerM.Logger) :
  LoggerM.setLevel LOGGER_STREAM_FORMAT name self = inr self' ->
  LoggerM.exception message false self' =
    (if bool_decide (name = "critical"%string) then []
     else [LoggerM.Handled 45 message true])
  /\ LoggerM.exception message true self' =
       (if bool_decide (name ∈ ["trace"; "debug"]%string)
        then [LoggerM.Handled 10 message true] else [])
  /\ LoggerM.trace message self' =
       (if bool_decide (name = "trace"%string)
        then [LoggerM.Handled 5 message false] else [])
  /\ LoggerM.critical message self' = [LoggerM.Handled 50 message false]
  /\ (forall m, LoggerM.log (LoggerM.ByName m) message self' = inl LoggerM.KeyError
                <-> m ∉ Logger_level_names).
Proof.
  intros Hset. pose proof (setLevel_name _ _ _ _ Hset) as Hin.
  assert (Hkey : forall m, LoggerM.log (LoggerM.ByName m) message self'
                           = inl LoggerM.KeyError <-> m ∉ Logger_level_names).
  { intros m. unfold LoggerM.log. rewrite <- level_names_table, <- lookup_level_None.
    destruct (LoggerM.lookup_level LoggerM.LEVELS m); split; congruence. }
  unfold LoggerM.setLevel in Hset.
  destruct (level_name_cases name Hin)
    as [-> | [-> | [-> | [-> | [-> | [-> | ->]]]]]]; simpl in Hset;
    inversion Hset; subst self'; repeat split; try reflexivity; apply Hkey.
Qed.

Lemma Logger_threshold_witness :
  let muted := LoggerM.mkLogger 40 "" in
  LoggerM.exception "DPT.__init__()" true muted = []
  /\ LoggerM.exception "Stack.start()" false muted =
       [LoggerM.Handled 45 "Stack.start()" true].
Proof.
  intros muted.
  destruct (Logger_threshold "%(message)s" "error" "DPT.__init__()"
              (LoggerM.mkLogger 10 "%(message)s") muted eq_refl) as (_ & H & _).
  destruct (Logger_threshold "%(message)s" "error" "Stack.start()"
              (LoggerM.mkLogger 10 "%(message)s") muted eq_refl) as (H' & _).
  split; [ exact H | exact H' ].
Defined.

(** ** The monitor tool *)

(** X21: no subcommand of the monitor tool gets as far as the bus.
    Whatever the arguments, [write], [read], [response] and [monitor] never
    return: once the priority and the stack are built they raise
    [NameError], because the name [SimpleGroupObject] they instantiate (or
    pass to [super]) is bound nowhere in the module; the only calls made
    are the constructors of [Priority] and [Stack], so the stack is never
    started and nothing is sent. *)
Theorem monitor_tool_never_starts
    (Priority_init : string -> exn + Priority)
    (Stack_init : string -> exn + StackM.Stack)
    (write_rest : Priority -> StackM.Stack -> string -> string -> Monitor.M unit)
    (read_rest : Priority -> StackM.Stack -> Z -> bool -> string -> Monitor.M unit)
    (response_rest : Priority -> StackM.Stack -> string -> string -> Monitor.M unit)
    (monitor_rest : StackM.Stack -> Monitor.M unit)
    (c : Monitor.command) (src priority : string) :
  let out := Monitor.run Priority_init Stack_init write_rest read_rest
               response_rest monitor_rest c src priority in
  (exists e, out.2 = inl e)
  /\ Forall (fun ev => ev = Monitor.Priority_new priority
                       \/ ev = Monitor.Stack_new src) out.1
  /\ (forall p s,
        (c = Monitor.MonitorBus \/ Priority_init priority = inr p) ->
        Stack_init src = inr s ->
        out.2 = inl (Monitor.NameError "SimpleGroupObject")).
Proof.
  intros out. subst out.
  destruct c as [gad value | timeout wait gad | gad value | ]; simpl;
    unfold Monitor.write, Monitor.read, Monitor.response, Monitor.monitor,
      Monitor.as_priority, Monitor.new_stack;
    simpl;
    try (destruct (Priority_init priority) as [e1 | p1] eqn:Hp; simpl);
    destruct (Stack_init src) as [e2 | s2] eqn:Hs; simpl;
    (split; [ eauto | ]);
    (split; [ repeat constructor; tauto | ]);
    intros p s [Hc | Hc] Hs'; congruence.
Qed.

Lemma monitor_tool_never_starts_witness :
  let rest4 := fun (_ : Priority) (_ : StackM.Stack) (_ _ : string) =>
    ([Monitor.Stack_start; Monitor.Other "group.write"; Monitor.Stack_stop], inr tt)
    : Monitor.M unit in
  let rest5 := fun (_ : Priority) (_ : StackM.Stack) (_ : Z) (_ : bool) (_ : string) =>
    ([Monitor.Stack_start; Monitor.Other "group.read"; Monitor.Stack_stop], inr tt)
    : Monitor.M unit in
  let rest1 := fun _ : StackM.Stack => ([Monitor.Stack_mainLoop], inr tt) : Monitor.M unit in
  Monitor.run (fun _ => inr low) (fun _ => inr (StackM.mkStack (StackM.mkAGDS [])))
    rest4 rest5 rest4 rest1 (Monitor.Write "1/1/1" "1") "0.0.0" "low"
  = ([Monitor.Priority_new "low"; Monitor.Stack_new "0.0.0"],
     inl (Monitor.NameError "SimpleGroupObject")).
Proof.
  intros rest4 rest5 rest1.
  destruct (monitor_tool_never_starts (fun _ => inr low)
              (fun _ => inr (StackM.mkStack (StackM.mkAGDS [])))
              rest4 rest5 rest4 rest1 (Monitor.Write "1/1/1" "1") "0.0.0" "low")
    as (_ & _ & H).
  specialize (H low (StackM.mkStack (StackM.mkAGDS [])) (or_intror eq_refl) eq_refl).
  destruct (Monitor.run _ _ _ _ _ _ _ _ _) as [t r] eqn:E. simpl in H. subst r.
  vm_compute in E. now inversion E.
Defined.
